(** * PulseProof: the enhanced risk engine, the red-agent risk engine and the
    phase-2 orchestrator, embedded in Rocq.

    Sources embedded here:
    - [agents/shared/config.py]                         ([Config])
    - [agents/shared/models.py]                         ([EventType], [ProcessedEvent])
    - [agents/shared/enhanced_risk_engine.py]           (module-level definitions below)
    - [agents-reasoning/red_agent/risk_engine.py]       ([RedAgent])
    - [agents/master_orchestrator/phase2_orchestrator.py] ([Orchestrator])

    Modelling conventions.
    - Python [float] values are exact rationals ([Q]); there is no rounding,
      overflow, infinity or NaN in the model.  Python [int] is [Z].
    - A [dict] used as a map is a [gmap]; a [dict] with a fixed set of keys is a
      record whose fields carry the keys' names.
    - Exceptions are values of type [exn]; code that may raise lives in the
      monad [M], which threads the engine's mutable state ([engine]) and the
      index of the next interaction with the outside world ([tick]).
    - The outside world (wall clock, HTTP endpoints, the [int] builtin on
      strings) is a [World]: every read of the clock and every HTTP request
      consumes one tick, so answers may differ from one call to the next. *)

From Stdlib Require Import QArith Qminmax Lqa ZArith Lia Ascii String.
From stdpp Require Import gmap strings list pretty sorting.

Local Open Scope Q_scope.
Local Open Scope string_scope.
Local Open Scope list_scope.

(** ** Rational comparisons as booleans *)

Definition Qltb (x y : Q) : bool := (Qnum x * QDen y <? Qnum y * QDen x)%Z.
Definition Qleb (x y : Q) : bool := (Qnum x * QDen y <=? Qnum y * QDen x)%Z.
Definition Qgtb (x y : Q) : bool := Qltb y x.
Definition Qgeb (x y : Q) : bool := Qleb y x.
Definition Qeqb (x y : Q) : bool := (Qnum x * QDen y =? Qnum y * QDen x)%Z.

(** Python's [min(a, b)] and [max(a, b)] on two numbers: the first argument
    wins a tie. *)
Definition py_min (a b : Q) : Q := if Qltb b a then b else a.
Definition py_max (a b : Q) : Q := if Qgtb b a then b else a.

(** ** Strings *)

Definition is_upper (c : ascii) : bool :=
  let n := nat_of_ascii c in (65 <=? n)%nat && (n <=? 90)%nat.
Definition is_lower (c : ascii) : bool :=
  let n := nat_of_ascii c in (97 <=? n)%nat && (n <=? 122)%nat.
Definition to_lower (c : ascii) : ascii :=
  if is_upper c then ascii_of_nat (nat_of_ascii c + 32) else c.
Definition to_upper (c : ascii) : ascii :=
  if is_lower c then ascii_of_nat (nat_of_ascii c - 32) else c.

(** [str.lower()] on ASCII text. *)
Fixpoint lower (s : string) : string :=
  match s with
  | EmptyString => EmptyString
  | String c s' => String (to_lower c) (lower s')
  end.

(** [str.title()] on ASCII text: a letter that follows a non-letter is put in
    upper case, every other letter in lower case. *)
Fixpoint title_from (in_word : bool) (s : string) : string :=
  match s with
  | EmptyString => EmptyString
  | String c s' =>
      let letter := is_upper c || is_lower c in
      String (if in_word then to_lower c else to_upper c) (title_from letter s')
  end.
Definition title (s : string) : string := title_from false s.

Fixpoint startswith (s p : string) {struct p} : bool :=
  match p, s with
  | EmptyString, _ => true
  | String a p', String b s' => if Ascii.eqb a b then startswith s' p' else false
  | String _ _, EmptyString => false
  end.

Fixpoint endswith (s p : string) : bool :=
  match s with
  | EmptyString => String.eqb p EmptyString
  | String _ s' => if String.eqb s p then true else endswith s' p
  end.

(** [s.replace(old, new)] for a non-empty [old]: occurrences are replaced from
    left to right without overlap; [skip] counts the characters of a match
    that are still to be dropped. *)
Fixpoint replace_from (old new : string) (skip : nat) (s : string) : string :=
  match s with
  | EmptyString => EmptyString
  | String c s' =>
      match skip with
      | S k => replace_from old new k s'
      | O =>
          if startswith s old
          then new +:+ replace_from old new (String.length old - 1) s'
          else String c (replace_from old new 0 s')
      end
  end.
Definition replace (old new s : string) : string := replace_from old new 0 s.

(** ** Python values that arrive from JSON bodies *)

Inductive pyval :=
  | PNone
  | PBool (b : bool)
  | PInt (z : Z)
  | PFloat (q : Q)
  | PStr (s : string).

(** ** Exceptions and the engine's monad *)

Record exn := Exn { exn_class : string; exn_str : string }.

Inductive result (A : Type) :=
  | Ok (a : A)
  | Raise (e : exn).
Arguments Ok {A} a.
Arguments Raise {A} e.

Definition KeyError (key : string) : exn := Exn "KeyError" ("'" +:+ key +:+ "'").
Definition TypeError (msg : string) : exn := Exn "TypeError" msg.
Definition ValueError (msg : string) : exn := Exn "ValueError" msg.
Definition AttributeError (msg : string) : exn := Exn "AttributeError" msg.
Definition NameError (name : string) : exn :=
  Exn "NameError" ("name '" +:+ name +:+ "' is not defined").
Definition UnboundLocalError (name : string) : exn :=
  Exn "UnboundLocalError"
      ("cannot access local variable '" +:+ name +:+
       "' where it is not associated with a value").
Definition invalid_int_literal (s : string) : exn :=
  ValueError ("invalid literal for int() with base 10: '" +:+ s +:+ "'").

(** ** Configuration ([config.py]) *)

Inductive RiskCategory :=
  | FINANCIAL_IMPACT
  | BEHAVIORAL_ANOMALY
  | REPUTATION_RISK
  | HISTORICAL_CONTEXT
  | APPROVAL_RISK.

Definition RiskCategory_value (c : RiskCategory) : string :=
  match c with
  | FINANCIAL_IMPACT => "financial_impact"
  | BEHAVIORAL_ANOMALY => "behavioral_anomaly"
  | REPUTATION_RISK => "reputation_risk"
  | HISTORICAL_CONTEXT => "historical_context"
  | APPROVAL_RISK => "approval_risk"
  end.

Record Config := {
  CACHE_TTL : Z;
  MIN_CONFIDENCE : Q;
  HIGH_RISK_THRESHOLD : Q;
  CRITICAL_RISK_THRESHOLD : Q;
  CRITICAL_FINANCIAL_THRESHOLD : Q;
  HIGH_FINANCIAL_THRESHOLD : Q;
  MEDIUM_FINANCIAL_THRESHOLD : Q;
  LOW_FINANCIAL_THRESHOLD : Q;
  RISK_WEIGHTS : RiskCategory -> Q
}.

(** The values [Config] takes when no environment variable overrides them. *)
Definition default_config : Config := {|
  CACHE_TTL := 300;
  MIN_CONFIDENCE := 6#10;
  HIGH_RISK_THRESHOLD := 7#10;
  CRITICAL_RISK_THRESHOLD := 9#10;
  CRITICAL_FINANCIAL_THRESHOLD := 1000000;
  HIGH_FINANCIAL_THRESHOLD := 100000;
  MEDIUM_FINANCIAL_THRESHOLD := 10000;
  LOW_FINANCIAL_THRESHOLD := 1000;
  RISK_WEIGHTS := fun c =>
    match c with
    | FINANCIAL_IMPACT => 35#100
    | BEHAVIORAL_ANOMALY => 25#100
    | REPUTATION_RISK => 20#100
    | HISTORICAL_CONTEXT => 15#100
    | APPROVAL_RISK => 5#100
    end
|}.

(** ** Events ([models.py]) *)

Inductive EventType := TRANSFER | APPROVAL | SWAP | FLASHLOAN | PERMIT | UNKNOWN.

Definition EventType_value (t : EventType) : string :=
  match t with
  | TRANSFER => "Transfer"
  | APPROVAL => "Approval"
  | SWAP => "Swap"
  | FLASHLOAN => "FlashLoan"
  | PERMIT => "Permit"
  | UNKNOWN => "Unknown"
  end.

Inductive SuspicionLevel := LOW | MEDIUM | HIGH | CRITICAL.

(** [parsed_data]: the keys the engine reads, at the types the engine's own
    signatures give them ([amount: int], [address: str]); [None] is an absent
    key. *)
Record ParsedData := {
  amount : option Z;
  from_address : option string;
  approval_amount : option Z
}.

Record ProcessedEvent := {
  transaction_hash : string;
  block_number : Z;
  log_index : Z;
  contract_address : string;
  event_signature : string;
  event_type : EventType;
  topics : list string;
  data : string;
  parsed_data : ParsedData;
  suspicion_level : SuspicionLevel;
  risk_factors : list string;
  timestamp : option Z
}.

(** What a caller may hand to [assess_comprehensive_risk]: a [ProcessedEvent]
    object, or a plain [dict] (the sibling engine of the red agent accepts
    both; this one reads attributes only). *)
Inductive event_arg :=
  | EventObject (e : ProcessedEvent)
  | EventDict.

(** ** Analyzer results and cached data *)

(** The [dict] an analyzer returns: keys ['score'], ['confidence'] and
    ['factors'].  Further keys ([usd_value], [anomalies_detected],
    [security_data], [historical_summary]) only carry report detail; no
    operation modelled here reads them and computing them raises nothing at the
    types above. *)
Record FactorResult := {
  score : Q;
  confidence : Q;
  factors : list string
}.

(** One transaction of Etherscan's [txlist]: every field is a JSON string and
    may be absent. *)
Record etx := {
  tx_value : option string;
  tx_to : option string;
  tx_timeStamp : option string
}.

(** The [dict] returned by [_get_historical_behavior].  The short form built on
    the failure paths has no ['first_seen'], ['last_seen'],
    ['frequency_per_day'] or ['total_value'] key; every reader goes through
    [.get] with default [None] or [0], which is what the fields hold then. *)
Record HistoricalBehavior := {
  transaction_count : Z;
  average_value : Q;
  unique_contracts : Z;
  transactions : list etx;
  first_seen : option string;
  last_seen : option string;
  frequency_per_day : Q;
  total_value : Z
}.

Definition no_history : HistoricalBehavior := {|
  transaction_count := 0;
  average_value := 0;
  unique_contracts := 0;
  transactions := [];
  first_seen := None;
  last_seen := None;
  frequency_per_day := 0;
  total_value := 0
|}.

(** A [dict] stored in, or read back from, [_reputation_cache]. *)
Inductive pydict :=
  | FactorD (r : FactorResult)
  | HistD (h : HistoricalBehavior).

(** [_reputation_cache] holds two shapes of entry under string keys:
    [{'risk_data': d, 'timestamp': t}] and [{'data': d, 'timestamp': t}]. *)
Inductive rep_payload :=
  | RiskData (d : pydict)
  | Data (d : pydict).
Record rep_entry := { rep_payload_of : rep_payload; rep_timestamp : Q }.

(** [_price_cache] holds [{'usd_value': v, 'timestamp': t}] and
    [{'price': p, 'timestamp': t}]. *)
Inductive price_payload :=
  | UsdValue (v : Q)
  | Price (p : pyval).
Record price_entry := { price_payload_of : price_payload; price_timestamp : Q }.

(** The mutable part of an [EnhancedRiskEngine] instance, and the number of
    interactions with the world made so far. *)
Record engine := {
  _price_cache : gmap string price_entry;
  _reputation_cache : gmap string rep_entry;
  tick : nat
}.

Definition new_engine : engine :=
  {| _price_cache := ∅; _reputation_cache := ∅; tick := 0 |}.

Definition set_price_cache (f : gmap string price_entry -> gmap string price_entry)
    (st : engine) : engine :=
  {| _price_cache := f (_price_cache st);
     _reputation_cache := _reputation_cache st;
     tick := tick st |}.
Definition set_reputation_cache (f : gmap string rep_entry -> gmap string rep_entry)
    (st : engine) : engine :=
  {| _price_cache := _price_cache st;
     _reputation_cache := f (_reputation_cache st);
     tick := tick st |}.
Definition next_tick (st : engine) : engine :=
  {| _price_cache := _price_cache st;
     _reputation_cache := _reputation_cache st;
     tick := S (tick st) |}.

(** Code that reads and writes a state of type [S] and may raise. *)
Definition ST (S A : Type) : Type := S -> result A * S.

Definition ret {S A} (a : A) : ST S A := fun st => (Ok a, st).
Definition raise {S A} (e : exn) : ST S A := fun st => (Raise e, st).
Definition bind {S A B} (m : ST S A) (k : A -> ST S B) : ST S B :=
  fun st => match m st with
            | (Ok a, st') => k a st'
            | (Raise e, st') => (Raise e, st')
            end.
(** [try: m except Exception as e: h e]; what [m] wrote before raising stays. *)
Definition try_except {S A} (m : ST S A) (h : exn -> ST S A) : ST S A :=
  fun st => match m st with
            | (Ok a, st') => (Ok a, st')
            | (Raise e, st') => h e st'
            end.
Definition lift {S A} (r : result A) : ST S A := fun st => (r, st).
Definition get_state {S} : ST S S := fun st => (Ok st, st).
Definition modify {S} (f : S -> S) : ST S unit := fun st => (Ok tt, f st).

(** The engine's monad. *)
Definition M (A : Type) : Type := ST engine A.

Notation "'do' x <- m ; k" := (bind m (fun x => k))
  (at level 10, x name, m at level 100, k at level 200, only parsing).
Notation "'do' ' p <- m ; k" := (bind m (fun p => k))
  (at level 10, p pattern, m at level 100, k at level 200, only parsing).
Notation "'run' m ; k" := (bind m (fun _ => k))
  (at level 10, m at level 100, k at level 200, only parsing).

(** ** The outside world *)

(** Reply of a CoinGecko price request. *)
Inductive price_reply :=
  | PriceRaise (e : exn)          (* the request or the decoding of its body raised *)
  | PriceNot200 (status_code : Z) (* [status_code] is not 200 *)
  | PriceMissing                  (* 200, the looked-up key is not in the body *)
  | PriceFound (usd : pyval).     (* 200, the body holds this price *)

Record es_json := { es_status : option string; es_result : list etx }.
Inductive es_reply :=
  | EsRaise (e : exn)
  | EsHttp (status_code : Z) (json : result es_json).

Inductive gp_reply :=
  | GpRaise (e : exn)
  | GpHttp (status_code : Z) (json : result (gmap string pyval)).

Record World := {
  (** [datetime.now().timestamp()] at a given tick *)
  clock : nat -> Q;
  (** [GET {coingecko}/simple/price?ids=ethereum&vs_currencies=usd], then
      [response.json()['ethereum']['usd']] *)
  coingecko_simple_price : nat -> price_reply;
  (** [GET {coingecko}/simple/token_price/ethereum?contract_addresses=a&...],
      then [response.json()[a.lower()]['usd']] *)
  coingecko_token_price : nat -> string -> price_reply;
  (** [GET {etherscan}?module=account&action=txlist&address=a&...] *)
  etherscan_txlist : nat -> string -> es_reply;
  (** [GET {goplus}/address_security/a], then [response.json().get('result', {})] *)
  goplus_address_security : nat -> string -> gp_reply;
  (** the builtin [int] on a [str]; [None] when it raises [ValueError] *)
  int_of_str : string -> option Z
}.

(** ** [enhanced_risk_engine.py] *)

(** [x * v] for a float [x] and a value [v] read from a JSON body. *)
Definition float_mul (x : Q) (v : pyval) : result Q :=
  match v with
  | PInt z => Ok (x * inject_Z z)
  | PFloat q => Ok (x * q)
  | PBool b => Ok (x * (if b then 1 else 0))
  | PStr _ => Raise (TypeError "can't multiply sequence by non-int of type 'float'")
  | PNone => Raise (TypeError "unsupported operand type(s) for *: 'float' and 'NoneType'")
  end.

Definition entry_price (e : price_entry) : result pyval :=
  match price_payload_of e with
  | Price p => Ok p
  | UsdValue _ => Raise (KeyError "price")
  end.
Definition entry_usd_value (e : price_entry) : result Q :=
  match price_payload_of e with
  | UsdValue v => Ok v
  | Price _ => Raise (KeyError "usd_value")
  end.
Definition entry_risk_data (e : rep_entry) : result pydict :=
  match rep_payload_of e with
  | RiskData d => Ok d
  | Data _ => Raise (KeyError "risk_data")
  end.
Definition entry_data (e : rep_entry) : result pydict :=
  match rep_payload_of e with
  | Data d => Ok d
  | RiskData _ => Raise (KeyError "data")
  end.

(** A cached [dict] read as a historical-behaviour summary: every reader uses
    [.get] with a default, so a [dict] without the summary's keys reads as
    [no_history]. *)
Definition as_historical (d : pydict) : HistoricalBehavior :=
  match d with
  | HistD h => h
  | FactorD _ => no_history
  end.

(** [d['confidence']] on the [dict] the reputation analyzer returned. *)
Definition as_factor_result (d : pydict) : result FactorResult :=
  match d with
  | FactorD r => Ok r
  | HistD _ => Raise (KeyError "confidence")
  end.

(** [bool(s)] for a string that may be absent ([None]). *)
Definition truthy (s : option string) : bool :=
  match s with
  | Some (String _ _) => true
  | _ => false
  end.

Definition analysis_error (e : exn) : FactorResult :=
  {| score := 3#10; confidence := 3#10;
     factors := ["Analysis error: " +:+ exn_str e] |}.

Definition WETH : string := "0xc02aaa39b223fe8d0a0e5c4f27ead9083c756cc2".

Definition risk_indicators : list (string * Q) :=
  [ ("cybercrime", 9#10); ("money_laundering", 9#10); ("financial_crime", 8#10);
    ("sanctioned", 9#10); ("stealing_attack", 8#10); ("phishing_activities", 8#10);
    ("blackmail_activities", 7#10); ("darkweb_transactions", 7#10); ("mixer", 6#10);
    ("honeypot_related_address", 7#10); ("malicious_mining_activities", 6#10);
    ("blacklist_doubt", 8#10); ("fake_kyc", 5#10); ("fake_standard_interface", 5#10);
    ("fake_token", 4#10); ("gas_abuse", 4#10);
    ("number_of_malicious_contracts_created", 6#10); ("reinit", 3#10) ].

Definition critical_indicators : list string :=
  ["cybercrime"; "money_laundering"; "financial_crime"; "sanctioned"].

(** [current_behavior], the [dict] built by [_extract_behavioral_features]. *)
Record CurrentBehavior := {
  current_value : Z;
  current_event_type : string;
  current_timestamp : Q;
  current_contract_address : string
}.

Inductive AssessmentDetails :=
  | Details (risk_components : list (RiskCategory * FactorResult))
            (confidence_factors : list Q) (assessment_timestamp : Q)
  | ErrorDetails (error : string).

(** The [RiskAssessment] dataclass; [assessment_confidence] and
    [assessment_factors] are its fields [confidence] and [factors]. *)
Record RiskAssessment := {
  overall_score : Q;
  assessment_confidence : Q;
  risk_category : RiskCategory;
  assessment_factors : list string;
  recommendation : string;
  details : AssessmentDetails
}.

(** [max(items, key=...)]: the first item whose key no later item exceeds
    strictly. *)
Fixpoint max_by_score (best : RiskCategory * FactorResult)
    (rest : list (RiskCategory * FactorResult)) : RiskCategory * FactorResult :=
  match rest with
  | [] => best
  | x :: rest' =>
      max_by_score (if Qgtb (score (snd x)) (score (snd best)) then x else best) rest'
  end.

Definition Qsum (l : list Q) : Q := fold_left Qplus l 0.

Section EnhancedRiskEngine.
Context (cfg : Config) (w : World).

(** [datetime.now().timestamp()] *)
Definition now : M Q :=
  fun st => (Ok (clock w (tick st)), next_tick st).

(** [requests.get(...)] against one of the world's endpoints *)
Definition http_get {A} (endpoint : nat -> A) : M A :=
  fun st => (Ok (endpoint (tick st)), next_tick st).

(** [int(s)] for a string [s] *)
Definition int_str (s : string) : result Z :=
  match int_of_str w s with
  | Some z => Ok z
  | None => Raise (invalid_int_literal s)
  end.

(** [int(v)] *)
Definition py_int (v : pyval) : result Z :=
  match v with
  | PStr s => int_str s
  | PInt z => Ok z
  | PBool b => Ok (if b then 1 else 0)%Z
  | PFloat q => Ok (Z.quot (Qnum q) (Zpos (Qden q)))
  | PNone =>
      Raise (TypeError
        "int() argument must be a string, a bytes-like object or a real number, not 'NoneType'")
  end.

(** [(int(value) if isinstance(value, str) else value) > 0] *)
Definition indicator_positive (value : pyval) : result bool :=
  match value with
  | PStr s => match int_str s with
              | Ok z => Ok (0 <? z)%Z
              | Raise e => Raise e
              end
  | PInt z => Ok (0 <? z)%Z
  | PBool b => Ok b
  | PFloat q => Ok (Qgtb q 0)
  | PNone =>
      Raise (TypeError "'>' not supported between instances of 'NoneType' and 'int'")
  end.

(** [now - cached_data['timestamp'] < self._cache_ttl] *)
Definition fresh (t cached_at : Q) : bool :=
  Qltb (t - cached_at) (inject_Z (CACHE_TTL cfg)).

Definition _get_token_price (token_address : string) : M pyval :=
  try_except
    (do st <- get_state;
     do hit <-
       match _price_cache st !! token_address with
       | Some cached_data =>
           do t <- now;
           if fresh t (price_timestamp cached_data)
           then (do price <- lift (entry_price cached_data); ret (Some price))
           else ret None
       | None => ret None
       end;
     match hit with
     | Some price => ret price
     | None =>
         do weth <-
           (if string_dec (lower token_address) WETH then
              do response <- http_get (coingecko_simple_price w);
              match response with
              | PriceRaise e => raise e
              | PriceNot200 _ => ret None
              | PriceMissing => raise (KeyError "ethereum")
              | PriceFound price =>
                  do t <- now;
                  run modify (set_price_cache
                        (insert token_address
                           {| price_payload_of := Price price; price_timestamp := t |}));
                  ret (Some price)
              end
            else ret None);
         match weth with
         | Some price => ret price
         | None =>
             do response <- http_get (fun n => coingecko_token_price w n token_address);
             match response with
             | PriceRaise e => raise e
             | PriceFound price =>
                 do t <- now;
                 run modify (set_price_cache
                       (insert token_address
                          {| price_payload_of := Price price; price_timestamp := t |}));
                 ret price
             | PriceNot200 _ | PriceMissing => ret (PFloat 1)
             end
         end
     end)
    (fun _ => ret (PFloat 1)).

Definition _calculate_usd_value (amount : Z) (token_address : string) : M Q :=
  try_except
    (let cache_key := token_address +:+ "_" +:+ pretty amount in
     do st <- get_state;
     do hit <-
       match _price_cache st !! cache_key with
       | Some cached_data =>
           do t <- now;
           if fresh t (price_timestamp cached_data)
           then (do v <- lift (entry_usd_value cached_data); ret (Some v))
           else ret None
       | None => ret None
       end;
     match hit with
     | Some usd_value => ret usd_value
     | None =>
         do token_price <- _get_token_price token_address;
         let decimals := 18%Z in
         let token_amount := inject_Z amount / inject_Z (10 ^ decimals) in
         do usd_value <- lift (float_mul token_amount token_price);
         do t <- now;
         run modify (set_price_cache
               (insert cache_key
                  {| price_payload_of := UsdValue usd_value; price_timestamp := t |}));
         ret usd_value
     end)
    (fun _ => ret 0).

Definition _analyze_financial_impact_body (event : ProcessedEvent) : M FactorResult :=
  let parsed_data := parsed_data event in
  match amount parsed_data with
  | Some amount =>
      let token_address := contract_address event in
      do usd_value <- _calculate_usd_value amount token_address;
      if Qgeb usd_value (CRITICAL_FINANCIAL_THRESHOLD cfg) then
        ret {| score := 1; confidence := 9#10;
               factors := ["CRITICAL_FINANCIAL_IMPACT"] |}
      else if Qgeb usd_value (HIGH_FINANCIAL_THRESHOLD cfg) then
        ret {| score := 8#10; confidence := 8#10;
               factors := ["HIGH_FINANCIAL_IMPACT"] |}
      else if Qgeb usd_value (MEDIUM_FINANCIAL_THRESHOLD cfg) then
        ret {| score := 6#10; confidence := 7#10;
               factors := ["MEDIUM_FINANCIAL_IMPACT"] |}
      else if Qgeb usd_value (LOW_FINANCIAL_THRESHOLD cfg) then
        ret {| score := 4#10; confidence := 6#10;
               factors := ["LOW_FINANCIAL_IMPACT"] |}
      else
        ret {| score := 2#10; confidence := 5#10;
               factors := ["MINIMAL_FINANCIAL_IMPACT"] |}
  | None =>
      ret {| score := 3#10; confidence := 3#10; factors := ["NO_AMOUNT_DATA"] |}
  end.

Definition _analyze_financial_impact (event : ProcessedEvent) : M FactorResult :=
  try_except (_analyze_financial_impact_body event)
             (fun e => ret (analysis_error e)).

(** [data['result'][-100:]] *)
Definition last_100 (l : list etx) : list etx := skipn (length l - 100) l.

(** [sum(int(tx.get('value', 0)) for tx in transactions)] *)
Fixpoint sum_values (acc : Z) (transactions : list etx) : result Z :=
  match transactions with
  | [] => Ok acc
  | tx :: rest =>
      match tx_value tx with
      | None => sum_values (acc + 0) rest
      | Some s =>
          match int_str s with
          | Ok v => sum_values (acc + v) rest
          | Raise e => Raise e
          end
      end
  end.

(** [max(time_span / 86400, 1)] *)
Definition days_spanned (time_span : Z) : Q := py_max (inject_Z time_span / 86400) 1.

Definition _get_historical_behavior (address : string) : M HistoricalBehavior :=
  try_except
    (let cache_key := "historical_" +:+ address in
     do st <- get_state;
     do hit <-
       match _reputation_cache st !! cache_key with
       | Some cached_data =>
           do t <- now;
           if fresh t (rep_timestamp cached_data)
           then (do d <- lift (entry_data cached_data); ret (Some (as_historical d)))
           else ret None
       | None => ret None
       end;
     match hit with
     | Some h => ret h
     | None =>
         do response <- http_get (fun n => etherscan_txlist w n address);
         match response with
         | EsRaise e => raise e
         | EsHttp status_code json =>
             if (status_code =? 200)%Z then
               do data <- lift json;
               if bool_decide (es_status data = Some "1")
                  && negb (bool_decide (es_result data = [])) then
                 let transactions := last_100 (es_result data) in
                 let total_txs := length transactions in
                 if (total_txs =? 0)%nat then ret no_history
                 else
                   do total_value <- lift (sum_values 0 transactions);
                   let avg_value := inject_Z total_value / inject_Z (Z.of_nat total_txs) in
                   let unique_contracts :=
                     length (remove_dups
                               (omap (fun tx => if truthy (tx_to tx) then tx_to tx else None)
                                     transactions)) in
                   let first_seen := head transactions ≫= tx_timeStamp in
                   let last_seen := last transactions ≫= tx_timeStamp in
                   do frequency <-
                     (if truthy first_seen && truthy last_seen then
                        do l <- lift (int_str (default EmptyString last_seen));
                        do f <- lift (int_str (default EmptyString first_seen));
                        let time_span := (l - f)%Z in
                        ret (inject_Z (Z.of_nat total_txs) / days_spanned time_span)
                      else ret 0);
                   let historical_data :=
                     {| transaction_count := Z.of_nat total_txs;
                        average_value := avg_value;
                        unique_contracts := Z.of_nat unique_contracts;
                        transactions := transactions;
                        first_seen := first_seen;
                        last_seen := last_seen;
                        frequency_per_day := frequency;
                        total_value := total_value |} in
                   do t <- now;
                   run modify (set_reputation_cache
                         (insert cache_key
                            {| rep_payload_of := Data (HistD historical_data);
                               rep_timestamp := t |}));
                   ret historical_data
               else ret no_history
             else ret no_history
         end
     end)
    (fun _ => ret no_history).

Definition _extract_behavioral_features (event : ProcessedEvent) : M CurrentBehavior :=
  let parsed_data := parsed_data event in
  do t <- now;
  ret {| current_value := default 0%Z (amount parsed_data);
         current_event_type := EventType_value (event_type event);
         current_timestamp := t;
         current_contract_address := contract_address event |}.

(** Reading a local variable that an earlier branch may have left unbound. *)
Definition read_local {A} (name : string) (v : option A) : M A :=
  match v with
  | Some a => ret a
  | None => raise (UnboundLocalError name)
  end.

Definition _calculate_anomaly_score (historical : HistoricalBehavior)
    (current : CurrentBehavior) : M Q :=
  let score := 0 in
  (* 1. Value anomaly *)
  let historical_avg_value := average_value historical in
  let current_value := inject_Z (current_value current) in
  let value_ratio : option Q :=
    if Qgtb historical_avg_value 0
    then Some (current_value / historical_avg_value) else None in
  let score :=
    match value_ratio with
    | Some value_ratio =>
        if Qgtb value_ratio 1000 then score + (9#10)
        else if Qgtb value_ratio 100 then score + (7#10)
        else if Qgtb value_ratio 10 then score + (5#10)
        else if Qgtb value_ratio 2 then score + (2#10)
        else score
    | None => score
    end in
  (* 2. Contract interaction anomaly *)
  let historical_contracts :=
    map (fun tx => default EmptyString (tx_to tx)) (transactions historical) in
  let current_contract := current_contract_address current in
  let score :=
    if negb (bool_decide (current_contract = EmptyString))
       && negb (bool_decide (current_contract ∈ historical_contracts))
    then if (0 <? length historical_contracts)%nat
         then score + (3#10) else score + (1#10)
    else score in
  (* 3. Frequency anomaly *)
  let historical_frequency := frequency_per_day historical in
  do score <-
    (if Qgtb historical_frequency 0 then
       if Qgtb historical_frequency 10 then
         do value_ratio <- read_local "value_ratio" value_ratio;
         ret (if Qgtb value_ratio 10 then score + (2#10) else score)
       else ret score
     else ret score);
  (* 4. Account age anomaly *)
  let first_seen := first_seen historical in
  do score <-
    (if truthy first_seen then
       do t <- now;
       do seen <- lift (int_str (default EmptyString first_seen));
       let account_age_days := (t - inject_Z seen) / 86400 in
       if Qltb account_age_days 1 then
         ret (if Qgtb current_value 1000000000000000000
              then score + (4#10) else score)
       else if Qltb account_age_days 7 then
         ret (if Qgtb current_value 10000000000000000000
              then score + (3#10) else score)
       else ret score
     else ret score);
  (* 5. Transaction count anomaly *)
  let transaction_count := transaction_count historical in
  do score <-
    (if (transaction_count =? 0)%Z then
       ret (if Qgtb current_value 1000000000000000000
            then score + (5#10) else score)
     else if (transaction_count <? 5)%Z then
       do value_ratio <- read_local "value_ratio" value_ratio;
       ret (if Qgtb value_ratio 50 then score + (3#10) else score)
     else ret score);
  ret (py_min score 1).

Definition _calculate_anomaly_confidence (anomaly_score : Q)
    (historical_data_points : nat) : Q :=
  let base_confidence := anomaly_score * (8#10) in
  let data_quality_factor :=
    if (50 <? historical_data_points)%nat then 1
    else if (10 <? historical_data_points)%nat then 7#10
    else if (0 <? historical_data_points)%nat then 4#10
    else 1#10 in
  py_min (base_confidence * data_quality_factor) 1.

Definition _detect_behavioral_anomalies_body (event : ProcessedEvent) : M FactorResult :=
  let parsed_data := parsed_data event in
  let from_address := default EmptyString (from_address parsed_data) in
  if bool_decide (from_address = EmptyString) then
    ret {| score := 3#10; confidence := 3#10; factors := ["NO_FROM_ADDRESS"] |}
  else
    do historical_behavior <- _get_historical_behavior from_address;
    do current_behavior <- _extract_behavioral_features event;
    do anomaly_score <- _calculate_anomaly_score historical_behavior current_behavior;
    let confidence :=
      _calculate_anomaly_confidence anomaly_score
        (length (transactions historical_behavior)) in
    let factors :=
      if Qgtb anomaly_score (7#10) then ["HIGH_ANOMALY_SCORE"]
      else if Qgtb anomaly_score (4#10) then ["MEDIUM_ANOMALY_SCORE"]
      else ["LOW_ANOMALY_SCORE"] in
    ret {| score := anomaly_score; confidence := confidence; factors := factors |}.

Definition _detect_behavioral_anomalies (event : ProcessedEvent) : M FactorResult :=
  try_except (_detect_behavioral_anomalies_body event)
             (fun e => ret (analysis_error e)).

(** [indicator.replace('_', ' ').title().replace('Kyc', 'KYC')] *)
Definition factor_name (indicator : string) : string :=
  replace "Kyc" "KYC" (title (replace "_" " " indicator)).

(** One turn of the loop over [risk_indicators]; its [try] continues on
    [ValueError] and [TypeError] only. *)
Definition check_indicator (res : gmap string pyval) (acc : Q * list string)
    (entry : string * Q) : result (Q * list string) :=
  let '(max_risk_score, triggered_factors) := acc in
  let '(indicator, weight) := entry in
  let value := default (PStr "0") (res !! indicator) in
  match indicator_positive value with
  | Ok true =>
      Ok (py_max max_risk_score weight, triggered_factors ++ [factor_name indicator])
  | Ok false => Ok acc
  | Raise e =>
      if bool_decide (exn_class e ∈ ["ValueError"; "TypeError"]) then Ok acc
      else Raise e
  end.

(** One turn of the loop over [critical_indicators]. *)
Definition check_critical (res : gmap string pyval) (acc : Q * list string)
    (critical : string) : result (Q * list string) :=
  let '(max_risk_score, triggered_factors) := acc in
  match py_int (default (PStr "0") (res !! critical)) with
  | Ok v =>
      if (0 <? v)%Z then
        Ok (py_max max_risk_score (95#100),
            ("CRITICAL: " +:+ title (replace "_" " " critical)) :: triggered_factors)
      else Ok acc
  | Raise e => Raise e
  end.

Fixpoint for_each {A B} (f : B -> A -> result B) (acc : B) (l : list A) : result B :=
  match l with
  | [] => Ok acc
  | x :: l' =>
      match f acc x with
      | Ok acc' => for_each f acc' l'
      | Raise e => Raise e
      end
  end.

Definition _check_address_reputation (address : string) : M pydict :=
  try_except
    (let cache_key := "reputation_" +:+ address in
     do st <- get_state;
     do hit <-
       match _reputation_cache st !! cache_key with
       | Some cached_data =>
           do t <- now;
           if fresh t (rep_timestamp cached_data)
           then (do d <- lift (entry_data cached_data); ret (Some d))
           else ret None
       | None => ret None
       end;
     match hit with
     | Some d => ret d
     | None =>
         do response <- http_get (fun n => goplus_address_security w n address);
         match response with
         | GpRaise e => raise e
         | GpHttp status_code json =>
             if (status_code =? 200)%Z then
               do res <- lift json;
               do acc <- lift (for_each (check_indicator res) (0, []) risk_indicators);
               do ' (max_risk_score, triggered_factors) <-
                 lift (for_each (check_critical res) acc critical_indicators);
               let confidence :=
                 match triggered_factors with [] => 8#10 | _ => 9#10 end in
               let reputation_data :=
                 {| score := max_risk_score;
                    confidence := confidence;
                    factors := match triggered_factors with
                               | [] => ["No reputation issues found"]
                               | _ => triggered_factors
                               end |} in
               do t <- now;
               run modify (set_reputation_cache
                     (insert cache_key
                        {| rep_payload_of := Data (FactorD reputation_data);
                           rep_timestamp := t |}));
               ret (FactorD reputation_data)
             else
               ret (FactorD {| score := 2#10; confidence := 3#10;
                               factors := ["API error: " +:+ pretty status_code] |})
         end
     end)
    (fun e =>
       ret (FactorD {| score := 2#10; confidence := 3#10;
                       factors := ["Reputation check failed: " +:+ exn_str e] |})).

Definition _assess_reputation_risk_body (event : ProcessedEvent) : M pydict :=
  let parsed_data := parsed_data event in
  let from_address := default EmptyString (from_address parsed_data) in
  if bool_decide (from_address = EmptyString) then
    ret (FactorD {| score := 3#10; confidence := 3#10; factors := ["NO_FROM_ADDRESS"] |})
  else
    do st <- get_state;
    do hit <-
      match _reputation_cache st !! from_address with
      | Some cached_data =>
          do t <- now;
          if fresh t (rep_timestamp cached_data)
          then (do d <- lift (entry_risk_data cached_data); ret (Some d))
          else ret None
      | None => ret None
      end;
    match hit with
    | Some d => ret d
    | None =>
        do reputation_risk <- _check_address_reputation from_address;
        do t <- now;
        run modify (set_reputation_cache
              (insert from_address
                 {| rep_payload_of := RiskData reputation_risk; rep_timestamp := t |}));
        ret reputation_risk
    end.

Definition _assess_reputation_risk (event : ProcessedEvent) : M pydict :=
  try_except (_assess_reputation_risk_body event)
             (fun e => ret (FactorD (analysis_error e))).

Definition _analyze_historical_context_body (event : ProcessedEvent) : M FactorResult :=
  let parsed_data := parsed_data event in
  let from_address := default EmptyString (from_address parsed_data) in
  if bool_decide (from_address = EmptyString) then
    ret {| score := 3#10; confidence := 3#10; factors := ["NO_FROM_ADDRESS"] |}
  else
    do historical_behavior <- _get_historical_behavior from_address;
    let risk_factors : list string := [] in
    let risk_score := 0 in
    (* 1. Account age analysis *)
    let first_seen := first_seen historical_behavior in
    do ' (risk_score, risk_factors) <-
      (if truthy first_seen then
         do t <- now;
         do seen <- lift (int_str (default EmptyString first_seen));
         let account_age_days := (t - inject_Z seen) / 86400 in
         if Qltb account_age_days 1 then
           ret (risk_score + (3#10), risk_factors ++ ["NEW_ACCOUNT"])
         else if Qltb account_age_days 7 then
           ret (risk_score + (2#10), risk_factors ++ ["VERY_NEW_ACCOUNT"])
         else if Qltb account_age_days 30 then
           ret (risk_score + (1#10), risk_factors ++ ["RECENT_ACCOUNT"])
         else ret (risk_score, risk_factors)
       else ret (risk_score, risk_factors));
    (* 2. Transaction history analysis *)
    let transaction_count := transaction_count historical_behavior in
    let '(risk_score, risk_factors) :=
      if (transaction_count =? 0)%Z then
        (risk_score + (4#10), risk_factors ++ ["NO_TRANSACTION_HISTORY"])
      else if (transaction_count <? 5)%Z then
        (risk_score + (2#10), risk_factors ++ ["MINIMAL_TRANSACTION_HISTORY"])
      else if (1000 <? transaction_count)%Z then
        (risk_score + (1#10), risk_factors ++ ["HIGH_FREQUENCY_USER"])
      else (risk_score, risk_factors) in
    (* 3. Contract interaction analysis *)
    let unique_contracts := unique_contracts historical_behavior in
    let '(risk_score, risk_factors) :=
      if (unique_contracts =? 0)%Z then
        (risk_score + (2#10), risk_factors ++ ["NO_CONTRACT_INTERACTIONS"])
      else if (100 <? unique_contracts)%Z then
        (risk_score + (1#10), risk_factors ++ ["MANY_CONTRACT_INTERACTIONS"])
      else (risk_score, risk_factors) in
    (* 4. Value pattern analysis *)
    let total_value := total_value historical_behavior in
    let current_value := default 0%Z (amount parsed_data) in
    let '(risk_score, risk_factors) :=
      if (0 <? total_value)%Z then
        let value_ratio := inject_Z current_value / inject_Z total_value in
        if Qgtb value_ratio (5#10) then
          (risk_score + (3#10), risk_factors ++ ["LARGE_VALUE_RATIO"])
        else (risk_score, risk_factors)
      else (risk_score, risk_factors) in
    (* 5. Frequency analysis *)
    let frequency := frequency_per_day historical_behavior in
    let '(risk_score, risk_factors) :=
      if Qgtb frequency 50 then
        (risk_score + (1#10), risk_factors ++ ["VERY_HIGH_FREQUENCY"])
      else if Qeqb frequency 0 && (0 <? transaction_count)%Z then
        (risk_score + (2#10), risk_factors ++ ["INACTIVE_ACCOUNT"])
      else (risk_score, risk_factors) in
    let confidence :=
      if (10 <? transaction_count)%Z then 8#10
      else if (0 <? transaction_count)%Z then 6#10
      else 4#10 in
    ret {| score := py_min risk_score 1;
           confidence := confidence;
           factors := match risk_factors with
                      | [] => ["STANDARD_HISTORICAL_CONTEXT"]
                      | _ => risk_factors
                      end |}.

Definition _analyze_historical_context (event : ProcessedEvent) : M FactorResult :=
  try_except (_analyze_historical_context_body event)
             (fun e => ret (analysis_error e)).

Definition _is_unlimited_approval (amount : Z) : bool :=
  let unlimited_values :=
    [ (2 ^ 256 - 1)%Z;
      115792089237316195423570985008687907853269984665640564039457584007913129639935%Z ] in
  bool_decide (amount ∈ unlimited_values) || (10 ^ 30 <? amount)%Z.

Definition _analyze_approval_risk_body (event : ProcessedEvent) : M FactorResult :=
  let parsed_data := parsed_data event in
  let '(score, factors) :=
    match approval_amount parsed_data with
    | Some approval_amount =>
        if _is_unlimited_approval approval_amount then (9#10, ["UNLIMITED_APPROVAL"])
        else if (10 ^ 24 <? approval_amount)%Z then (7#10, ["LARGE_APPROVAL"])
        else (3#10, ["NORMAL_APPROVAL"])
    | None => (0, [])
    end in
  ret {| score := score; confidence := 8#10; factors := factors |}.

Definition _analyze_approval_risk (event : ProcessedEvent) : M FactorResult :=
  try_except (_analyze_approval_risk_body event)
             (fun e => ret (analysis_error e)).

(** One turn of the loop of [_calculate_weighted_risk_score]; [totals] is
    the pair [(total_score, total_weight)]. *)
Definition add_component (totals : Q * Q) (item : RiskCategory * FactorResult) : Q * Q :=
  let weight := RISK_WEIGHTS cfg (fst item) in
  (fst totals + score (snd item) * weight, snd totals + weight).

Definition _calculate_weighted_risk_score
    (risk_components : list (RiskCategory * FactorResult)) : Q :=
  let totals := fold_left add_component risk_components (0, 0) in
  fst totals / py_max (snd totals) (1#1000).

Definition _generate_recommendation (risk_score confidence : Q) : string :=
  if Qltb confidence (MIN_CONFIDENCE cfg) then "MONITOR"
  else if Qgeb risk_score (CRITICAL_RISK_THRESHOLD cfg) then "CRITICAL_INVESTIGATION"
  else if Qgeb risk_score (HIGH_RISK_THRESHOLD cfg) then "IMMEDIATE_INVESTIGATION"
  else if Qgeb risk_score (5#10) then "INVESTIGATE"
  else "MONITOR".

(** [processed_event.<name>] *)
Definition getattr (arg : event_arg) (name : string) : result ProcessedEvent :=
  match arg with
  | EventObject e => Ok e
  | EventDict =>
      Raise (AttributeError ("'dict' object has no attribute '" +:+ name +:+ "'"))
  end.

(** The [try] block of [assess_comprehensive_risk]. *)
Definition assess_comprehensive_risk_body (arg : event_arg) : M RiskAssessment :=
  do processed_event <- lift (getattr arg "transaction_hash");
  (* 1. Financial Impact Analysis *)
  do financial_risk <- _analyze_financial_impact processed_event;
  let risk_components := [(FINANCIAL_IMPACT, financial_risk)] in
  let confidence_factors := [confidence financial_risk] in
  let all_factors := factors financial_risk in
  (* 2. Behavioral Anomaly Detection *)
  do anomaly_risk <- _detect_behavioral_anomalies processed_event;
  let risk_components := risk_components ++ [(BEHAVIORAL_ANOMALY, anomaly_risk)] in
  let confidence_factors := confidence_factors ++ [confidence anomaly_risk] in
  let all_factors := all_factors ++ factors anomaly_risk in
  (* 3. Reputation Risk Assessment *)
  do reputation_dict <- _assess_reputation_risk processed_event;
  do reputation_risk <- lift (as_factor_result reputation_dict);
  let risk_components := risk_components ++ [(REPUTATION_RISK, reputation_risk)] in
  let confidence_factors := confidence_factors ++ [confidence reputation_risk] in
  let all_factors := all_factors ++ factors reputation_risk in
  (* 4. Historical Context Analysis *)
  do historical_risk <- _analyze_historical_context processed_event;
  let risk_components := risk_components ++ [(HISTORICAL_CONTEXT, historical_risk)] in
  let confidence_factors := confidence_factors ++ [confidence historical_risk] in
  let all_factors := all_factors ++ factors historical_risk in
  (* 5. Approval Risk Analysis (if applicable) *)
  do ' (risk_components, confidence_factors, all_factors) <-
    (match event_type processed_event with
     | APPROVAL =>
         do approval_risk <- _analyze_approval_risk processed_event;
         ret (risk_components ++ [(APPROVAL_RISK, approval_risk)],
              confidence_factors ++ [confidence approval_risk],
              all_factors ++ factors approval_risk)
     | _ => ret (risk_components, confidence_factors, all_factors)
     end);
  let overall_score := _calculate_weighted_risk_score risk_components in
  let overall_confidence :=
    Qsum confidence_factors / inject_Z (Z.of_nat (length confidence_factors)) in
  do primary <-
    match risk_components with
    | first :: rest => ret (max_by_score first rest)
    | [] => raise (ValueError "max() arg is an empty sequence")
    end;
  let primary_category := fst primary in
  let recommendation := _generate_recommendation overall_score overall_confidence in
  do t <- now;
  ret {| overall_score := overall_score;
         assessment_confidence := overall_confidence;
         risk_category := primary_category;
         assessment_factors := remove_dups all_factors;
         recommendation := recommendation;
         details := Details risk_components confidence_factors t |}.

(** The [except Exception as e] branch of [assess_comprehensive_risk]. *)
Definition assessment_error (e : exn) : RiskAssessment :=
  {| overall_score := 5#10;
     assessment_confidence := 1#10;
     risk_category := FINANCIAL_IMPACT;
     assessment_factors := ["Assessment error: " +:+ exn_str e];
     recommendation := "INVESTIGATE";
     details := ErrorDetails (exn_str e) |}.

Definition assess_comprehensive_risk (arg : event_arg) (st : engine)
    : RiskAssessment * engine :=
  match assess_comprehensive_risk_body arg st with
  | (Ok assessment, st') => (assessment, st')
  | (Raise e, st') => (assessment_error e, st')
  end.

End EnhancedRiskEngine.

(** ** [red_agent/risk_engine.py]: the red agent's financial-impact analyzer *)

Module RedAgent.



Definition ZERO_ADDRESS : string := "0x0000000000000000000000000000000000000000".


Section Analyzer.
Context (w : World).
(** [total_value] as [_analyze_onchain_impact] accumulates it from the
    transaction and its receipt, or the exception the node raised. *)
Context (onchain_total_value : string -> result Q).





End Analyzer.

End RedAgent.

(** ** [phase2_orchestrator.py]: the coordinator of the two delegated stages *)

Module Orchestrator.

Inductive role := event_analyzer | risk_assessor.

(** [models.CandidateEvent] *)
Record CandidateEvent := {
  transaction_hash : string;
  block_number : string;
  log_index : string;
  contract_address : string;
  event_signature : string;
  event_type : EventType;
  metadata : string
}.

(** [models.EventAnalysisRequest], the body of [POST /analyze-events] *)
Record EventAnalysisRequest := {
  events : list CandidateEvent;
  analysis_type : string;
  priority : string
}.

(** A detected pattern, a [Dict[str, Any]] of which only the number is used. *)
Definition Pattern : Type := list (string * pyval).

(** [communication_models.EventAnalysisRequest], imported as
    [AgentEventAnalysisRequest] *)
Record AgentEventAnalysisRequest := {
  aer_candidate_events : list CandidateEvent;
  aer_request_id : string;
  aer_priority : string
}.

(** [communication_models.EventAnalysisResult] *)
Record EventAnalysisResult := {
  processed_events : list ProcessedEvent;
  patterns_detected : list Pattern;
  ear_request_id : string;
  processing_time : Q;
  ear_confidence_score : Q
}.

(** [communication_models.RiskAssessmentRequest] *)
Record RiskAssessmentRequest := {
  rrq_processed_events : list ProcessedEvent;
  rrq_patterns_detected : list Pattern;
  rrq_request_id : string;
  rrq_priority : string
}.

(** One element of [RiskAssessmentResult.risk_assessments] *)
Record AssessmentEntry := {
  entry_transaction_hash : string;
  risk_score : Q;
  entry_confidence : Q;
  entry_risk_category : string;
  entry_factors : list string;
  entry_recommendation : string
}.

(** [communication_models.RiskAssessmentResult] *)
Record RiskAssessmentResult := {
  risk_assessments : list AssessmentEntry;
  overall_risk_score : Q;
  critical_events : list AssessmentEntry;
  recommendations : list string;
  rar_request_id : string;
  assessment_time : Q;
  rar_confidence_score : Q
}.

Inductive request :=
  | AnalysisRequest (r : AgentEventAnalysisRequest)
  | AssessmentRequest (r : RiskAssessmentRequest).

(** What [ctx.send_and_receive] hands back as [response]. *)
Inductive message :=
  | EventAnalysisResultMsg (r : EventAnalysisResult)
  | RiskAssessmentResultMsg (r : RiskAssessmentResult)
  | OtherMsg.   (* [None], an [AgentError], or any other model *)

Record Env := {
  (** [await ctx.send_and_receive(destination, request, response_type=..., timeout=...)]:
      the pair [(response, status)], or the exception it raised *)
  send_and_receive : string -> request -> Q -> result (message * string);
  (** [datetime.now().strftime('%Y%m%d_%H%M%S')] *)
  strftime_now : string
}.

(** The module-level [agent_state]. *)
Record AgentState := {
  events_processed : Z;
  high_risk_events : Z;
  critical_events_seen : Z;
  sub_agents : role -> option string;
  delegation_stats : gmap string Z;
  agent_health : role -> string;
  communication_stats : gmap string Z
}.

Definition initial_agent_state : AgentState := {|
  events_processed := 0;
  high_risk_events := 0;
  critical_events_seen := 0;
  sub_agents := fun _ => None;
  delegation_stats :=
    list_to_map [ ("event_analyzer_calls", 0%Z); ("risk_assessor_calls", 0%Z);
                  ("successful_delegations", 0%Z); ("failed_delegations", 0%Z) ];
  agent_health := fun _ => "unknown";
  communication_stats :=
    list_to_map [ ("requests_received", 0%Z); ("responses_sent", 0%Z);
                  ("errors_handled", 0%Z); ("timeouts", 0%Z) ]
|}.

(** Names bound at module level in [phase2_orchestrator.py]: its imports and
    its own definitions. *)
Definition module_globals : list string :=
  [ "asyncio"; "logging"; "json"; "datetime"; "List"; "Dict"; "Any"; "Optional";
    "Agent"; "Context"; "Model"; "sys"; "os";
    "CandidateEvent"; "ProcessedEvent"; "EventAnalysisRequest"; "EventAnalysisResponse";
    "EventAcknowledgment"; "HealthResponse"; "StatsResponse";
    "AgentEventAnalysisRequest"; "EventAnalysisResult"; "RiskAssessmentResult";
    "OrchestratorRequest"; "OrchestratorResponse"; "AgentHealthCheck";
    "AgentHealthResponse"; "AgentError"; "AgentAcknowledgment";
    "discovery_service"; "logger"; "AGENT_NAME"; "AGENT_SEED"; "AGENT_PORT";
    "orchestrator"; "agent_state"; "startup_handler"; "discover_sub_agents";
    "check_agent_health"; "shutdown_handler"; "analyze_events_endpoint";
    "delegate_to_event_analyzer"; "delegate_to_risk_assessor"; "synthesize_results";
    "create_error_response"; "handle_event_analysis_result";
    "handle_risk_assessment_result"; "handle_agent_error";
    "handle_agent_acknowledgment"; "health_check"; "get_stats" ].

(** [models.EventAcknowledgment] *)
Record EventAcknowledgment := {
  ack_request_id : string;
  events_received : Z;
  ack_status : string;
  message_text : string;
  processing_started : bool
}.

(** The [summary] of a response: [{"error": msg}] or the full report. *)
Inductive Summary :=
  | ErrorSummary (error : string)
  | Report (total_events processed : nat) (high_risk critical : Z) (patterns : nat)
           (recommendations : list string) (overall_risk_score : Q)
           (processing_time confidence_score : Q) (request_id : string)
           (communication_method : string).

(** [models.EventAnalysisResponse] *)
Record EventAnalysisResponse := {
  status : string;
  acknowledgment : EventAcknowledgment;
  summary : Summary
}.

Record Synthesis := {
  high_risk_count : Z;
  critical_count : Z;
  synthesis_recommendations : list string;
  synthesis_patterns_detected : nat;
  overall_confidence : Q
}.

Definition synthesize_results (event_analysis_result : EventAnalysisResult)
    (risk_assessment_result : RiskAssessmentResult) : Synthesis :=
  {| high_risk_count :=
       Z.of_nat (length (filter (fun ra => Is_true (Qgeb (risk_score ra) (7#10)))
                                (risk_assessments risk_assessment_result)));
     critical_count := Z.of_nat (length (critical_events risk_assessment_result));
     synthesis_recommendations := recommendations risk_assessment_result;
     synthesis_patterns_detected := length (patterns_detected event_analysis_result);
     overall_confidence :=
       (ear_confidence_score event_analysis_result
        + rar_confidence_score risk_assessment_result) / 2 |}.

Definition create_error_response (request_id error_message : string)
    : EventAnalysisResponse :=
  {| status := "error";
     acknowledgment :=
       {| ack_request_id := request_id;
          events_received := 0;
          ack_status := "error";
          message_text := error_message;
          processing_started := false |};
     summary := ErrorSummary error_message |}.

Definition set_delegation_stats (f : gmap string Z -> gmap string Z)
    (st : AgentState) : AgentState :=
  {| events_processed := events_processed st;
     high_risk_events := high_risk_events st;
     critical_events_seen := critical_events_seen st;
     sub_agents := sub_agents st;
     delegation_stats := f (delegation_stats st);
     agent_health := agent_health st;
     communication_stats := communication_stats st |}.
Definition set_communication_stats (f : gmap string Z -> gmap string Z)
    (st : AgentState) : AgentState :=
  {| events_processed := events_processed st;
     high_risk_events := high_risk_events st;
     critical_events_seen := critical_events_seen st;
     sub_agents := sub_agents st;
     delegation_stats := delegation_stats st;
     agent_health := agent_health st;
     communication_stats := f (communication_stats st) |}.
Definition add_counts (n high critical : Z) (st : AgentState) : AgentState :=
  {| events_processed := events_processed st + n;
     high_risk_events := high_risk_events st + high;
     critical_events_seen := critical_events_seen st + critical;
     sub_agents := sub_agents st;
     delegation_stats := delegation_stats st;
     agent_health := agent_health st;
     communication_stats := communication_stats st |}.

(** [agent_state["delegation_stats"][key] += 1] *)
Definition incr_delegation_stat (key : string) : ST AgentState unit :=
  do st <- get_state;
  match delegation_stats st !! key with
  | Some n => modify (set_delegation_stats (insert key (n + 1)%Z))
  | None => raise (KeyError key)
  end.

(** [agent_state["communication_stats"][key] += 1] *)
Definition incr_communication_stat (key : string) : ST AgentState unit :=
  do st <- get_state;
  match communication_stats st !! key with
  | Some n => modify (set_communication_stats (insert key (n + 1)%Z))
  | None => raise (KeyError key)
  end.

Section Endpoint.
(** [globals]: the names bound in the module ([module_globals] for the
    file as it stands). *)
Context (globals : list string) (env : Env).

(** Evaluating a module-level name. *)
Definition global (name : string) : ST AgentState unit :=
  if bool_decide (name ∈ globals) then ret tt else raise (NameError name).

Definition delegate_to_event_analyzer (request : EventAnalysisRequest)
    (request_id : string) : ST AgentState (option EventAnalysisResult) :=
  try_except
    (do st <- get_state;
     if negb (bool_decide (agent_health st event_analyzer = "healthy")) then ret None
     else
       run global "AgentEventAnalysisRequest";
       let analysis_request :=
         {| aer_candidate_events := events request;
            aer_request_id := request_id;
            aer_priority := "normal" |} in
       do st <- get_state;
       match sub_agents st event_analyzer with
       | Some (String c a) =>
           let event_analyzer_address := String c a in
           run global "EventAnalysisResult";
           do reply <- lift (send_and_receive env event_analyzer_address
                               (AnalysisRequest analysis_request) 30);
           match reply with
           | (EventAnalysisResultMsg response, status) =>
               if bool_decide (status = "success") then
                 run incr_delegation_stat "event_analyzer_calls";
                 ret (Some response)
               else
                 run incr_communication_stat "timeouts";
                 ret None
           | _ =>
               run incr_communication_stat "timeouts";
               ret None
           end
       | _ => ret None
       end)
    (fun e =>
       run incr_communication_stat "errors_handled";
       ret None).

Definition delegate_to_risk_assessor (event_analysis_result : EventAnalysisResult)
    (request_id : string) : ST AgentState (option RiskAssessmentResult) :=
  try_except
    (do st <- get_state;
     if negb (bool_decide (agent_health st risk_assessor = "healthy")) then ret None
     else
       run global "RiskAssessmentRequest";
       let risk_request :=
         {| rrq_processed_events := processed_events event_analysis_result;
            rrq_patterns_detected := patterns_detected event_analysis_result;
            rrq_request_id := request_id;
            rrq_priority := "normal" |} in
       do st <- get_state;
       match sub_agents st risk_assessor with
       | Some (String c a) =>
           let risk_assessor_address := String c a in
           run global "RiskAssessmentResult";
           do reply <- lift (send_and_receive env risk_assessor_address
                               (AssessmentRequest risk_request) 30);
           match reply with
           | (RiskAssessmentResultMsg response, status) =>
               if bool_decide (status = "success") then
                 run incr_delegation_stat "risk_assessor_calls";
                 ret (Some response)
               else
                 run incr_communication_stat "timeouts";
                 ret None
           | _ =>
               run incr_communication_stat "timeouts";
               ret None
           end
       | _ => ret None
       end)
    (fun e =>
       run incr_communication_stat "errors_handled";
       ret None).

Definition analyze_events_endpoint (request : EventAnalysisRequest)
    : ST AgentState EventAnalysisResponse :=
  run incr_communication_stat "requests_received";
  let request_id :=
    "req_" +:+ strftime_now env +:+ "_" +:+ pretty (length (events request)) in
  try_except
    ((* Step 1: Delegate to Event Analyzer Agent *)
     do event_analysis_result <- delegate_to_event_analyzer request request_id;
     match event_analysis_result with
     | None => ret (create_error_response request_id "Event analysis failed")
     | Some event_analysis_result =>
         (* Step 2: Delegate to Risk Assessor Agent *)
         do risk_assessment_result <-
           delegate_to_risk_assessor event_analysis_result request_id;
         match risk_assessment_result with
         | None => ret (create_error_response request_id "Risk assessment failed")
         | Some risk_assessment_result =>
             (* Step 3: Synthesize results *)
             let synthesis_result :=
               synthesize_results event_analysis_result risk_assessment_result in
             run modify (add_counts (Z.of_nat (length (events request)))
                           (high_risk_count synthesis_result)
                           (critical_count synthesis_result));
             run incr_communication_stat "successful_delegations";
             let acknowledgment :=
               {| ack_request_id := request_id;
                  events_received := Z.of_nat (length (events request));
                  ack_status := "processed";
                  message_text :=
                    "Successfully processed " +:+ pretty (length (events request))
                    +:+ " events with real multi-agent analysis";
                  processing_started := true |} in
             ret {| status := "success";
                    acknowledgment := acknowledgment;
                    summary :=
                      Report (length (events request))
                             (length (processed_events event_analysis_result))
                             (high_risk_count synthesis_result)
                             (critical_count synthesis_result)
                             (length (patterns_detected event_analysis_result))
                             (synthesis_recommendations synthesis_result)
                             (overall_risk_score risk_assessment_result)
                             (processing_time event_analysis_result
                              + assessment_time risk_assessment_result)
                             ((ear_confidence_score event_analysis_result
                               + rar_confidence_score risk_assessment_result) / 2)
                             request_id
                             "real_agent_communication" |}
         end
     end)
    (fun e =>
       run incr_communication_stat "failed_delegations";
       run incr_communication_stat "errors_handled";
       ret (create_error_response request_id
              ("Real multi-agent processing failed: " +:+ exn_str e))).

End Endpoint.

End Orchestrator.

(** ** Concrete worlds and inputs used to evaluate the model *)

Definition digit_value (c : ascii) : option Z :=
  let n := nat_of_ascii c in
  if (48 <=? n)%nat && (n <=? 57)%nat then Some (Z.of_nat (n - 48)) else None.

Fixpoint parse_digits (acc : Z) (s : string) : option Z :=
  match s with
  | EmptyString => Some acc
  | String c s' =>
      match digit_value c with
      | Some d => parse_digits (10 * acc + d) s'
      | None => None
      end
  end.

(** [int(s)] on plain decimal literals: digits with an optional minus sign. *)
Definition parse_decimal (s : string) : option Z :=
  match s with
  | EmptyString => None
  | String "-" (String c s') => Z.opp <$> parse_digits 0 (String c s')
  | _ => parse_digits 0 s
  end.

Definition ConnectionError : exn := Exn "ConnectionError" "connection refused".

(** A world in which every HTTP request fails and the clock reads [t]. *)
Definition offline_world (t : Q) : World := {|
  clock := fun _ => t;
  coingecko_simple_price := fun _ => PriceRaise ConnectionError;
  coingecko_token_price := fun _ _ => PriceRaise ConnectionError;
  etherscan_txlist := fun _ _ => EsRaise ConnectionError;
  goplus_address_security := fun _ _ => GpRaise ConnectionError;
  int_of_str := parse_decimal
|}.

(** A world in which Etherscan knows one transaction of value 0 for every
    address, and the other services are unreachable. *)
Definition one_call_world (t : Q) : World := {|
  clock := fun _ => t;
  coingecko_simple_price := fun _ => PriceRaise ConnectionError;
  coingecko_token_price := fun _ _ => PriceRaise ConnectionError;
  etherscan_txlist := fun _ _ =>
    EsHttp 200 (Ok {| es_status := Some "1";
                      es_result := [ {| tx_value := Some "0";
                                        tx_to := Some "0xc0ffee";
                                        tx_timeStamp := Some "1600000000" |} ] |});
  goplus_address_security := fun _ _ => GpRaise ConnectionError;
  int_of_str := parse_decimal
|}.

Definition sample_event (t : EventType) (pd : ParsedData) : ProcessedEvent := {|
  transaction_hash := "0x5e1f";
  block_number := 18500000;
  log_index := 1;
  contract_address := "0xa0b8";
  event_signature := EmptyString;
  event_type := t;
  topics := [];
  data := "0x";
  parsed_data := pd;
  suspicion_level := LOW;
  risk_factors := [];
  timestamp := None
|}.

(** ** Specification-side definitions *)

(** The categories [assess_comprehensive_risk] invokes for an event, in the
    order it invokes them. *)
Definition invoked_categories (e : ProcessedEvent) : list RiskCategory :=
  [FINANCIAL_IMPACT; BEHAVIORAL_ANOMALY; REPUTATION_RISK; HISTORICAL_CONTEXT]
  ++ match event_type e with APPROVAL => [APPROVAL_RISK] | _ => [] end.


Definition in_unit (r : FactorResult) : Prop :=
  (0 <= score r /\ score r <= 1) /\ (0 <= confidence r /\ confidence r <= 1).

(** The assessments a single engine instance hands out for a sequence of
    calls, as in the risk assessor's loop over [msg.processed_events]. *)
Fixpoint assess_all (cfg : Config) (w : World) (args : list event_arg) (st : engine)
    : list RiskAssessment :=
  match args with
  | [] => []
  | arg :: rest =>
      let '(assessment, st') := assess_comprehensive_risk cfg w arg st in
      assessment :: assess_all cfg w rest st'
  end.

(** The state of an engine instance after it has served a sequence of calls. *)
Fixpoint engine_after (cfg : Config) (w : World) (args : list event_arg) (st : engine)
    : engine :=
  match args with
  | [] => st
  | arg :: rest => engine_after cfg w rest (snd (assess_comprehensive_risk cfg w arg st))
  end.

(** What the reputation cache holds after any run that started empty: cached
    analyzer results are within range, and a historical summary sits only
    under a key that [_get_historical_behavior] writes. *)
Definition entry_ok (k : string) (e : rep_entry) : Prop :=
  match rep_payload_of e with
  | RiskData (FactorD r) => in_unit r
  | RiskData (HistD _) => False
  | Data (FactorD r) => in_unit r
  | Data (HistD _) => startswith k "historical_" = true
  end.

Definition cache_ok (st : engine) : Prop :=
  forall k e, _reputation_cache st !! k = Some e -> entry_ok k e.

(** Weakest precondition of a computation for a postcondition on its outcome
    and final state. *)
Definition wp {S A} (m : ST S A) (post : result A -> S -> Prop) (st : S) : Prop :=
  post (fst (m st)) (snd (m st)).

(** The analyzer of a category, with and without its own exception handler,
    at the common result type [pydict]. *)
Definition analyzer_body (cfg : Config) (w : World) (c : RiskCategory)
    (e : ProcessedEvent) : M pydict :=
  match c with
  | FINANCIAL_IMPACT => bind (_analyze_financial_impact_body cfg w e) (fun r => ret (FactorD r))
  | BEHAVIORAL_ANOMALY =>
      bind (_detect_behavioral_anomalies_body cfg w e) (fun r => ret (FactorD r))
  | REPUTATION_RISK => _assess_reputation_risk_body cfg w e
  | HISTORICAL_CONTEXT =>
      bind (_analyze_historical_context_body cfg w e) (fun r => ret (FactorD r))
  | APPROVAL_RISK => bind (_analyze_approval_risk_body e) (fun r => ret (FactorD r))
  end.

Definition analyzer (cfg : Config) (w : World) (c : RiskCategory)
    (e : ProcessedEvent) : M pydict :=
  match c with
  | FINANCIAL_IMPACT => bind (_analyze_financial_impact cfg w e) (fun r => ret (FactorD r))
  | BEHAVIORAL_ANOMALY =>
      bind (_detect_behavioral_anomalies cfg w e) (fun r => ret (FactorD r))
  | REPUTATION_RISK => _assess_reputation_risk cfg w e
  | HISTORICAL_CONTEXT =>
      bind (_analyze_historical_context cfg w e) (fun r => ret (FactorD r))
  | APPROVAL_RISK => bind (_analyze_approval_risk e) (fun r => ret (FactorD r))
  end.

(** The engine state in which [assess_comprehensive_risk], started in [st],
    calls the analyzer of category [c]. *)
Definition state_before (cfg : Config) (w : World) (e : ProcessedEvent) (st : engine)
    (c : RiskCategory) : engine :=
  let after c st := snd (analyzer cfg w c e st) in
  match c with
  | FINANCIAL_IMPACT => st
  | BEHAVIORAL_ANOMALY => after FINANCIAL_IMPACT st
  | REPUTATION_RISK => after BEHAVIORAL_ANOMALY (after FINANCIAL_IMPACT st)
  | HISTORICAL_CONTEXT =>
      after REPUTATION_RISK (after BEHAVIORAL_ANOMALY (after FINANCIAL_IMPACT st))
  | APPROVAL_RISK =>
      after HISTORICAL_CONTEXT
        (after REPUTATION_RISK (after BEHAVIORAL_ANOMALY (after FINANCIAL_IMPACT st)))
  end.

(** An assessment that came out of the [try] block of
    [assess_comprehensive_risk] for event [e] from state [st]: its details list
    one component per invoked category, each the result of that category's
    analyzer, and every other field is computed from these components. *)
Definition assembled (cfg : Config) (w : World) (e : ProcessedEvent) (st : engine)
    (ra : RiskAssessment) : Prop :=
  exists first rest confs t,
    let comps := first :: rest in
    details ra = Details comps confs t
    /\ map fst comps = invoked_categories e
    /\ (forall c fr, (c, fr) ∈ comps ->
          fst (analyzer cfg w c e (state_before cfg w e st c)) = Ok (FactorD fr))
    /\ Forall (fun item => in_unit (snd item)) comps
    /\ confs = map (fun item => confidence (snd item)) comps
    /\ overall_score ra = _calculate_weighted_risk_score cfg comps
    /\ assessment_confidence ra = Qsum confs / inject_Z (Z.of_nat (length confs))
    /\ risk_category ra = fst (max_by_score first rest)
    /\ recommendation ra =
         _generate_recommendation cfg (overall_score ra) (assessment_confidence ra)
    /\ (forall tag, tag ∈ assessment_factors ra <->
          exists item, item ∈ comps /\ tag ∈ factors (snd item)).

Definition in_range (ra : RiskAssessment) : Prop :=
  (0 <= overall_score ra /\ overall_score ra <= 1)
  /\ (0 <= assessment_confidence ra /\ assessment_confidence ra <= 1).

(** Two orders on the categories: the one in which the engine invokes the
    analyzers, and the priority order the specification gives for ties. *)
Definition invocation_rank (c : RiskCategory) : nat :=
  match c with
  | FINANCIAL_IMPACT => 0
  | BEHAVIORAL_ANOMALY => 1
  | REPUTATION_RISK => 2
  | HISTORICAL_CONTEXT => 3
  | APPROVAL_RISK => 4
  end.

Definition specified_rank (c : RiskCategory) : nat :=
  match c with
  | FINANCIAL_IMPACT => 0
  | REPUTATION_RISK => 1
  | BEHAVIORAL_ANOMALY => 2
  | HISTORICAL_CONTEXT => 3
  | APPROVAL_RISK => 4
  end.

(** The reported category is an invoked category with the highest score, and
    among the categories with that score it comes first in the order [rank]. *)
Definition primary_is_highest (rank : RiskCategory -> nat) (ra : RiskAssessment) : Prop :=
  exists comps confs t fr,
    details ra = Details comps confs t
    /\ (risk_category ra, fr) ∈ comps
    /\ (forall item, item ∈ comps -> score (snd item) <= score fr)
    /\ (forall item, item ∈ comps -> score (snd item) == score fr ->
          (rank (risk_category ra) <= rank (fst item))%nat).

(** Some factor tag of the assessment has the form ["<category>_analysis_error"]. *)
Definition error_tag_recorded (ra : RiskAssessment) : Prop :=
  exists tag, tag ∈ assessment_factors ra /\ endswith tag "_analysis_error" = true.

(** An entry written at [cached_at] is stale when the engine next reads the
    clock: its age has reached the configured TTL. *)
Definition stale (cfg : Config) (w : World) (st : engine) (cached_at : Q) : Prop :=
  inject_Z (CACHE_TTL cfg) <= clock w (tick st) - cached_at.

(** The engine state right after a clock read, with one cache key absent. *)
Definition miss_price (k : string) (st : engine) : engine :=
  next_tick (set_price_cache (delete k) st).
Definition miss_reputation (k : string) (st : engine) : engine :=
  next_tick (set_reputation_cache (delete k) st).

(** An engine whose price cache holds one entry, written at time 0. *)
Definition engine_with_price (k : string) (p : pyval) : engine :=
  {| _price_cache := {[ k := {| price_payload_of := Price p; price_timestamp := 0 |} ]};
     _reputation_cache := ∅;
     tick := 0 |}.




(** The request id [analyze_events_endpoint] builds. *)
Definition request_id_of (env : Orchestrator.Env)
    (request : Orchestrator.EventAnalysisRequest) : string :=
  "req_" +:+ Orchestrator.strftime_now env +:+ "_"
  +:+ pretty (length (Orchestrator.events request)).

(** The request [delegate_to_risk_assessor] sends. *)
Definition risk_request_of (ear : Orchestrator.EventAnalysisResult) (request_id : string)
    : Orchestrator.request :=
  Orchestrator.AssessmentRequest
    {| Orchestrator.rrq_processed_events := Orchestrator.processed_events ear;
       Orchestrator.rrq_patterns_detected := Orchestrator.patterns_detected ear;
       Orchestrator.rrq_request_id := request_id;
       Orchestrator.rrq_priority := "normal" |}.

(** The counters the delegation functions bump on failure exist. *)
Definition stats_present (st : Orchestrator.AgentState) : Prop :=
  is_Some (Orchestrator.communication_stats st !! "timeouts")
  /\ is_Some (Orchestrator.communication_stats st !! "errors_handled").

(** The ways the delegation of the risk-assessment stage can fail: the worker
    is not recorded as healthy; its address is unknown; the exchange raises;
    it ends with a status other than success (a timeout); or it delivers
    something other than a [RiskAssessmentResult] (a remote error). *)
Definition risk_delegation_fails (env : Orchestrator.Env) (st : Orchestrator.AgentState)
    (ear : Orchestrator.EventAnalysisResult) (request_id : string) : Prop :=
  Orchestrator.agent_health st Orchestrator.risk_assessor <> "healthy"
  \/ Orchestrator.sub_agents st Orchestrator.risk_assessor = None
  \/ Orchestrator.sub_agents st Orchestrator.risk_assessor = Some EmptyString
  \/ exists addr,
       Orchestrator.sub_agents st Orchestrator.risk_assessor = Some addr
       /\ ((exists x, Orchestrator.send_and_receive env addr
                        (risk_request_of ear request_id) 30 = Raise x)
           \/ (exists m status,
                 Orchestrator.send_and_receive env addr
                   (risk_request_of ear request_id) 30 = Ok (m, status)
                 /\ status <> "success")
           \/ (exists m status,
                 Orchestrator.send_and_receive env addr
                   (risk_request_of ear request_id) 30 = Ok (m, status)
                 /\ forall r, m <> Orchestrator.RiskAssessmentResultMsg r)).

(** The response of a batch that went through synthesis. *)
Definition synthesized (r : Orchestrator.EventAnalysisResponse) : Prop :=
  Orchestrator.status r = "success".

(** A batch of one event, a network on which the event analyzer answers, and a
    coordinator that has found both workers but recorded the risk assessor as
    unhealthy. *)
Definition sample_request : Orchestrator.EventAnalysisRequest :=
  {| Orchestrator.events :=
       [ {| Orchestrator.transaction_hash := "0x5e1f";
            Orchestrator.block_number := "18500000";
            Orchestrator.log_index := "1";
            Orchestrator.contract_address := "0xa0b8";
            Orchestrator.event_signature := EmptyString;
            Orchestrator.event_type := TRANSFER;
            Orchestrator.metadata := "{}" |} ];
     Orchestrator.analysis_type := "comprehensive";
     Orchestrator.priority := "normal" |}.

Definition sample_analysis : Orchestrator.EventAnalysisResult :=
  {| Orchestrator.processed_events :=
       [ sample_event TRANSFER
           {| amount := Some 5%Z; from_address := None; approval_amount := None |} ];
     Orchestrator.patterns_detected := [];
     Orchestrator.ear_request_id := "req_20240101_000000_1";
     Orchestrator.processing_time := 1#100;
     Orchestrator.ear_confidence_score := 75#100 |}.

Definition sample_env : Orchestrator.Env :=
  {| Orchestrator.send_and_receive := fun _ req _ =>
       match req with
       | Orchestrator.AnalysisRequest _ =>
           Ok (Orchestrator.EventAnalysisResultMsg sample_analysis, "success")
       | Orchestrator.AssessmentRequest _ => Ok (Orchestrator.OtherMsg, "timeout")
       end;
     Orchestrator.strftime_now := "20240101_000000" |}.

Definition risk_assessor_unhealthy : Orchestrator.AgentState :=
  {| Orchestrator.events_processed := 0;
     Orchestrator.high_risk_events := 0;
     Orchestrator.critical_events_seen := 0;
     Orchestrator.sub_agents := fun r =>
       match r with
       | Orchestrator.event_analyzer => Some "agent1qevent"
       | Orchestrator.risk_assessor => Some "agent1qrisk"
       end;
     Orchestrator.delegation_stats :=
       Orchestrator.delegation_stats Orchestrator.initial_agent_state;
     Orchestrator.agent_health := fun r =>
       match r with
       | Orchestrator.event_analyzer => "healthy"
       | Orchestrator.risk_assessor => "unhealthy"
       end;
     Orchestrator.communication_stats :=
       Orchestrator.communication_stats Orchestrator.initial_agent_state |}.
(** * The event processor, the agents' message handlers and the red agent's
    [assess_risk]

    Further sources embedded from here on:
    - [agents/shared/enhanced_event_processor.py]       ([EventProcessor])
    - [agents/shared/communication_models.py]           ([Comm])
    - [agents/risk_assessor/phase2_risk_assessor.py]    ([RiskAssessor])
    - [agents/event_analyzer/phase2_event_analyzer.py]  ([EventAnalyzer])
    - [agents-reasoning/red_agent/risk_engine.py]       ([RiskEngine]: [assess_risk]
      and the methods it calls)

    Further modelling conventions.
    - A message handler runs on an [agent]: the risk engine the module owns,
      the module-level [agent_state], and the outbox of the messages
      [ctx.send] has taken over.  Which calls of [ctx.send] raise is a
      parameter ([send_fault]).  A handler runs from its first statement to
      its last without another handler in between; logging is left out.
    - [list(set(l))] is a parameter [list_set] of which only [lists_set] is
      known: the elements of [l], each once, in some order. *)

(** ** Further concrete worlds *)

(** A world whose clock advances by one second at every interaction, in which
    CoinGecko quotes 2000 USD for ether and 2.5 USD for every token, Etherscan
    lists three transactions for every address and GoPlus flags every address
    as sanctioned. *)
Definition online_world (t : Q) : World := {|
  clock := fun n => t + inject_Z (Z.of_nat n);
  coingecko_simple_price := fun _ => PriceFound (PInt 2000);
  coingecko_token_price := fun _ _ => PriceFound (PFloat (25#10));
  etherscan_txlist := fun _ _ =>
    EsHttp 200 (Ok {| es_status := Some "1";
                      es_result := [ {| tx_value := Some "0";
                                        tx_to := Some "0xc0ffee";
                                        tx_timeStamp := Some "1600000000" |};
                                     {| tx_value := Some "0";
                                        tx_to := Some EmptyString;
                                        tx_timeStamp := Some "1600000600" |};
                                     {| tx_value := Some "0";
                                        tx_to := Some "0xc0ffee";
                                        tx_timeStamp := Some "1600086400" |} ] |});
  goplus_address_security := fun _ _ =>
    GpHttp 200 (Ok {[ "sanctioned" := PStr "1"; "mixer" := PStr "0" ]});
  int_of_str := parse_decimal
|}.

(** ** Specification-side definitions for the further properties *)


(** Every timestamp of [txs] that is present and non-empty is a literal the
    builtin [int] accepts. *)
Definition timestamps_parse (w : World) (txs : list etx) : Prop :=
  forall tx s, tx ∈ txs -> tx_timeStamp tx = Some s -> s <> EmptyString ->
               is_Some (int_of_str w s).

(** A reputation result whose score is the critical 0.95 and whose first
    factor is the tag of a critical indicator. *)
Definition flagged_critical (acc : Q * list string) : Prop :=
  fst acc == 95#100
  /\ exists c rest,
       c ∈ critical_indicators
       /\ snd acc = ("CRITICAL: " +:+ title (replace "_" " " c)) :: rest.

(** The value GoPlus reports for an indicator, the string ["0"] standing for
    an absent one, converts to a positive integer. *)
Definition flagged (w : World) (res : gmap string pyval) (c : string) : Prop :=
  exists z, py_int w (default (PStr "0") (res !! c)) = Ok z /\ (0 < z)%Z.

Definition convertible (w : World) (res : gmap string pyval) (c : string) : Prop :=
  exists z, py_int w (default (PStr "0") (res !! c)) = Ok z.

(** ** [enhanced_event_processor.py] *)

Module EventProcessor.

Definition _map_risk_to_suspicion_level (risk_assessment : RiskAssessment)
    : SuspicionLevel :=
  let score := overall_score risk_assessment in
  let confidence := assessment_confidence risk_assessment in
  (* Only upgrade suspicion level if confidence is high enough *)
  if Qltb confidence (6#10) then LOW
  else if Qgeb score (9#10) then CRITICAL
  else if Qgeb score (7#10) then HIGH
  else if Qgeb score (5#10) then MEDIUM
  else LOW.

Definition priority_order : list string :=
  [ "CRITICAL_FINANCIAL_IMPACT"; "HIGH_FINANCIAL_IMPACT"; "UNLIMITED_APPROVAL";
    "BEHAVIORAL_ANOMALY"; "REPUTATION_RISK"; "HIGH_ANOMALY_SCORE";
    "MEDIUM_FINANCIAL_IMPACT"; "LARGE_APPROVAL"; "MEDIUM_ANOMALY_SCORE";
    "LOW_FINANCIAL_IMPACT"; "LOW_ANOMALY_SCORE" ].

(** [l.remove(x)]: drops the first occurrence of [x]; [ValueError] when
    there is none. *)
Fixpoint list_remove (x : string) (l : list string) : result (list string) :=
  match l with
  | [] => Raise (ValueError "list.remove(x): x not in list")
  | y :: l' =>
      if bool_decide (y = x) then Ok l'
      else match list_remove x l' with
           | Ok r => Ok (y :: r)
           | Raise e => Raise e
           end
  end.

(** The order of [str]: lexicographic on code points, which on the UTF-8
    bytes of the strings is the lexicographic order on bytes. *)
Definition str_le (a b : string) : Prop := String.leb a b = true.

#[local] Instance str_le_dec (a b : string) : Decision (str_le a b) :=
  decide (String.leb a b = true).

(** [sorted(l)] on strings. *)
Definition sorted (l : list string) : list string := merge_sort str_le l.

(** What [list(set(l))] guarantees of its result, whatever the order in
    which the interpreter iterates over the set: the elements of [l], each
    once. *)
Definition lists_set (list_set : list string -> list string) : Prop :=
  forall l, NoDup (list_set l) /\ forall x, x ∈ list_set l <-> x ∈ l.

Section Merge.
(** [list(set(l))] *)
Context (list_set : list string -> list string).

(** One turn of the loop over [priority_order]; the state is
    [(sorted_factors, all_factors)]. *)
Definition take_priority (acc : list string * list string) (priority_factor : string)
    : result (list string * list string) :=
  let '(sorted_factors, all_factors) := acc in
  if bool_decide (priority_factor ∈ all_factors) then
    match list_remove priority_factor all_factors with
    | Ok all_factors => Ok (sorted_factors ++ [priority_factor], all_factors)
    | Raise e => Raise e
    end
  else Ok acc.

Definition _merge_risk_factors (basic_factors enhanced_factors : list string)
    : result (list string) :=
  let all_factors := list_set (basic_factors ++ enhanced_factors) in
  (* Sort factors by priority *)
  match for_each take_priority ([], all_factors) priority_order with
  | Ok (sorted_factors, all_factors) =>
      (* Add remaining factors *)
      Ok (sorted_factors ++ sorted all_factors)
  | Raise e => Raise e
  end.
End Merge.

(** [parsed_data['enhanced_risk_assessment']] *)
Record EnhancedData := {
  ed_overall_score : Q;
  ed_confidence : Q;
  ed_risk_category : string;
  ed_recommendation : string;
  ed_assessment_timestamp : option Q
}.

(** A [ProcessedEvent] as the event analyzer handles it: its [parsed_data]
    holds, besides the keys of [ParsedData], the keys ['to_address'] and
    ['enhanced_risk_assessment'] (each possibly absent) and [other_keys]
    further ones. *)
Record AnalyzedEvent := {
  event : ProcessedEvent;
  to_address : option string;
  enhanced_risk_assessment : option EnhancedData;
  other_keys : nat
}.

Section Preprocess.
Context (cfg : Config) (w : World) (list_set : list string -> list string).

(** [super().preprocess_event(candidate_event)]: the class statement
    names no base class (the import of [EventProcessor] is commented
    out), so [super()] looks the method up on [object], which has no
    attribute of that name. *)
Definition super_preprocess_event (candidate_event : Orchestrator.CandidateEvent)
    : M AnalyzedEvent :=
  raise (AttributeError "'super' object has no attribute 'preprocess_event'").

Definition preprocess_event (candidate_event : Orchestrator.CandidateEvent)
    : M AnalyzedEvent :=
  try_except
    ((* First, do basic preprocessing *)
     do processed <- super_preprocess_event candidate_event;
     let processed_event := event processed in
     (* Then, perform enhanced risk assessment *)
     do risk_assessment <-
       (fun st => let '(ra, st') :=
                    assess_comprehensive_risk cfg w (EventObject processed_event) st in
                  (Ok ra, st'));
     let enhanced_suspicion_level := _map_risk_to_suspicion_level risk_assessment in
     do enhanced_risk_factors <-
       lift (_merge_risk_factors list_set (risk_factors processed_event)
               (assessment_factors risk_assessment));
     let enhanced_event :=
       {| transaction_hash := transaction_hash processed_event;
          block_number := block_number processed_event;
          log_index := log_index processed_event;
          contract_address := contract_address processed_event;
          event_signature := event_signature processed_event;
          event_type := event_type processed_event;
          topics := topics processed_event;
          data := data processed_event;
          parsed_data := parsed_data processed_event;
          suspicion_level := enhanced_suspicion_level;
          risk_factors := enhanced_risk_factors;
          timestamp := None |} in
     ret {| event := enhanced_event;
            to_address := to_address processed;
            enhanced_risk_assessment :=
              Some {| ed_overall_score := overall_score risk_assessment;
                      ed_confidence := assessment_confidence risk_assessment;
                      ed_risk_category :=
                        RiskCategory_value (risk_category risk_assessment);
                      ed_recommendation := recommendation risk_assessment;
                      ed_assessment_timestamp :=
                        match details risk_assessment with
                        | Details _ _ t => Some t
                        | ErrorDetails _ => None
                        end |};
            other_keys := other_keys processed |})
    (fun e =>
       (* Fallback to basic processing *)
       super_preprocess_event candidate_event).
End Preprocess.

Definition _get_impact_level (usd_value : Q) : string :=
  if Qgtb usd_value 1000000 then "CRITICAL"
  else if Qgtb usd_value 100000 then "HIGH"
  else if Qgtb usd_value 10000 then "MEDIUM"
  else if Qgtb usd_value 1000 then "LOW"
  else "MINIMAL".

End EventProcessor.

(** The recommendation that the engine's rule, with the default thresholds,
    pairs with a suspicion level. *)
Definition recommendation_of_level (level : SuspicionLevel) : string :=
  match level with
  | LOW => "MONITOR"
  | MEDIUM => "INVESTIGATE"
  | HIGH => "IMMEDIATE_INVESTIGATION"
  | CRITICAL => "CRITICAL_INVESTIGATION"
  end.



(** ** [red_agent/risk_engine.py]: [RiskEngine.assess_risk] and what it calls *)

Module RiskEngine.

(** The argument of [assess_risk]: an instance of the pydantic model
    [CandidateEvent] of [red_agent.py], whose fields are read as attributes,
    or a plain [dict], read with [.get].  [args] is [metadata['args']],
    empty when [metadata] has no such key. *)
Inductive event :=
  | Model (transaction_hash contract_address event_type : string)
          (args : gmap string pyval)
  | Dict (transaction_hash contract_address from_address event_type : option string)
         (args : gmap string pyval).



Definition risk_weights : list (string * Q) :=
  [ ("financial_impact", 3#10); ("approval_risk", 20#100); ("signature_risk", 15#100);
    ("anomaly_score", 15#100); ("historical_context", 1#10) ].

(** [self.risk_weights[key]], for the keys of the literal above *)
Definition weight (key : string) : Q :=
  default 0 ((list_to_map risk_weights : gmap string Q) !! key).

Definition MIN_CONFIDENCE : Q := 75#100.





Section Engine.
Context (w : World).
(** The node's answer to the [n]-th on-chain analysis of a call of
    [assess_risk]: [total_value], or the exception raised. *)
Context (onchain : nat -> string -> result Q).





End Engine.

End RiskEngine.

(** ** The state of an agent while one of its handlers runs *)

(** The risk engine the agent owns (with the world's tick), the module-level
    [agent_state], the messages [ctx.send] has taken over, oldest first, and
    the number of calls of [ctx.send] so far. *)
Record agent (AS Msg : Type) := {
  engine_of : engine;
  state_of : AS;
  outbox : list (string * Msg);
  sends : nat
}.
Arguments engine_of {AS Msg} _.
Arguments state_of {AS Msg} _.
Arguments outbox {AS Msg} _.
Arguments sends {AS Msg} _.

Section Runtime.
Context {AS Msg : Type}.
(** The exception, if any, that the [n]-th call of [ctx.send] raises. *)
Context (send_fault : nat -> option exn).

(** [await ctx.send(destination, message)] *)
Definition ctx_send (destination : string) (message : Msg) : ST (agent AS Msg) unit :=
  fun st =>
    match send_fault (sends st) with
    | None =>
        (Ok tt, {| engine_of := engine_of st; state_of := state_of st;
                   outbox := outbox st ++ [(destination, message)];
                   sends := S (sends st) |})
    | Some e =>
        (Raise e, {| engine_of := engine_of st; state_of := state_of st;
                     outbox := outbox st; sends := S (sends st) |})
    end.

(** Code of the risk engine, run on the agent's instance. *)
Definition on_engine {A} (m : M A) : ST (agent AS Msg) A :=
  fun st =>
    let '(r, e) := m (engine_of st) in
    (r, {| engine_of := e; state_of := state_of st;
           outbox := outbox st; sends := sends st |}).

(** Code that reads and writes [agent_state]. *)
Definition on_state {A} (m : ST AS A) : ST (agent AS Msg) A :=
  fun st =>
    let '(r, s) := m (state_of st) in
    (r, {| engine_of := engine_of st; state_of := s;
           outbox := outbox st; sends := sends st |}).
End Runtime.

(** [for x in l: acc = f acc x], in a monad *)
Fixpoint for_each_m {S A B} (f : B -> A -> ST S B) (acc : B) (l : list A) : ST S B :=
  match l with
  | [] => ret acc
  | x :: l' => do acc' <- f acc x; for_each_m f acc' l'
  end.

(** [d[key] += 1] on a [dict] of counters *)
Definition incr_key (key : string) (d : gmap string Z) : result (gmap string Z) :=
  match d !! key with
  | Some n => Ok (<[key := (n + 1)%Z]> d)
  | None => Raise (KeyError key)
  end.

(** [s[:n]] *)
Definition str_take (n : nat) (s : string) : string := String.substring 0 n s.

(** ** Messages between the agents ([communication_models.py]) *)

Module Comm.

(** A value of type [Any]: a [str], or some other object, of which the
    code only ever takes [str()]. *)
Inductive any :=
  | AStr (s : string)
  | AOther (str : string).

(** [str(v)] *)
Definition any_str (v : any) : string :=
  match v with AStr s => s | AOther s => s end.

(** [v == s] for a string literal [s] *)
Definition any_is (v : any) (s : string) : bool :=
  match v with AStr s' => bool_decide (s' = s) | AOther _ => false end.

(** The ['metadata'] of a detected pattern: one of the five shapes the
    event analyzer builds, or anything else. *)
Inductive Metadata :=
  | AmountMetadata (amount threshold : Z)
  | ApprovalMetadata (approval_amount : Z)
  | AddressMetadata (from_address to_address : string)
  | SuspicionMetadata (suspicion_level : string) (risk_factors : list string)
  | FactorsMetadata (risk_factor_count : nat) (risk_factors : list string)
  | OtherMetadata.

(** A detected pattern, a [Dict[str, Any]]: the three keys the risk
    assessor reads, each possibly absent, and the two it never looks at. *)
Record Pattern := {
  pattern_type : option any;
  description : option any;
  risk_level : option any;
  pattern_confidence : Q;
  metadata : Metadata
}.

(** [EventAnalysisResult.analysis_summary] *)
Inductive AnalysisSummary :=
  | SummaryError (error : string)
  | SummaryOf (total_events high_suspicion_events patterns_detected : nat)
              (processing_time confidence_score : Q)
              (transfer_events approval_events : Z).

Record EventAnalysisResult := {
  processed_events : list EventProcessor.AnalyzedEvent;
  patterns_detected : list Pattern;
  analysis_summary : AnalysisSummary;
  ear_request_id : string;
  ear_processing_time : Q;
  ear_confidence_score : Q
}.

Record AgentAcknowledgment := {
  ack_request_id : string;
  ack_status : string;
  ack_message : string;
  ack_agent_name : string;
  ack_timestamp : string
}.

Record AgentError := {
  error_type : string;
  error_message : string;
  err_request_id : string;
  err_agent_name : string;
  err_timestamp : string
}.

End Comm.

(** ** [phase2_risk_assessor.py] *)

Module RiskAssessor.

Definition AGENT_NAME : string := "PulseProof-Phase2-RiskAssessor".

(** The module-level [agent_state]. *)
Record AgentState := {
  assessments_completed : Z;
  high_risk_assessments : Z;
  critical_risk_assessments : Z;
  risk_categories : gmap string Z;
  api_calls : gmap string Z;
  communication_stats : gmap string Z
}.

Definition initial_agent_state : AgentState := {|
  assessments_completed := 0;
  high_risk_assessments := 0;
  critical_risk_assessments := 0;
  risk_categories :=
    list_to_map [ ("financial_impact", 0%Z); ("behavioral_anomaly", 0%Z);
                  ("reputation_risk", 0%Z); ("historical_context", 0%Z);
                  ("approval_risk", 0%Z) ];
  api_calls := list_to_map [ ("etherscan", 0%Z); ("coingecko", 0%Z); ("goplus", 0%Z) ];
  communication_stats :=
    list_to_map [ ("requests_received", 0%Z); ("responses_sent", 0%Z);
                  ("errors_handled", 0%Z) ]
|}.

(** One element of [RiskAssessmentResult.risk_assessments] *)
Record AssessmentDict := {
  ad_transaction_hash : string;
  ad_event_type : string;
  ad_risk_score : Q;
  ad_confidence : Q;
  ad_risk_category : string;
  ad_factors : list string;
  ad_recommendation : string;
  ad_details : AssessmentDetails
}.

(** One element of [RiskAssessmentResult.critical_events] *)
Record CriticalEvent := {
  ce_transaction_hash : string;
  ce_risk_score : Q;
  ce_recommendation : string;
  ce_factors : list string
}.

(** [communication_models.RiskAssessmentResult] *)
Record RiskAssessmentResult := {
  risk_assessments : list AssessmentDict;
  overall_risk_score : Q;
  critical_events : list CriticalEvent;
  recommendations : list string;
  rar_request_id : string;
  assessment_time : Q;
  rar_confidence_score : Q
}.

Inductive message :=
  | Acknowledgment (a : Comm.AgentAcknowledgment)
  | Result (r : RiskAssessmentResult)
  | Error (e : Comm.AgentError).

Definition set_communication_stats (d : gmap string Z) (st : AgentState) : AgentState :=
  {| assessments_completed := assessments_completed st;
     high_risk_assessments := high_risk_assessments st;
     critical_risk_assessments := critical_risk_assessments st;
     risk_categories := risk_categories st;
     api_calls := api_calls st;
     communication_stats := d |}.
Definition set_risk_categories (d : gmap string Z) (st : AgentState) : AgentState :=
  {| assessments_completed := assessments_completed st;
     high_risk_assessments := high_risk_assessments st;
     critical_risk_assessments := critical_risk_assessments st;
     risk_categories := d;
     api_calls := api_calls st;
     communication_stats := communication_stats st |}.
Definition add_counts (completed high critical : Z) (st : AgentState) : AgentState :=
  {| assessments_completed := assessments_completed st + completed;
     high_risk_assessments := high_risk_assessments st + high;
     critical_risk_assessments := critical_risk_assessments st + critical;
     risk_categories := risk_categories st;
     api_calls := api_calls st;
     communication_stats := communication_stats st |}.

(** [agent_state["communication_stats"][key] += 1] *)
Definition incr_communication_stat (key : string) : ST AgentState unit :=
  do st <- get_state;
  do d <- lift (incr_key key (communication_stats st));
  modify (set_communication_stats d).

(** [agent_state["risk_categories"][key] += 1] *)
Definition incr_risk_category (key : string) : ST AgentState unit :=
  do st <- get_state;
  do d <- lift (incr_key key (risk_categories st));
  modify (set_risk_categories d).

Definition generate_pattern_recommendations (patterns_detected : list Comm.Pattern)
    : list string :=
  flat_map
    (fun pattern =>
       let pattern_type := default (Comm.AStr EmptyString) (Comm.pattern_type pattern) in
       let description :=
         Comm.any_str (default (Comm.AStr EmptyString) (Comm.description pattern)) in
       if Comm.any_is pattern_type "large_transfer" then
         ["Monitor large transfer: " +:+ description]
       else if Comm.any_is pattern_type "unlimited_approval" then
         ["IMMEDIATE ACTION: Unlimited approval detected - potential exploit risk"]
       else if Comm.any_is pattern_type "zero_address_interaction" then
         ["Investigate zero address interaction - may indicate contract creation or destruction"]
       else if Comm.any_is pattern_type "critical_suspicion" then
         ["CRITICAL: " +:+ description]
       else if Comm.any_is pattern_type "multiple_risk_factors" then
         ["High complexity event: " +:+ description]
       else [])
    patterns_detected.

Definition calculate_assessment_confidence (risk_assessments : list AssessmentDict)
    (event_confidence : Q) : Q :=
  match risk_assessments with
  | [] => 0
  | _ =>
      (* Base confidence from event analysis *)
      let base_confidence := event_confidence in
      (* Boost confidence based on assessment quality *)
      let assessment_confidence :=
        Qsum (map ad_confidence risk_assessments)
        / inject_Z (Z.of_nat (length risk_assessments)) in
      (* Combine confidences with weights *)
      let final_confidence :=
        base_confidence * (4#10) + assessment_confidence * (6#10) in
      py_min final_confidence 1
  end.

Section Handler.
Context (cfg : Config) (w : World).
Context (send_fault : nat -> option exn).
(** [datetime.isoformat] of the time stamp [t] *)
Context (isoformat : Q -> string).

Definition run_state : Type := agent AgentState message.

(** The lists the loop over [msg.processed_events] appends to. *)
Definition batch : Type := list AssessmentDict * list CriticalEvent * list string.

(** One turn of the loop over [msg.processed_events]. *)
Definition assess_event (acc : batch) (analyzed : EventProcessor.AnalyzedEvent)
    : ST run_state batch :=
  let '(risk_assessments, critical_events, recommendations) := acc in
  let processed_event := EventProcessor.event analyzed in
  (* Perform comprehensive risk assessment *)
  do risk_assessment <-
    on_engine (fun st =>
                 let '(ra, st') :=
                   assess_comprehensive_risk cfg w (EventObject processed_event) st in
                 (Ok ra, st'));
  let risk_assessments :=
    risk_assessments
    ++ [ {| ad_transaction_hash := transaction_hash processed_event;
            ad_event_type := EventType_value (event_type processed_event);
            ad_risk_score := overall_score risk_assessment;
            ad_confidence := assessment_confidence risk_assessment;
            ad_risk_category := RiskCategory_value (risk_category risk_assessment);
            ad_factors := assessment_factors risk_assessment;
            ad_recommendation := recommendation risk_assessment;
            ad_details := details risk_assessment |} ] in
  (* Track risk categories *)
  run on_state (incr_risk_category (RiskCategory_value (risk_category risk_assessment)));
  (* Identify critical events *)
  if Qgeb (overall_score risk_assessment) (CRITICAL_RISK_THRESHOLD cfg) then
    let critical_events :=
      critical_events
      ++ [ {| ce_transaction_hash := transaction_hash processed_event;
              ce_risk_score := overall_score risk_assessment;
              ce_recommendation := recommendation risk_assessment;
              ce_factors := assessment_factors risk_assessment |} ] in
    run on_state (modify (add_counts 0 0 1));
    ret (risk_assessments, critical_events,
         recommendations
         ++ [ "CRITICAL: " +:+ recommendation risk_assessment +:+ " for "
              +:+ str_take 10 (transaction_hash processed_event) ])
  else if Qgeb (overall_score risk_assessment) (HIGH_RISK_THRESHOLD cfg) then
    run on_state (modify (add_counts 0 1 0));
    ret (risk_assessments, critical_events,
         recommendations
         ++ [ "HIGH RISK: " +:+ recommendation risk_assessment +:+ " for "
              +:+ str_take 10 (transaction_hash processed_event) ])
  else ret (risk_assessments, critical_events, recommendations).

(** The result sent from the [except] branch. *)
Definition error_result (request_id : string) (e : exn) : RiskAssessmentResult :=
  {| risk_assessments := [];
     overall_risk_score := 0;
     critical_events := [];
     recommendations := ["Assessment error: " +:+ exn_str e];
     rar_request_id := request_id;
     assessment_time := 0;
     rar_confidence_score := 0 |}.

Definition handle_event_analysis_result (sender : string)
    (msg : Comm.EventAnalysisResult) : ST run_state unit :=
  run on_state (incr_communication_stat "requests_received");
  do start_time <- on_engine (now w);
  try_except
    ((* Send acknowledgment *)
     do t <- on_engine (now w);
     let acknowledgment :=
       {| Comm.ack_request_id := Comm.ear_request_id msg;
          Comm.ack_status := "processing";
          Comm.ack_message :=
            "Risk Assessor received " +:+ pretty (length (Comm.processed_events msg))
            +:+ " processed events for risk assessment";
          Comm.ack_agent_name := AGENT_NAME;
          Comm.ack_timestamp := isoformat t |} in
     run ctx_send send_fault sender (Acknowledgment acknowledgment);
     (* Perform risk assessment on each processed event *)
     do ' (risk_assessments, critical_events, recommendations) <-
       for_each_m assess_event ([], [], []) (Comm.processed_events msg);
     (* Calculate overall risk score *)
     let overall_risk_score :=
       match risk_assessments with
       | [] => 0
       | _ => Qsum (map ad_risk_score risk_assessments)
              / inject_Z (Z.of_nat (length risk_assessments))
       end in
     (* Generate additional recommendations based on patterns *)
     let pattern_recommendations :=
       generate_pattern_recommendations (Comm.patterns_detected msg) in
     let recommendations := recommendations ++ pattern_recommendations in
     (* Calculate assessment time and confidence *)
     do t_end <- on_engine (now w);
     let assessment_time := t_end - start_time in
     let confidence_score :=
       calculate_assessment_confidence risk_assessments (Comm.ear_confidence_score msg) in
     (* Update statistics *)
     run on_state (modify (add_counts 1 0 0));
     let result :=
       {| risk_assessments := risk_assessments;
          overall_risk_score := overall_risk_score;
          critical_events := critical_events;
          recommendations := recommendations;
          rar_request_id := Comm.ear_request_id msg;
          assessment_time := assessment_time;
          rar_confidence_score := confidence_score |} in
     (* Send result back to sender (Orchestrator) *)
     run ctx_send send_fault sender (Result result);
     run on_state (incr_communication_stat "responses_sent");
     ret tt)
    (fun e =>
       run on_state (incr_communication_stat "errors_handled");
       (* Send error result *)
       run ctx_send send_fault sender (Result (error_result (Comm.ear_request_id msg) e));
       (* Send error notification *)
       do t <- on_engine (now w);
       let error_notification :=
         {| Comm.error_type := "assessment_error";
            Comm.error_message := exn_str e;
            Comm.err_request_id := Comm.ear_request_id msg;
            Comm.err_agent_name := AGENT_NAME;
            Comm.err_timestamp := isoformat t |} in
       run ctx_send send_fault sender (Error error_notification);
       ret tt).
End Handler.

End RiskAssessor.

(** ** [phase2_event_analyzer.py] *)

Module EventAnalyzer.

Definition AGENT_NAME : string := "PulseProof-Phase2-EventAnalyzer".

(** The module-level [agent_state]; its ["events_by_type"] stays empty. *)
Record AgentState := {
  events_processed : Z;
  patterns_detected : Z;
  processing_stats : gmap string Z;
  communication_stats : gmap string Z
}.

Definition initial_agent_state : AgentState := {|
  events_processed := 0;
  patterns_detected := 0;
  processing_stats :=
    list_to_map [ ("transfer_events", 0%Z); ("approval_events", 0%Z);
                  ("high_suspicion_events", 0%Z); ("pattern_matches", 0%Z) ];
  communication_stats :=
    list_to_map [ ("requests_received", 0%Z); ("responses_sent", 0%Z);
                  ("errors_handled", 0%Z) ]
|}.

Inductive message :=
  | Acknowledgment (a : Comm.AgentAcknowledgment)
  | Result (r : Comm.EventAnalysisResult)
  | Error (e : Comm.AgentError).

Definition set_communication_stats (d : gmap string Z) (st : AgentState) : AgentState :=
  {| events_processed := events_processed st;
     patterns_detected := patterns_detected st;
     processing_stats := processing_stats st;
     communication_stats := d |}.
Definition set_processing_stats (d : gmap string Z) (st : AgentState) : AgentState :=
  {| events_processed := events_processed st;
     patterns_detected := patterns_detected st;
     processing_stats := d;
     communication_stats := communication_stats st |}.
Definition add_counts (events patterns : Z) (st : AgentState) : AgentState :=
  {| events_processed := events_processed st + events;
     patterns_detected := patterns_detected st + patterns;
     processing_stats := processing_stats st;
     communication_stats := communication_stats st |}.

(** [agent_state["communication_stats"][key] += 1] *)
Definition incr_communication_stat (key : string) : ST AgentState unit :=
  do st <- get_state;
  do d <- lift (incr_key key (communication_stats st));
  modify (set_communication_stats d).

(** [agent_state["processing_stats"][key] += 1] *)
Definition incr_processing_stat (key : string) : ST AgentState unit :=
  do st <- get_state;
  do d <- lift (incr_key key (processing_stats st));
  modify (set_processing_stats d).

(** [agent_state["processing_stats"][key]] *)
Definition processing_stat (key : string) : ST AgentState Z :=
  do st <- get_state;
  match processing_stats st !! key with
  | Some n => ret n
  | None => raise (KeyError key)
  end.

(** [suspicion_level.value] *)
Definition SuspicionLevel_value (l : SuspicionLevel) : Z :=
  match l with LOW => 0 | MEDIUM => 1 | HIGH => 2 | CRITICAL => 3 end.

(** [suspicion_level.name] *)
Definition SuspicionLevel_name (l : SuspicionLevel) : string :=
  match l with
  | LOW => "LOW" | MEDIUM => "MEDIUM" | HIGH => "HIGH" | CRITICAL => "CRITICAL"
  end.

Definition ZERO_ADDRESS : string := "0x0000000000000000000000000000000000000000".

(** [detect_patterns]: the patterns of one event, and the number of times
    it bumps [agent_state["patterns_detected"]].  At the types of
    [ParsedData] nothing in its [try] block raises. *)
Definition detect_patterns (analyzed : EventProcessor.AnalyzedEvent)
    : ST AgentState (list Comm.Pattern) :=
  let processed_event := EventProcessor.event analyzed in
  let patterns : list Comm.Pattern := [] in
  let bump := modify (add_counts 0 1) in
  (* Pattern 1: Large amount transfers *)
  do patterns <-
    match event_type processed_event with
    | TRANSFER =>
        let amount := default 0%Z (amount (parsed_data processed_event)) in
        if (1000000000000000000 <? amount)%Z then
          run bump;
          ret (patterns
               ++ [ {| Comm.pattern_type := Some (Comm.AStr "large_transfer");
                       Comm.pattern_confidence := 8#10;
                       Comm.description :=
                         Some (Comm.AStr ("Large transfer detected: " +:+ pretty amount
                                          +:+ " wei"));
                       Comm.risk_level := Some (Comm.AStr "high");
                       Comm.metadata :=
                         Comm.AmountMetadata amount 1000000000000000000 |} ])
        else ret patterns
    (* Pattern 2: Unlimited approvals *)
    | APPROVAL =>
        let approval_amount :=
          default 0%Z (approval_amount (parsed_data processed_event)) in
        if (approval_amount =? 2 ^ 256 - 1)%Z then
          run bump;
          ret (patterns
               ++ [ {| Comm.pattern_type := Some (Comm.AStr "unlimited_approval");
                       Comm.pattern_confidence := 9#10;
                       Comm.description := Some (Comm.AStr "Unlimited approval detected");
                       Comm.risk_level := Some (Comm.AStr "critical");
                       Comm.metadata := Comm.ApprovalMetadata approval_amount |} ])
        else ret patterns
    | _ => ret patterns
    end;
  (* Pattern 3: Zero address interactions *)
  let from_address := default EmptyString (from_address (parsed_data processed_event)) in
  let to_address := default EmptyString (EventProcessor.to_address analyzed) in
  do patterns <-
    (if bool_decide (from_address = ZERO_ADDRESS) || bool_decide (to_address = ZERO_ADDRESS)
     then
       run bump;
       ret (patterns
            ++ [ {| Comm.pattern_type := Some (Comm.AStr "zero_address_interaction");
                    Comm.pattern_confidence := 7#10;
                    Comm.description :=
                      Some (Comm.AStr "Zero address interaction detected");
                    Comm.risk_level := Some (Comm.AStr "medium");
                    Comm.metadata := Comm.AddressMetadata from_address to_address |} ])
     else ret patterns);
  (* Pattern 4: High suspicion level correlation *)
  do patterns <-
    (if (3 <=? SuspicionLevel_value (suspicion_level processed_event))%Z then
       run bump;
       ret (patterns
            ++ [ {| Comm.pattern_type := Some (Comm.AStr "critical_suspicion");
                    Comm.pattern_confidence := 95#100;
                    Comm.description :=
                      Some (Comm.AStr
                              ("Critical suspicion level: "
                               +:+ SuspicionLevel_name (suspicion_level processed_event)));
                    Comm.risk_level := Some (Comm.AStr "critical");
                    Comm.metadata :=
                      Comm.SuspicionMetadata
                        (SuspicionLevel_name (suspicion_level processed_event))
                        (risk_factors processed_event) |} ])
     else ret patterns);
  (* Pattern 5: Multiple risk factors *)
  do patterns <-
    (if (3 <=? length (risk_factors processed_event))%nat then
       run bump;
       ret (patterns
            ++ [ {| Comm.pattern_type := Some (Comm.AStr "multiple_risk_factors");
                    Comm.pattern_confidence := 8#10;
                    Comm.description :=
                      Some (Comm.AStr
                              ("Multiple risk factors detected: "
                               +:+ pretty (length (risk_factors processed_event))));
                    Comm.risk_level := Some (Comm.AStr "high");
                    Comm.metadata :=
                      Comm.FactorsMetadata (length (risk_factors processed_event))
                        (risk_factors processed_event) |} ])
     else ret patterns);
  ret patterns.

(** [event.parsed_data and len(event.parsed_data) > 0] *)
Definition has_parsed_data (analyzed : EventProcessor.AnalyzedEvent) : bool :=
  let pd := parsed_data (EventProcessor.event analyzed) in
  bool_decide (is_Some (amount pd)) || bool_decide (is_Some (from_address pd))
  || bool_decide (is_Some (approval_amount pd))
  || bool_decide (is_Some (EventProcessor.to_address analyzed))
  || bool_decide (is_Some (EventProcessor.enhanced_risk_assessment analyzed))
  || (0 <? EventProcessor.other_keys analyzed)%nat.

Definition calculate_confidence_score (processed_events : list EventProcessor.AnalyzedEvent)
    (patterns_detected : list Comm.Pattern) : Q :=
  match processed_events with
  | [] => 0
  | _ =>
      (* Base confidence from event processing quality *)
      let base_confidence := 7#10 in
      (* Boost confidence based on pattern detection *)
      let pattern_boost :=
        py_min (inject_Z (Z.of_nat (length patterns_detected)) * (1#10)) (3#10) in
      (* Boost confidence based on data quality *)
      let data_quality_boost :=
        fold_left (fun boost event =>
                     if has_parsed_data event then boost + (5#100) else boost)
                  processed_events 0 in
      (* Cap at 1.0 *)
      py_min (base_confidence + pattern_boost + data_quality_boost) 1
  end.

Section Handler.
Context (cfg : Config) (w : World) (list_set : list string -> list string).
Context (send_fault : nat -> option exn).
(** [datetime.isoformat] of the time stamp [t] *)
Context (isoformat : Q -> string).

Definition run_state : Type := agent AgentState message.

(** One turn of the loop over [msg.candidate_events]; [acc] is
    [(processed_events, patterns_detected)]. *)
Definition analyze_event
    (acc : list EventProcessor.AnalyzedEvent * list Comm.Pattern)
    (candidate_event : Orchestrator.CandidateEvent)
    : ST run_state (list EventProcessor.AnalyzedEvent * list Comm.Pattern) :=
  let '(processed_events, patterns_detected) := acc in
  (* Preprocess the event *)
  do processed_event <-
    on_engine (EventProcessor.preprocess_event cfg w list_set candidate_event);
  let processed_events := processed_events ++ [processed_event] in
  (* Update statistics *)
  run on_state (modify (add_counts 1 0));
  let event_type :=
    EventType_value (event_type (EventProcessor.event processed_event)) in
  run on_state (incr_processing_stat (lower event_type +:+ "_events"));
  run (if (2 <=? SuspicionLevel_value
                   (suspicion_level (EventProcessor.event processed_event)))%Z
       then on_state (incr_processing_stat "high_suspicion_events")
       else ret tt);
  (* Detect patterns *)
  do patterns <- on_state (detect_patterns processed_event);
  ret (processed_events, patterns_detected ++ patterns).

(** The result sent from the [except] branch. *)
Definition error_result (request_id : string) (e : exn) : Comm.EventAnalysisResult :=
  {| Comm.processed_events := [];
     Comm.patterns_detected := [];
     Comm.analysis_summary := Comm.SummaryError (exn_str e);
     Comm.ear_request_id := request_id;
     Comm.ear_processing_time := 0;
     Comm.ear_confidence_score := 0 |}.

Definition handle_event_analysis_request (sender : string)
    (msg : Orchestrator.AgentEventAnalysisRequest) : ST run_state unit :=
  run on_state (incr_communication_stat "requests_received");
  do start_time <- on_engine (now w);
  try_except
    ((* Send acknowledgment *)
     do t <- on_engine (now w);
     let acknowledgment :=
       {| Comm.ack_request_id := Orchestrator.aer_request_id msg;
          Comm.ack_status := "processing";
          Comm.ack_message :=
            "Event Analyzer received "
            +:+ pretty (length (Orchestrator.aer_candidate_events msg))
            +:+ " events for processing";
          Comm.ack_agent_name := AGENT_NAME;
          Comm.ack_timestamp := isoformat t |} in
     run ctx_send send_fault sender (Acknowledgment acknowledgment);
     (* Process each candidate event *)
     do ' (processed_events, patterns_detected) <-
       for_each_m analyze_event ([], []) (Orchestrator.aer_candidate_events msg);
     (* Calculate processing time and confidence *)
     do t_end <- on_engine (now w);
     let processing_time := t_end - start_time in
     let confidence_score :=
       calculate_confidence_score processed_events patterns_detected in
     (* Create analysis summary *)
     do transfer_events <- on_state (processing_stat "transfer_events");
     do approval_events <- on_state (processing_stat "approval_events");
     let analysis_summary :=
       Comm.SummaryOf
         (length processed_events)
         (length (filter (fun e => (2 <= SuspicionLevel_value
                                           (suspicion_level (EventProcessor.event e)))%Z)
                         processed_events))
         (length patterns_detected)
         processing_time confidence_score transfer_events approval_events in
     let result :=
       {| Comm.processed_events := processed_events;
          Comm.patterns_detected := patterns_detected;
          Comm.analysis_summary := analysis_summary;
          Comm.ear_request_id := Orchestrator.aer_request_id msg;
          Comm.ear_processing_time := processing_time;
          Comm.ear_confidence_score := confidence_score |} in
     (* Send result back to sender (Orchestrator) *)
     run ctx_send send_fault sender (Result result);
     run on_state (incr_communication_stat "responses_sent");
     ret tt)
    (fun e =>
       run on_state (incr_communication_stat "errors_handled");
       (* Send error result *)
       run ctx_send send_fault sender
             (Result (error_result (Orchestrator.aer_request_id msg) e));
       (* Send error notification *)
       do t <- on_engine (now w);
       let error_notification :=
         {| Comm.error_type := "processing_error";
            Comm.error_message := exn_str e;
            Comm.err_request_id := Orchestrator.aer_request_id msg;
            Comm.err_agent_name := AGENT_NAME;
            Comm.err_timestamp := isoformat t |} in
       run ctx_send send_fault sender (Error error_notification);
       ret tt).
End Handler.

End EventAnalyzer.

(** ** Specification-side definitions for the agents *)

(** The critical event the risk assessor records for an assessment. *)
Definition critical_of (ra : RiskAssessor.AssessmentDict) : RiskAssessor.CriticalEvent :=
  {| RiskAssessor.ce_transaction_hash := RiskAssessor.ad_transaction_hash ra;
     RiskAssessor.ce_risk_score := RiskAssessor.ad_risk_score ra;
     RiskAssessor.ce_recommendation := RiskAssessor.ad_recommendation ra;
     RiskAssessor.ce_factors := RiskAssessor.ad_factors ra |}.

Definition assessment_in_range (ra : RiskAssessor.AssessmentDict) : Prop :=
  (0 <= RiskAssessor.ad_risk_score ra /\ RiskAssessor.ad_risk_score ra <= 1)
  /\ (0 <= RiskAssessor.ad_confidence ra /\ RiskAssessor.ad_confidence ra <= 1).

(** The arithmetic mean of the scores of a batch, 0 for the empty batch. *)
Definition mean_score (ras : list RiskAssessor.AssessmentDict) : Q :=
  match ras with
  | [] => 0
  | _ => Qsum (map RiskAssessor.ad_risk_score ras) / inject_Z (Z.of_nat (length ras))
  end.

(** A result of the [try] block of the risk assessor's handler for the
    message [msg]: one assessment per processed event, each within range, the
    overall score their mean, the critical events those at or above the
    critical threshold, in order. *)
Definition regular_result (cfg : Config) (msg : Comm.EventAnalysisResult)
    (r : RiskAssessor.RiskAssessmentResult) : Prop :=
  length (RiskAssessor.risk_assessments r) = length (Comm.processed_events msg)
  /\ Forall assessment_in_range (RiskAssessor.risk_assessments r)
  /\ RiskAssessor.overall_risk_score r = mean_score (RiskAssessor.risk_assessments r)
  /\ RiskAssessor.critical_events r
     = map critical_of
         (filter (fun ra => Is_true (Qgeb (RiskAssessor.ad_risk_score ra)
                                          (CRITICAL_RISK_THRESHOLD cfg)))
                 (RiskAssessor.risk_assessments r))
  /\ RiskAssessor.rar_confidence_score r
     = RiskAssessor.calculate_assessment_confidence (RiskAssessor.risk_assessments r)
         (Comm.ear_confidence_score msg).

(** What the risk assessor may send while it handles [msg] from [sender]:
    anything it sends goes to [sender]; a result carries the request id of
    [msg] and an overall score between 0 and 1, and is either the error result
    or a regular one. *)
Definition assessor_reply (cfg : Config) (sender : string) (msg : Comm.EventAnalysisResult)
    (sent : string * RiskAssessor.message) : Prop :=
  fst sent = sender
  /\ match snd sent with
     | RiskAssessor.Result r =>
         RiskAssessor.rar_request_id r = Comm.ear_request_id msg
         /\ (0 <= RiskAssessor.overall_risk_score r /\ RiskAssessor.overall_risk_score r <= 1)
         /\ ((exists e, r = RiskAssessor.error_result (Comm.ear_request_id msg) e)
             \/ regular_result cfg msg r)
     | _ => True
     end.

(** What the event analyzer may send while it handles a request from
    [sender]: a result never carries a processed event or a pattern, and its
    confidence is 0. *)
Definition analyzer_reply (sender : string)
    (sent : string * EventAnalyzer.message) : Prop :=
  fst sent = sender
  /\ match snd sent with
     | EventAnalyzer.Result r =>
         Comm.processed_events r = []
         /\ Comm.patterns_detected r = []
         /\ Comm.ear_confidence_score r = 0
     | _ => True
     end.

(** What the risk assessor's loop over the processed events maintains, after
    [n] events, from a state whose outbox is [box]. *)
Definition batch_inv (cfg : Config) (box : list (string * RiskAssessor.message)) (n : nat)
    (acc : RiskAssessor.batch) (st : RiskAssessor.run_state) : Prop :=
  outbox st = box
  /\ cache_ok (engine_of st)
  /\ length (fst (fst acc)) = n
  /\ Forall assessment_in_range (fst (fst acc))
  /\ snd (fst acc)
     = map critical_of
         (filter (fun ra => Is_true (Qgeb (RiskAssessor.ad_risk_score ra)
                                          (CRITICAL_RISK_THRESHOLD cfg)))
                 (fst (fst acc))).

(** From a state whose outbox was [box], the agent has reached [st'] having
    sent only messages that satisfy [P]. *)
Definition sent_between {AS Msg} (P : string * Msg -> Prop) (box : list (string * Msg))
    (st' : agent AS Msg) : Prop :=
  exists sent, outbox st' = box ++ sent /\ Forall P sent.

(** The counters the risk assessor's handler increments are present in
    [agent_state], as they are when the module is loaded. *)
Definition counters_ok (s : RiskAssessor.AgentState) : Prop :=
  (forall c, is_Some (RiskAssessor.risk_categories s !! RiskCategory_value c))
  /\ is_Some (RiskAssessor.communication_stats s !! "requests_received")
  /\ is_Some (RiskAssessor.communication_stats s !! "responses_sent").

(** A risk assessor that has just started, and an analysis result of one
    transfer for it. *)
Definition started_assessor : RiskAssessor.run_state :=
  {| engine_of := new_engine;
     state_of := RiskAssessor.initial_agent_state;
     outbox := [];
     sends := 0 |}.

Definition one_transfer_analysis : Comm.EventAnalysisResult :=
  {| Comm.processed_events :=
       [ {| EventProcessor.event :=
              sample_event TRANSFER
                {| amount := Some 5%Z; from_address := Some "0xbad";
                   approval_amount := None |};
            EventProcessor.to_address := None;
            EventProcessor.enhanced_risk_assessment := None;
            EventProcessor.other_keys := 0 |} ];
     Comm.patterns_detected := [];
     Comm.analysis_summary := Comm.SummaryOf 1 0 0 (1#100) (75#100) 1 0;
     Comm.ear_request_id := "req_20240101_000000_1";
     Comm.ear_processing_time := 1#100;
     Comm.ear_confidence_score := 75#100 |}.

(** An event analyzer that has just started, and the request the
    orchestrator makes of [sample_request]. *)
Definition started_analyzer : EventAnalyzer.run_state :=
  {| engine_of := new_engine;
     state_of := EventAnalyzer.initial_agent_state;
     outbox := [];
     sends := 0 |}.

Definition one_event_request : Orchestrator.AgentEventAnalysisRequest :=
  {| Orchestrator.aer_candidate_events := Orchestrator.events sample_request;
     Orchestrator.aer_request_id := "req_20240101_000000_1";
     Orchestrator.aer_priority := "normal" |}.


(** * Verification *)

(** ** Arithmetic on rationals *)

Lemma Qltb_lt (x y : Q) : Qltb x y = true <-> x < y.
Proof. unfold Qltb, Qlt. apply Z.ltb_lt. Qed.

Lemma Qltb_ge (x y : Q) : Qltb x y = false <-> y <= x.
Proof. unfold Qltb, Qle. rewrite Z.ltb_ge. reflexivity. Qed.

Lemma Qleb_le (x y : Q) : Qleb x y = true <-> x <= y.
Proof. unfold Qleb, Qle. apply Z.leb_le. Qed.

Lemma Qleb_gt (x y : Q) : Qleb x y = false <-> y < x.
Proof. unfold Qleb, Qlt. rewrite Z.leb_gt. reflexivity. Qed.

Lemma py_min_cases (a b : Q) :
  (b < a /\ py_min a b = b) \/ (a <= b /\ py_min a b = a).
Proof.
  unfold py_min. destruct (Qltb b a) eqn:E.
  - left. split; [by apply Qltb_lt | done].
  - right. split; [by apply Qltb_ge | done].
Qed.

Lemma py_max_cases (a b : Q) :
  (a < b /\ py_max a b = b) \/ (b <= a /\ py_max a b = a).
Proof.
  unfold py_max, Qgtb. destruct (Qltb a b) eqn:E.
  - left. split; [by apply Qltb_lt | done].
  - right. split; [by apply Qltb_ge | done].
Qed.

Lemma py_min_unit (a : Q) : 0 <= a -> 0 <= py_min a 1 /\ py_min a 1 <= 1.
Proof. intros Ha. destruct (py_min_cases a 1) as [[? ->]|[? ->]]; lra. Qed.

(** Turns every boolean comparison among the hypotheses into the order fact
    it decides. *)
Ltac order_facts :=
  repeat match goal with
    | H : Qltb _ _ = true |- _ => apply Qltb_lt in H
    | H : Qltb _ _ = false |- _ => apply Qltb_ge in H
    | H : Qleb _ _ = true |- _ => apply Qleb_le in H
    | H : Qleb _ _ = false |- _ => apply Qleb_gt in H
    | H : Qgtb _ _ = _ |- _ => unfold Qgtb in H
    | H : Qgeb _ _ = _ |- _ => unfold Qgeb in H
    end.

(** ** Reasoning about monadic code *)

Section WP.
Context {S : Type}.

Lemma wp_ret {A} (a : A) (post : result A -> S -> Prop) st :
  post (Ok a) st -> wp (ret a) post st.
Proof. done. Qed.

Lemma wp_raise {A} (e : exn) (post : result A -> S -> Prop) st :
  post (Raise e) st -> wp (raise e) post st.
Proof. done. Qed.

Lemma wp_lift {A} (r : result A) (post : result A -> S -> Prop) st :
  post r st -> wp (lift r) post st.
Proof. done. Qed.

Lemma wp_get_state (post : result S -> S -> Prop) st :
  post (Ok st) st -> wp get_state post st.
Proof. done. Qed.

Lemma wp_modify (f : S -> S) (post : result unit -> S -> Prop) st :
  post (Ok tt) (f st) -> wp (modify f) post st.
Proof. done. Qed.

Lemma wp_bind {A B} (m : ST S A) (k : A -> ST S B) (post : result B -> S -> Prop) st :
  wp m (fun r st' => match r with
                     | Ok a => wp (k a) post st'
                     | Raise e => post (Raise e) st'
                     end) st ->
  wp (bind m k) post st.
Proof. unfold wp, bind. by destruct (m st) as [[a|e] st']. Qed.

Lemma wp_try_except {A} (m : ST S A) (h : exn -> ST S A)
    (post : result A -> S -> Prop) st :
  wp m (fun r st' => match r with
                     | Ok a => post (Ok a) st'
                     | Raise e => wp (h e) post st'
                     end) st ->
  wp (try_except m h) post st.
Proof. unfold wp, try_except. by destruct (m st) as [[a|e] st']. Qed.

Lemma wp_mono {A} (m : ST S A) (post post' : result A -> S -> Prop) st :
  wp m post st -> (forall r st', post r st' -> post' r st') -> wp m post' st.
Proof. unfold wp. auto. Qed.

End WP.

Lemma wp_now w (post : result Q -> engine -> Prop) st :
  post (Ok (clock w (tick st))) (next_tick st) -> wp (now w) post st.
Proof. done. Qed.

Lemma wp_http_get {A} (endpoint : nat -> A) (post : result A -> engine -> Prop) st :
  post (Ok (endpoint (tick st))) (next_tick st) -> wp (http_get endpoint) post st.
Proof. done. Qed.

(** One step of symbolic execution of a computation under [wp]. *)
Ltac wp_step :=
  lazymatch goal with
  | |- wp (bind _ _) _ _ => apply wp_bind
  | |- wp (try_except _ _) _ _ => apply wp_try_except
  | |- wp (ret _) _ _ => apply wp_ret
  | |- wp (raise _) _ _ => apply wp_raise
  | |- wp (lift _) _ _ => apply wp_lift
  | |- wp get_state _ _ => apply wp_get_state
  | |- wp (modify _) _ _ => apply wp_modify
  | |- wp (now _) _ _ => apply wp_now
  | |- wp (http_get _) _ _ => apply wp_http_get
  | |- wp (read_local _ ?v) _ _ => destruct v; unfold read_local
  | |- wp (match ?x with _ => _ end) _ _ =>
      lazymatch x with
      | (if ?c then _ else _) => destruct c eqn:?
      | (match ?y with _ => _ end) => destruct y eqn:?
      | _ => destruct x eqn:?
      end
  | |- match ?x with _ => _ end => destruct x eqn:?
  end.

Ltac wp_steps := repeat (wp_step; cbv beta iota zeta).

(** ** The recommendation rule (C3) *)

(** C3.  With the default thresholds, for every score [s] and confidence [c]:
    the recommendation is MONITOR as soon as [c < 0.6], whatever the score;
    otherwise it is CRITICAL_INVESTIGATION from [s >= 0.9],
    IMMEDIATE_INVESTIGATION from [s >= 0.7], INVESTIGATE from [s >= 0.5], and
    MONITOR below. *)
Theorem C3_recommendation_rule (s c : Q) :
  (c < 6#10 -> _generate_recommendation default_config s c = "MONITOR")
  /\ (~ c < 6#10 -> 9#10 <= s ->
      _generate_recommendation default_config s c = "CRITICAL_INVESTIGATION")
  /\ (~ c < 6#10 -> s < 9#10 -> 7#10 <= s ->
      _generate_recommendation default_config s c = "IMMEDIATE_INVESTIGATION")
  /\ (~ c < 6#10 -> s < 7#10 -> 5#10 <= s ->
      _generate_recommendation default_config s c = "INVESTIGATE")
  /\ (~ c < 6#10 -> s < 5#10 ->
      _generate_recommendation default_config s c = "MONITOR").
Proof.
  unfold _generate_recommendation; cbn [MIN_CONFIDENCE CRITICAL_RISK_THRESHOLD
    HIGH_RISK_THRESHOLD default_config].
  unfold Qgeb.
  destruct (Qltb c (6#10)) eqn:Hc, (Qleb (9#10) s) eqn:H9, (Qleb (7#10) s) eqn:H7,
    (Qleb (5#10) s) eqn:H5; order_facts;
    repeat split; intros; try reflexivity; exfalso; lra.
Qed.

(** ** The reputation cache stays well-formed *)

Lemma cache_ok_new : cache_ok new_engine.
Proof. intros k e H. cbn in H. by rewrite lookup_empty in H. Qed.

Lemma cache_ok_same st st' :
  _reputation_cache st' = _reputation_cache st -> cache_ok st -> cache_ok st'.
Proof. unfold cache_ok. by intros ->. Qed.

Lemma cache_ok_insert st k e :
  cache_ok st -> entry_ok k e -> cache_ok (set_reputation_cache (insert k e) st).
Proof.
  intros Hok He k' e'. cbn. rewrite lookup_insert.
  case_decide; [intros [= <-]; by subst | apply Hok].
Qed.

Lemma in_unit_analysis_error e : in_unit (analysis_error e).
Proof. unfold in_unit; cbn; lra. Qed.

(** ** Analyzer by analyzer *)

Section Analyzers.
Context (cfg : Config) (w : World).

Lemma _get_token_price_spec a st :
  wp (_get_token_price cfg w a)
     (fun r st' => (exists p, r = Ok p)
                   /\ _reputation_cache st' = _reputation_cache st) st.
Proof. unfold _get_token_price. wp_steps; eauto. Qed.

Lemma _calculate_usd_value_spec amt a st :
  wp (_calculate_usd_value cfg w amt a)
     (fun r st' => (exists v, r = Ok v)
                   /\ _reputation_cache st' = _reputation_cache st) st.
Proof.
  unfold _calculate_usd_value. wp_steps; eauto.
  all: eapply wp_mono; [apply _get_token_price_spec|];
    intros ? ? [[? ->] Hst']; wp_steps; cbn; rewrite ?Hst'; eauto.
Qed.

Lemma _analyze_financial_impact_spec e st :
  wp (_analyze_financial_impact cfg w e)
     (fun r st' => (exists fr, r = Ok fr /\ in_unit fr)
                   /\ _reputation_cache st' = _reputation_cache st) st.
Proof.
  unfold _analyze_financial_impact, _analyze_financial_impact_body.
  wp_steps.
  - eapply wp_mono; [apply _calculate_usd_value_spec|].
    intros ? ? [[? ->] Hst'].
    wp_steps; (split; [eexists; split; [reflexivity|unfold in_unit; cbn; lra] | done]).
  - split; [eexists; split; [reflexivity|unfold in_unit; cbn; lra] | done].
Qed.

Lemma _get_historical_behavior_spec a st :
  cache_ok st ->
  wp (_get_historical_behavior cfg w a)
     (fun r st' => (exists h, r = Ok h) /\ cache_ok st') st.
Proof.
  intros Hok. unfold _get_historical_behavior.
  wp_steps; eauto.
  all: split; [eauto|]; apply cache_ok_insert; [done|]; reflexivity.
Qed.

Lemma nonneg_if (b : bool) (x y : Q) : 0 <= x -> 0 <= y -> 0 <= (if b then x else y).
Proof. by destruct b. Qed.

Lemma nonneg_plus (x y : Q) : 0 <= x -> 0 <= y -> 0 <= x + y.
Proof. intros. lra. Qed.

(** Proves a sum of non-negative constants, chosen by conditionals, to be
    non-negative. *)
Ltac nonneg :=
  repeat lazymatch goal with
    | |- 0 <= (if _ then _ else _) => apply nonneg_if
    | |- 0 <= _ + _ => apply nonneg_plus
    | |- 0 <= _ => lra
    end.

Lemma _calculate_anomaly_score_spec h cur st :
  wp (_calculate_anomaly_score w h cur)
     (fun r st' => (forall s, r = Ok s -> 0 <= s /\ s <= 1)
                   /\ _reputation_cache st' = _reputation_cache st) st.
Proof.
  unfold _calculate_anomaly_score.
  destruct (Qgtb (average_value h) 0) eqn:Havg; cbv beta iota zeta;
    wp_steps; (split; [|done]); intros s [=]; subst s;
    apply py_min_unit; nonneg.
Qed.

Lemma _calculate_anomaly_confidence_unit s n :
  0 <= s /\ s <= 1 ->
  0 <= _calculate_anomaly_confidence s n
  /\ _calculate_anomaly_confidence s n <= 1.
Proof.
  intros [H0 H1]. unfold _calculate_anomaly_confidence. cbv zeta.
  apply py_min_unit.
  destruct (50 <? n)%nat; [|destruct (10 <? n)%nat; [|destruct (0 <? n)%nat]]; lra.
Qed.

Lemma _detect_behavioral_anomalies_spec e st :
  cache_ok st ->
  wp (_detect_behavioral_anomalies cfg w e)
     (fun r st' => (exists fr, r = Ok fr /\ in_unit fr) /\ cache_ok st') st.
Proof.
  intros Hok.
  unfold _detect_behavioral_anomalies, _detect_behavioral_anomalies_body.
  cbv zeta. wp_steps.
  - split; [|done]. eexists; split; [done|]. unfold in_unit; cbn; lra.
  - eapply wp_mono; [by apply _get_historical_behavior_spec|].
    intros ? st1 [[h ->] Hok1]. unfold _extract_behavioral_features.
    wp_steps.
    eapply wp_mono; [apply _calculate_anomaly_score_spec|].
    intros r st2 [Hs Hst2].
    assert (cache_ok st2) as Hok2 by (by eapply cache_ok_same).
    destruct r as [s|x].
    + specialize (Hs s eq_refl). wp_steps. split; [|done].
      eexists; split; [done|]. split; cbn [score confidence]; [done|].
      by apply _calculate_anomaly_confidence_unit.
    + wp_steps. split; [|done]. eexists; split; [done|].
      apply in_unit_analysis_error.
Qed.

(** An invariant carried through a [for_each] loop. *)
Lemma for_each_inv {A B} (P : B -> Prop) (f : B -> A -> result B) l :
  (forall acc x acc', x ∈ l -> P acc -> f acc x = Ok acc' -> P acc') ->
  forall acc acc', P acc -> for_each f acc l = Ok acc' -> P acc'.
Proof.
  induction l as [|x l IH]; intros Hf acc acc' HP; cbn.
  - by intros [= <-].
  - destruct (f acc x) as [acc1|] eqn:E; [|done].
    apply IH.
    + intros ? y ? Hy. apply Hf. by apply list_elem_of_further.
    + eapply Hf; [apply list_elem_of_here|done..].
Qed.

Lemma risk_indicators_unit :
  Forall (fun entry : string * Q => 0 <= snd entry /\ snd entry <= 1) risk_indicators.
Proof. unfold risk_indicators. repeat constructor; cbn; lra. Qed.

Lemma check_indicator_unit res acc entry acc' :
  entry ∈ risk_indicators ->
  (0 <= fst acc /\ fst acc <= 1) ->
  check_indicator w res acc entry = Ok acc' ->
  0 <= fst acc' /\ fst acc' <= 1.
Proof.
  intros Hin Hacc. pose proof risk_indicators_unit as Hall.
  rewrite Forall_forall in Hall. specialize (Hall _ Hin).
  destruct acc as [m t], entry as [i x]. cbn in *.
  unfold check_indicator.
  destruct (indicator_positive w _) as [[|]|ex]; [| |case_bool_decide];
    intros [= <-]; cbn; try done.
  destruct (py_max_cases m x) as [[? ->]|[? ->]]; lra.
Qed.

Lemma check_critical_unit res acc critical acc' :
  (0 <= fst acc /\ fst acc <= 1) ->
  check_critical w res acc critical = Ok acc' ->
  0 <= fst acc' /\ fst acc' <= 1.
Proof.
  intros Hacc. destruct acc as [m t]. cbn in *. unfold check_critical.
  destruct (py_int w _) as [v|]; [|done].
  destruct (0 <? v)%Z; intros [= <-]; cbn; try done.
  destruct (py_max_cases m (95#100)) as [[? ->]|[? ->]]; lra.
Qed.

Lemma reputation_data_unit res acc q l :
  for_each (check_indicator w res) (0, []) risk_indicators = Ok acc ->
  for_each (check_critical w res) acc critical_indicators = Ok (q, l) ->
  in_unit {| score := q;
             confidence := match l with [] => 8#10 | _ => 9#10 end;
             factors := match l with
                        | [] => ["No reputation issues found"]
                        | _ => l
                        end |}.
Proof.
  intros H1 H2. split; cbn; [|destruct l; lra].
  change q with (fst (q, l)).
  eapply (for_each_inv (fun acc => 0 <= fst acc /\ fst acc <= 1)); [| |exact H2].
  - intros ????. apply check_critical_unit.
  - eapply (for_each_inv (fun acc => 0 <= fst acc /\ fst acc <= 1)); [| |exact H1].
    + intros ????. by apply check_indicator_unit.
    + cbn; lra.
Qed.

Lemma _check_address_reputation_spec a st :
  cache_ok st ->
  wp (_check_address_reputation cfg w a)
     (fun r st' => (exists fr, r = Ok (FactorD fr) /\ in_unit fr) /\ cache_ok st') st.
Proof.
  intros Hok. unfold _check_address_reputation.
  wp_steps;
    try (split; [|done]; eexists; split; [done|]; unfold in_unit; cbn; lra).
  - (* a fresh cached entry *)
    split; [|done].
    match goal with H : _ !! _ = Some ?r |- _ => pose proof (Hok _ _ H) as He end.
    unfold entry_ok in He. unfold entry_data in *.
    destruct (rep_payload_of _) as [d|d]; [done|].
    match goal with H : Ok _ = Ok _ |- _ => injection H as -> end.
    destruct a0 as [fr|h]; [eauto|done].
  - (* a freshly computed result, after a stale entry *)
    split; [eexists; split; [done|]|apply cache_ok_insert; [done|]];
      eapply reputation_data_unit; eassumption.
  - (* a freshly computed result, nothing cached *)
    split; [eexists; split; [done|]|apply cache_ok_insert; [done|]];
      eapply reputation_data_unit; eassumption.
Qed.

Lemma _assess_reputation_risk_spec e st :
  cache_ok st ->
  wp (_assess_reputation_risk cfg w e)
     (fun r st' => (exists fr, r = Ok (FactorD fr) /\ in_unit fr) /\ cache_ok st') st.
Proof.
  intros Hok. unfold _assess_reputation_risk, _assess_reputation_risk_body.
  cbv zeta. wp_steps;
    try (split; [|done]; eexists; split; [done|];
         first [apply in_unit_analysis_error | unfold in_unit; cbn; lra]).
  - split; [|done].
    match goal with H : _ !! _ = Some ?r |- _ => pose proof (Hok _ _ H) as He end.
    unfold entry_ok in He. unfold entry_risk_data in *.
    destruct (rep_payload_of _) as [d|d]; [|done].
    match goal with H : Ok _ = Ok _ |- _ => injection H as -> end.
    destruct a as [fr|h]; [eauto|done].
  - eapply wp_mono; [by apply _check_address_reputation_spec|].
    intros ? st1 [(fr & -> & Hfr) Hok1]. wp_steps.
    split; [eauto|]. by apply cache_ok_insert.
  - eapply wp_mono; [by apply _check_address_reputation_spec|].
    intros ? st1 [(fr & -> & Hfr) Hok1]. wp_steps.
    split; [eauto|]. by apply cache_ok_insert.
Qed.

(** A pure step that updates the pair of running score and factor list. *)
Lemma wp_let_pair {B} (p : Q * list string) (k : Q -> list string -> M B)
    (post : result B -> engine -> Prop) st :
  0 <= fst p ->
  (forall risk_score risk_factors, 0 <= risk_score -> wp (k risk_score risk_factors) post st) ->
  wp (let '(risk_score, risk_factors) := p in k risk_score risk_factors) post st.
Proof. destruct p as [x y]. cbn. auto. Qed.

Ltac pair_step :=
  apply wp_let_pair;
  [ repeat match goal with |- context [if ?c then _ else _] => destruct c end;
    cbn [fst]; lra
  | intros ? ? ? ].

Lemma _analyze_historical_context_spec e st :
  cache_ok st ->
  wp (_analyze_historical_context cfg w e)
     (fun r st' => (exists fr, r = Ok fr /\ in_unit fr) /\ cache_ok st') st.
Proof.
  intros Hok.
  unfold _analyze_historical_context, _analyze_historical_context_body.
  cbv zeta. wp_steps.
  - split; [|done]. eexists; split; [done|]. unfold in_unit; cbn; lra.
  - eapply wp_mono; [by apply _get_historical_behavior_spec|].
    intros ? st1 [[h ->] Hok1].
    apply wp_bind.
    eapply (wp_mono _ (fun r st' =>
              match r with
              | Ok p => 0 <= fst p
              | Raise _ => True
              end /\ cache_ok st')).
    { wp_steps; (split; [cbn; lra | done]). }
    intros [[risk_score risk_factors]|x] st2 [Hs Hok2]; cbn in Hs.
    + do 4 pair_step. wp_steps. split; [|done]. eexists; split; [done|].
      split; cbn [score confidence]; [by apply py_min_unit|].
      repeat match goal with |- context [if ?c then _ else _] => destruct c end; lra.
    + wp_steps. split; [|done]. eexists; split; [done|].
      apply in_unit_analysis_error.
Qed.

Lemma _analyze_approval_risk_spec e st :
  wp (_analyze_approval_risk e)
     (fun r st' => (exists fr, r = Ok fr /\ in_unit fr) /\ st' = st) st.
Proof.
  unfold _analyze_approval_risk, _analyze_approval_risk_body.
  cbv zeta. wp_steps;
    (split; [|done]; eexists; split; [done|]; unfold in_unit; cbn; lra).
Qed.
End Analyzers.

(** ** Sums, the weighted score and the mean confidence *)

Lemma fold_Qplus (l : list Q) (a : Q) : fold_left Qplus l a == a + Qsum l.
Proof.
  unfold Qsum. revert a. induction l as [|x l IH]; intros a; cbn.
  - lra.
  - rewrite IH, (IH (0 + x)). lra.
Qed.

Lemma Qsum_cons (x : Q) (l : list Q) : Qsum (x :: l) == x + Qsum l.
Proof. unfold Qsum at 1. cbn. rewrite fold_Qplus. lra. Qed.

Section Totals.
Context (cfg : Config).

Lemma totals_sum comps (a b : Q) :
  fst (fold_left (add_component cfg) comps (a, b))
    == a + Qsum (map (fun item => score (snd item) * RISK_WEIGHTS cfg (fst item)) comps)
  /\ snd (fold_left (add_component cfg) comps (a, b))
    == b + Qsum (map (fun item => RISK_WEIGHTS cfg (fst item)) comps).
Proof.
  revert a b. induction comps as [|x l IH]; intros a b; cbn [fold_left map].
  - unfold Qsum; cbn. split; lra.
  - destruct (IH (fst (add_component cfg (a, b) x)) (snd (add_component cfg (a, b) x)))
      as [H1 H2].
    rewrite !Qsum_cons. unfold add_component in *. cbn [fst snd] in *.
    split; [rewrite H1|rewrite H2]; lra.
Qed.

Lemma weighted_score_eq comps :
  _calculate_weighted_risk_score cfg comps
  = fst (fold_left (add_component cfg) comps (0, 0)) / py_max (snd (fold_left (add_component cfg) comps (0, 0))) (1#1000).
Proof. reflexivity. Qed.


Lemma sums_bounded comps :
  (forall c, 0 <= RISK_WEIGHTS cfg c) ->
  Forall (fun item => in_unit (snd item)) comps ->
  0 <= Qsum (map (fun item => score (snd item) * RISK_WEIGHTS cfg (fst item)) comps)
  /\ Qsum (map (fun item => score (snd item) * RISK_WEIGHTS cfg (fst item)) comps)
     <= Qsum (map (fun item => RISK_WEIGHTS cfg (fst item)) comps).
Proof.
  intros Hw. induction 1 as [|x l [[H0 H1] _] _ IH]; cbn [map].
  - unfold Qsum; cbn. lra.
  - rewrite !Qsum_cons. specialize (Hw (fst x)).
    assert (0 <= score (snd x) * RISK_WEIGHTS cfg (fst x)) by (apply Qmult_le_0_compat; lra).
    assert (score (snd x) * RISK_WEIGHTS cfg (fst x) <= RISK_WEIGHTS cfg (fst x)) by nra.
    lra.
Qed.

Lemma weighted_score_unit comps :
  (forall c, 0 <= RISK_WEIGHTS cfg c) ->
  Forall (fun item => in_unit (snd item)) comps ->
  0 <= _calculate_weighted_risk_score cfg comps
  /\ _calculate_weighted_risk_score cfg comps <= 1.
Proof.
  intros Hw Hu. rewrite weighted_score_eq.
  destruct (totals_sum comps 0 0) as [H1 H2].
  destruct (sums_bounded comps Hw Hu) as [B0 B1].
  set (ts := fst _) in *. set (tw := snd _) in *.
  assert (0 < py_max tw (1#1000) /\ tw <= py_max tw (1#1000)) as [Hpos Hge].
  { destruct (py_max_cases tw (1#1000)) as [[? ->]|[? ->]]; split; lra. }
  split.
  - apply Qle_shift_div_l; [done|]. lra.
  - apply Qle_shift_div_r; [done|]. lra.
Qed.
End Totals.

Lemma mean_unit (confs : list Q) :
  confs <> [] ->
  Forall (fun c => 0 <= c /\ c <= 1) confs ->
  0 <= Qsum confs / inject_Z (Z.of_nat (length confs))
  /\ Qsum confs / inject_Z (Z.of_nat (length confs)) <= 1.
Proof.
  intros Hne Hall.
  assert (0 <= Qsum confs /\ Qsum confs <= inject_Z (Z.of_nat (length confs))) as [H0 H1].
  { clear Hne. induction Hall as [|x l [? ?] _ [? ?]].
    - unfold Qsum; cbn [fold_left length]. change (inject_Z (Z.of_nat 0)) with 0.
      split; lra.
    - rewrite Qsum_cons. cbn [length]. rewrite Nat2Z.inj_succ, <- Z.add_1_r, inject_Z_plus.
      change (inject_Z 1) with 1. split; lra. }
  assert (0 < inject_Z (Z.of_nat (length confs))) as Hpos.
  { destruct confs; [done|]. cbn [length]. rewrite Nat2Z.inj_succ.
    change 0 with (inject_Z 0). rewrite <- Zlt_Qlt. lia. }
  split.
  - apply Qle_shift_div_l; [done|]. lra.
  - apply Qle_shift_div_r; [done|]. lra.
Qed.

(** ** The assessment as a whole *)

Section Assessment.
Context (cfg : Config) (w : World).

(** Runs an analyzer call met during symbolic evaluation of the engine and
    records what its specification says about the outcome. *)
Ltac call_analyzer spec E :=
  let H := fresh "H" in
  pose proof spec as H; unfold wp in H;
  match type of H with
  | context [fst (?m ?s)] => destruct (m s) as [? ?] eqn:E
  end;
  cbn [fst snd] in H.

Lemma assess_body_spec e st :
  cache_ok st ->
  exists ra st',
    assess_comprehensive_risk_body cfg w (EventObject e) st = (Ok ra, st')
    /\ cache_ok st' /\ assembled cfg w e st ra.
Proof.
  intros Hok0.
  unfold assess_comprehensive_risk_body, bind at 1, lift at 1. cbn [getattr].
  unfold bind at 1.
  call_analyzer (_analyze_financial_impact_spec cfg w e st) E1.
  destruct H as [(fr1 & -> & Hu1) Hc1].
  assert (cache_ok e0) as Hok1 by (by eapply cache_ok_same). clear Hc1.
  cbv zeta. unfold bind at 1.
  call_analyzer (_detect_behavioral_anomalies_spec cfg w e e0 Hok1) E2.
  destruct H as [(fr2 & -> & Hu2) Hok2].
  unfold bind at 1.
  call_analyzer (_assess_reputation_risk_spec cfg w e e1 Hok2) E3.
  destruct H as [(fr3 & -> & Hu3) Hok3].
  unfold bind at 1, lift at 1. cbn [as_factor_result]. unfold bind at 1.
  call_analyzer (_analyze_historical_context_spec cfg w e e2 Hok3) E4.
  destruct H as [(fr4 & -> & Hu4) Hok4].
  assert (forall c fr,
            (c, fr) ∈ [(FINANCIAL_IMPACT, fr1); (BEHAVIORAL_ANOMALY, fr2);
                       (REPUTATION_RISK, fr3); (HISTORICAL_CONTEXT, fr4)] ->
            fst (analyzer cfg w c e (state_before cfg w e st c)) = Ok (FactorD fr)) as Hrun.
  { intros c fr Hin.
    repeat (apply elem_of_cons in Hin as [[= -> ->]|Hin]);
      [ .. | by apply elem_of_nil in Hin ];
      unfold state_before, analyzer, bind; cbn zeta;
      rewrite ?E1; cbn [fst snd ret]; rewrite ?E2; cbn [fst snd ret];
      rewrite ?E3; cbn [fst snd ret]; rewrite ?E4; reflexivity. }
  destruct (event_type e) eqn:Het.
  2: { (* an Approval event: the fifth analyzer runs *)
    unfold bind at 1. unfold bind at 1.
    call_analyzer (_analyze_approval_risk_spec e e3) E5.
    destruct H as [(fr5 & -> & Hu5) ->].
    unfold ret at 1. cbv beta iota zeta. unfold bind, ret, now. cbn [app].
    eexists _, _. split; [reflexivity|]. split; [done|].
    exists (FINANCIAL_IMPACT, fr1),
      [(BEHAVIORAL_ANOMALY, fr2); (REPUTATION_RISK, fr3); (HISTORICAL_CONTEXT, fr4);
       (APPROVAL_RISK, fr5)], [confidence fr1; confidence fr2; confidence fr3;
                               confidence fr4; confidence fr5], (clock w (tick e3)).
    cbv zeta. cbn [details overall_score assessment_confidence risk_category
                   recommendation assessment_factors].
    unfold invoked_categories. rewrite Het.
    split_and!; try reflexivity.
    - intros c fr Hin. apply elem_of_cons in Hin as [[= -> ->]|Hin].
      { apply Hrun. set_solver. }
      apply elem_of_cons in Hin as [[= -> ->]|Hin]; [apply Hrun; set_solver|].
      apply elem_of_cons in Hin as [[= -> ->]|Hin]; [apply Hrun; set_solver|].
      apply elem_of_cons in Hin as [[= -> ->]|Hin]; [apply Hrun; set_solver|].
      apply elem_of_cons in Hin as [[= -> ->]|Hin]; [|by apply elem_of_nil in Hin].
      unfold state_before, analyzer, bind; cbn zeta.
      rewrite E1; cbn [fst snd ret]; rewrite E2; cbn [fst snd ret];
        rewrite E3; cbn [fst snd ret]; rewrite E4; cbn [fst snd ret].
      rewrite E5. reflexivity.
    - repeat (constructor; [assumption|]). constructor.
    - intros tag. rewrite elem_of_remove_dups, !elem_of_app. split.
      + intros [[[[?|?]|?]|?]|?];
          [ exists (FINANCIAL_IMPACT, fr1) | exists (BEHAVIORAL_ANOMALY, fr2)
          | exists (REPUTATION_RISK, fr3) | exists (HISTORICAL_CONTEXT, fr4)
          | exists (APPROVAL_RISK, fr5) ];
          (split; [set_solver|done]).
      + intros (item & Hin & Htag).
        repeat (apply elem_of_cons in Hin as [->|Hin]);
          [ .. | by apply elem_of_nil in Hin ]; cbn [snd] in Htag; tauto. }
  all: unfold ret at 1; cbv beta iota zeta; unfold bind, ret, now; cbn [app];
    eexists _, _; (split; [reflexivity|]); (split; [done|]);
    exists (FINANCIAL_IMPACT, fr1),
      [(BEHAVIORAL_ANOMALY, fr2); (REPUTATION_RISK, fr3); (HISTORICAL_CONTEXT, fr4)],
      [confidence fr1; confidence fr2; confidence fr3; confidence fr4],
      (clock w (tick e3));
    cbv zeta; cbn [details overall_score assessment_confidence risk_category
                   recommendation assessment_factors];
    unfold invoked_categories; rewrite Het;
    split_and!; try reflexivity;
    [ done
    | repeat (constructor; [assumption|]); constructor
    | intros tag; rewrite elem_of_remove_dups, !elem_of_app; split;
      [ intros [[[?|?]|?]|?];
        [ exists (FINANCIAL_IMPACT, fr1) | exists (BEHAVIORAL_ANOMALY, fr2)
        | exists (REPUTATION_RISK, fr3) | exists (HISTORICAL_CONTEXT, fr4) ];
        (split; [set_solver|done])
      | intros (item & Hin & Htag);
        repeat (apply elem_of_cons in Hin as [->|Hin]);
        [ .. | by apply elem_of_nil in Hin ]; cbn [snd] in Htag; tauto ] ].
Qed.
End Assessment.

Section Claims.
Context (cfg : Config) (w : World).

Lemma assess_object e st :
  cache_ok st ->
  cache_ok (snd (assess_comprehensive_risk cfg w (EventObject e) st))
  /\ assembled cfg w e st (fst (assess_comprehensive_risk cfg w (EventObject e) st)).
Proof.
  intros Hok. destruct (assess_body_spec cfg w e st Hok) as (ra & st' & E & Hok' & Ha).
  unfold assess_comprehensive_risk. rewrite E. done.
Qed.

Lemma assess_dict st :
  assess_comprehensive_risk cfg w EventDict st
  = (assessment_error
       (AttributeError "'dict' object has no attribute 'transaction_hash'"), st).
Proof. reflexivity. Qed.

Lemma assess_preserves_cache_ok arg st :
  cache_ok st -> cache_ok (snd (assess_comprehensive_risk cfg w arg st)).
Proof.
  intros Hok. destruct arg as [e|].
  - by apply assess_object.
  - by rewrite assess_dict.
Qed.

(** Every state an engine instance goes through, starting fresh, has a
    well-formed reputation cache. *)
Lemma cache_ok_engine_after args st :
  cache_ok st -> cache_ok (engine_after cfg w args st).
Proof.
  revert st. induction args as [|arg args IH]; intros st Hok; cbn; [done|].
  apply IH. by apply assess_preserves_cache_ok.
Qed.

Lemma assembled_in_range e st ra :
  (forall c, 0 <= RISK_WEIGHTS cfg c) ->
  assembled cfg w e st ra -> in_range ra.
Proof.
  intros Hw (first & rest & confs & t & _ & _ & _ & Hu & Hconfs & Hs & Hc & _).
  cbv zeta in *. split.
  - rewrite Hs. by apply weighted_score_unit.
  - rewrite Hc. apply mean_unit.
    + subst confs. done.
    + subst confs. apply Forall_map. eapply Forall_impl; [exact Hu|].
      intros item [_ H]. exact H.
Qed.

Lemma assess_in_range arg st :
  (forall c, 0 <= RISK_WEIGHTS cfg c) ->
  cache_ok st ->
  cache_ok (snd (assess_comprehensive_risk cfg w arg st))
  /\ in_range (fst (assess_comprehensive_risk cfg w arg st)).
Proof.
  intros Hw Hok. destruct arg as [e|].
  - destruct (assess_object e st Hok) as [Hok' Ha]. split; [done|].
    by eapply assembled_in_range.
  - rewrite assess_dict. split; [done|]. unfold in_range; cbn. lra.
Qed.

Lemma assess_all_in_range args st :
  (forall c, 0 <= RISK_WEIGHTS cfg c) ->
  cache_ok st ->
  Forall in_range (assess_all cfg w args st).
Proof.
  intros Hw. revert st. induction args as [|arg args IH]; intros st Hok; cbn.
  - constructor.
  - destruct (assess_in_range arg st Hw Hok) as [Hok' Hr].
    destruct (assess_comprehensive_risk cfg w arg st) as [ra st'].
    constructor; [done|]. by apply IH.
Qed.
End Claims.

(** C4.  Whatever the world answers and whichever analyzers fail, every
    assessment an engine instance hands out, from its creation on and for any
    sequence of arguments, has its overall score and its confidence between 0
    and 1 (the weights being non-negative, as the configured ones are). *)
Theorem C4_scores_in_range (cfg : Config) (w : World) (args : list event_arg) :
  (forall c, 0 <= RISK_WEIGHTS cfg c) ->
  Forall in_range (assess_all cfg w args new_engine).
Proof. intros Hw. apply assess_all_in_range; [done|apply cache_ok_new]. Qed.

Lemma C4_scores_in_range_witness :
  Forall in_range
    (assess_all default_config (one_call_world 1700000000)
       [ EventObject (sample_event TRANSFER
                        {| amount := Some 5%Z; from_address := Some "0xbad";
                           approval_amount := None |});
         EventDict ]
       new_engine).
Proof.
  apply (C4_scores_in_range default_config (one_call_world 1700000000)).
  intros c; destruct c; vm_compute; discriminate.
Defined.

(** ** The weighted mean over the invoked categories (C1) *)




(** ** The primary category (C7) *)

(** [max_by_score] returns the first entry no other entry beats. *)
Lemma max_by_score_first best rest :
  exists before after,
    best :: rest = before ++ max_by_score best rest :: after
    /\ (forall item, item ∈ before -> score (snd item) < score (snd (max_by_score best rest)))
    /\ (forall item, item ∈ after -> score (snd item) <= score (snd (max_by_score best rest))).
Proof.
  enough (forall rest before best after0,
            (forall item, item ∈ before -> score (snd item) < score (snd best)) ->
            (forall item, item ∈ after0 -> score (snd item) <= score (snd best)) ->
            exists before' after,
              before ++ best :: after0 ++ rest
              = before' ++ max_by_score best rest :: after
              /\ (forall item, item ∈ before' ->
                    score (snd item) < score (snd (max_by_score best rest)))
              /\ (forall item, item ∈ after ->
                    score (snd item) <= score (snd (max_by_score best rest)))) as H.
  { destruct (H rest [] best []) as (b & a & E & ? & ?).
    - intros ? Hin. by apply elem_of_nil in Hin.
    - intros ? Hin. by apply elem_of_nil in Hin.
    - exists b, a. done. }
  clear. induction rest as [|x rest IH]; intros before best after0 Hb Ha.
  - exists before, after0. cbn. rewrite app_nil_r. done.
  - cbn [max_by_score]. destruct (Qgtb (score (snd x)) (score (snd best))) eqn:E.
    + unfold Qgtb in E. apply Qltb_lt in E.
      destruct (IH (before ++ best :: after0) x []) as (b & a & Heq & ? & ?).
      * intros item Hin. apply elem_of_app in Hin as [Hin|Hin].
        { specialize (Hb item Hin). lra. }
        apply elem_of_cons in Hin as [->|Hin]; [done|].
        specialize (Ha item Hin). lra.
      * intros ? Hin. by apply elem_of_nil in Hin.
      * exists b, a. split; [|done]. rewrite <- Heq. cbn.
        by rewrite <- !app_assoc.
    + unfold Qgtb in E. apply Qltb_ge in E.
      destruct (IH before best (after0 ++ [x])) as (b & a & Heq & ? & ?).
      * done.
      * intros item Hin. apply elem_of_app in Hin as [Hin|Hin]; [by apply Ha|].
        apply list_elem_of_singleton in Hin as ->. done.
      * exists b, a. split; [|done]. rewrite <- Heq. by rewrite <- !app_assoc.
Qed.

Lemma invoked_sorted e :
  StronglySorted (fun c1 c2 => (invocation_rank c1 <= invocation_rank c2)%nat)
                 (invoked_categories e).
Proof.
  unfold invoked_categories.
  destruct (event_type e); cbn; repeat constructor; cbn; lia.
Qed.

Lemma sorted_after {A} (R : A -> A -> Prop) l1 a l2 :
  StronglySorted R (l1 ++ a :: l2) -> forall x, x ∈ l2 -> R a x.
Proof.
  induction l1 as [|y l1 IH]; cbn; intros Hs x Hx.
  - apply StronglySorted_inv in Hs as [_ Hall].
    rewrite Forall_forall in Hall. by apply Hall.
  - apply StronglySorted_inv in Hs as [Hs _]. by apply IH.
Qed.

(** C7 (as the code has it).  The reported primary category is an invoked
    category with the highest score; among categories sharing that score the
    one invoked first wins: financial, behavioral, reputation, historical,
    approval. *)
Theorem C7_primary_category (cfg : Config) (w : World) (e : ProcessedEvent) (st : engine) :
  cache_ok st ->
  primary_is_highest invocation_rank
    (fst (assess_comprehensive_risk cfg w (EventObject e) st)).
Proof.
  intros Hok.
  destruct (assess_object cfg w e st Hok) as [_ Ha].
  destruct Ha as (first & rest & confs & t & Hd & Hcats & _ & _ & _ & _ & _ & Hp & _).
  cbv zeta in *.
  destruct (max_by_score_first first rest) as (before & after & Heq & Hb & Hafter).
  set (p := max_by_score first rest) in *.
  exists (first :: rest), confs, t, (snd p).
  rewrite Hp. split_and!.
  - done.
  - rewrite Heq. destruct p. apply elem_of_app. right. apply list_elem_of_here.
  - intros item Hin. rewrite Heq in Hin.
    apply elem_of_app in Hin as [Hin|Hin]; [specialize (Hb _ Hin); lra|].
    apply elem_of_cons in Hin as [->|Hin]; [lra|by apply Hafter].
  - intros item Hin Hscore. rewrite Heq in Hin.
    apply elem_of_app in Hin as [Hin|Hin]; [specialize (Hb _ Hin); lra|].
    apply elem_of_cons in Hin as [->|Hin]; [lia|].
    pose proof (invoked_sorted e) as Hsorted.
    rewrite <- Hcats, Heq, map_app in Hsorted. cbn [map] in Hsorted.
    eapply (sorted_after _ _ _ _ Hsorted). by apply list_elem_of_fmap_2.
Qed.

Lemma C7_primary_category_witness :
  primary_is_highest invocation_rank
    (fst (assess_comprehensive_risk default_config (offline_world 1700000000)
            (EventObject (sample_event TRANSFER
               {| amount := Some 0%Z; from_address := None; approval_amount := None |}))
            new_engine)).
Proof. apply C7_primary_category. apply cache_ok_new. Defined.

(** C7 as claimed fails: with no sender address the behavioral and the
    reputation analyzers both return the highest score, 0.3, and the engine
    reports BEHAVIORAL_ANOMALY, which the specified priority order ranks
    below REPUTATION_RISK. *)
Lemma C7_counterexample :
  ~ primary_is_highest specified_rank
      (fst (assess_comprehensive_risk default_config (offline_world 1700000000)
              (EventObject (sample_event TRANSFER
                 {| amount := Some 0%Z; from_address := None; approval_amount := None |}))
              new_engine)).
Proof.
  intros (comps & confs & t & fr & Hd & Hin & Hmax & Hrank).
  vm_compute in Hd. injection Hd as <- _ _.
  assert (fr = {| score := 3#10; confidence := 3#10; factors := ["NO_FROM_ADDRESS"] |})
    as ->.
  { vm_compute in Hin.
    repeat (apply elem_of_cons in Hin as [[=]|Hin]; try done).
    by apply elem_of_nil in Hin. }
  specialize (Hrank (REPUTATION_RISK,
                     {| score := 3#10; confidence := 3#10;
                        factors := ["NO_FROM_ADDRESS"] |})).
  vm_compute in Hrank.
  assert (2 <= 1)%nat as Habs; [|lia].
  apply Hrank; [|reflexivity].
  do 2 apply list_elem_of_further. apply list_elem_of_here.
Qed.

(** ** Failing analyzers (C8) and the outer handler (C10) *)

Lemma analyzer_of_body cfg w c e st x st1 :
  analyzer_body cfg w c e st = (Raise x, st1) ->
  analyzer cfg w c e st = (Ok (FactorD (analysis_error x)), st1).
Proof.
  destruct c; unfold analyzer_body, analyzer, _analyze_financial_impact,
    _detect_behavioral_anomalies, _assess_reputation_risk, _analyze_historical_context,
    _analyze_approval_risk, bind, try_except, ret;
    match goal with |- context [match ?m st with _ => _ end] => destruct (m st) as [[?|?] ?] end;
    intros [= -> ->]; reflexivity.
Qed.

(** C8 (as the code has it).  When the body of an invoked analyzer raises,
    the exception is caught by that analyzer: its category enters the
    assessment with score 0.3 and confidence 0.3, its only factor tag is
    ["Analysis error: "] followed by the exception's message, that tag is among
    the assessment's factors, and the assessment completes normally. *)
Theorem C8_analyzer_failure (cfg : Config) (w : World) (e : ProcessedEvent) (st : engine)
    (c : RiskCategory) (x : exn) (st1 : engine) :
  cache_ok st ->
  c ∈ invoked_categories e ->
  analyzer_body cfg w c e (state_before cfg w e st c) = (Raise x, st1) ->
  exists comps confs t fr,
    let ra := fst (assess_comprehensive_risk cfg w (EventObject e) st) in
    details ra = Details comps confs t
    /\ (c, fr) ∈ comps
    /\ score fr = 3#10
    /\ confidence fr = 3#10
    /\ factors fr = ["Analysis error: " +:+ exn_str x]
    /\ ("Analysis error: " +:+ exn_str x) ∈ assessment_factors ra.
Proof.
  intros Hok Hc Hraise.
  destruct (assess_object cfg w e st Hok) as [_ Ha].
  destruct Ha as (first & rest & confs & t & Hd & Hcats & Hrun & _ & _ & _ & _ & _ & _ & Htags).
  cbv zeta in *.
  rewrite <- Hcats in Hc. apply list_elem_of_fmap in Hc as ([c' fr] & -> & Hin).
  cbn [fst] in *.
  pose proof (Hrun _ _ Hin) as Hfr.
  rewrite (analyzer_of_body _ _ _ _ _ _ _ Hraise) in Hfr. injection Hfr as <-.
  exists (first :: rest), confs, t, (analysis_error x).
  split_and!; try done.
  apply Htags. eexists. split; [exact Hin|]. cbn. apply list_elem_of_here.
Qed.

Lemma C8_analyzer_failure_witness :
  exists comps confs t fr,
    let e := sample_event TRANSFER
               {| amount := Some 5%Z; from_address := Some "0xbad";
                  approval_amount := None |} in
    let ra := fst (assess_comprehensive_risk default_config (one_call_world 1700000000)
                     (EventObject e) new_engine) in
    details ra = Details comps confs t
    /\ (BEHAVIORAL_ANOMALY, fr) ∈ comps
    /\ score fr = 3#10
    /\ confidence fr = 3#10
    /\ factors fr = ["Analysis error: " +:+ exn_str (UnboundLocalError "value_ratio")]
    /\ ("Analysis error: " +:+ exn_str (UnboundLocalError "value_ratio"))
       ∈ assessment_factors ra.
Proof.
  eapply (C8_analyzer_failure default_config (one_call_world 1700000000)).
  - apply cache_ok_new.
  - vm_compute. apply list_elem_of_further, list_elem_of_here.
  - vm_compute. reflexivity.
Defined.

(** C8 as claimed fails on the tag: for a sender whose only earlier
    transaction carried no value, the behavioral analyzer raises
    (its [value_ratio] is unbound), and no factor of the resulting assessment
    has the form ["<category>_analysis_error"]. *)
Lemma C8_counterexample :
  let e := sample_event TRANSFER
             {| amount := Some 5%Z; from_address := Some "0xbad";
                approval_amount := None |} in
  let w := one_call_world 1700000000 in
  fst (analyzer_body default_config w BEHAVIORAL_ANOMALY e
         (state_before default_config w e new_engine BEHAVIORAL_ANOMALY))
  = Raise (UnboundLocalError "value_ratio")
  /\ ~ error_tag_recorded
         (fst (assess_comprehensive_risk default_config w (EventObject e) new_engine)).
Proof.
  cbv zeta. split; [vm_compute; reflexivity|].
  intros (tag & Hin & Hend). vm_compute in Hin.
  repeat (apply elem_of_cons in Hin as [->|Hin]; [vm_compute in Hend; discriminate|]).
  by apply elem_of_nil in Hin.
Qed.

(** C10.  When an exception escapes the analyzers' own handlers, the engine
    returns the fixed assessment: score 0.5, confidence 0.1, category
    FINANCIAL_IMPACT, recommendation INVESTIGATE; the recommendation rule,
    applied to that score and confidence, would have said MONITOR whenever
    0.1 is below MIN_CONFIDENCE. *)
Theorem C10_outer_handler (cfg : Config) (w : World) (arg : event_arg) (st : engine)
    (x : exn) (st1 : engine) :
  assess_comprehensive_risk_body cfg w arg st = (Raise x, st1) ->
  1#10 < MIN_CONFIDENCE cfg ->
  let ra := fst (assess_comprehensive_risk cfg w arg st) in
  overall_score ra = 5#10
  /\ assessment_confidence ra = 1#10
  /\ risk_category ra = FINANCIAL_IMPACT
  /\ recommendation ra = "INVESTIGATE"
  /\ assessment_factors ra = ["Assessment error: " +:+ exn_str x]
  /\ _generate_recommendation cfg (overall_score ra) (assessment_confidence ra) = "MONITOR".
Proof.
  intros Hraise Hmin. unfold assess_comprehensive_risk. rewrite Hraise.
  cbn [fst assessment_error overall_score assessment_confidence risk_category
       recommendation assessment_factors].
  split_and!; try reflexivity.
  unfold _generate_recommendation.
  apply Qltb_lt in Hmin. by rewrite Hmin.
Qed.

Lemma C10_outer_handler_witness :
  let ra := fst (assess_comprehensive_risk default_config (offline_world 1700000000)
                   EventDict new_engine) in
  overall_score ra = 5#10
  /\ assessment_confidence ra = 1#10
  /\ risk_category ra = FINANCIAL_IMPACT
  /\ recommendation ra = "INVESTIGATE"
  /\ assessment_factors ra =
       ["Assessment error: " +:+
        exn_str (AttributeError "'dict' object has no attribute 'transaction_hash'")]
  /\ _generate_recommendation default_config (overall_score ra) (assessment_confidence ra)
     = "MONITOR".
Proof.
  apply (C10_outer_handler default_config (offline_world 1700000000) EventDict new_engine
           (AttributeError "'dict' object has no attribute 'transaction_hash'") new_engine).
  - reflexivity.
  - reflexivity.
Defined.

(** ** The approval analyzer (C5) *)

(** C5.  For an event that carries an approval amount [a]: the analyzer
    returns score 0.9 with tag UNLIMITED_APPROVAL when [a] is 2^256-1 or
    exceeds 10^30; otherwise score 0.7 with LARGE_APPROVAL when [a] exceeds
    10^24; otherwise score 0.3 with NORMAL_APPROVAL; the confidence is 0.8
    in each case, and the engine state is left as it was. *)
Theorem C5_approval_risk (e : ProcessedEvent) (st : engine) (a : Z) :
  approval_amount (parsed_data e) = Some a ->
  exists fr,
    _analyze_approval_risk e st = (Ok fr, st)
    /\ confidence fr = 8#10
    /\ ((a = 2 ^ 256 - 1 \/ 10 ^ 30 < a)%Z ->
        score fr = 9#10 /\ factors fr = ["UNLIMITED_APPROVAL"])
    /\ (~ (a = 2 ^ 256 - 1 \/ 10 ^ 30 < a)%Z -> (10 ^ 24 < a)%Z ->
        score fr = 7#10 /\ factors fr = ["LARGE_APPROVAL"])
    /\ (~ (a = 2 ^ 256 - 1 \/ 10 ^ 30 < a)%Z -> ~ (10 ^ 24 < a)%Z ->
        score fr = 3#10 /\ factors fr = ["NORMAL_APPROVAL"]).
Proof.
  intros Ha.
  assert (_is_unlimited_approval a = true <-> (a = 2 ^ 256 - 1 \/ 10 ^ 30 < a)%Z) as Hu.
  { unfold _is_unlimited_approval. cbv zeta.
    rewrite orb_true_iff, bool_decide_eq_true, Z.ltb_lt, !elem_of_cons, elem_of_nil.
    change (2 ^ 256 - 1)%Z with
      115792089237316195423570985008687907853269984665640564039457584007913129639935%Z.
    tauto. }
  unfold _analyze_approval_risk, _analyze_approval_risk_body, try_except, ret.
  rewrite Ha.
  destruct (_is_unlimited_approval a) eqn:E.
  - eexists. split; [reflexivity|]. cbn [score confidence factors].
    pose proof (proj1 Hu eq_refl). split_and!; [done|done|tauto..].
  - assert (~ (a = 2 ^ 256 - 1 \/ 10 ^ 30 < a)%Z) as Hn.
    { intros H. apply Hu in H. discriminate. }
    destruct (10 ^ 24 <? a)%Z eqn:E24.
    + apply Z.ltb_lt in E24.
      eexists. split; [reflexivity|]. cbn [score confidence factors].
      split_and!; [done|tauto|done|tauto].
    + apply Z.ltb_ge in E24.
      eexists. split; [reflexivity|]. cbn [score confidence factors].
      split_and!; [done|tauto|intros; lia|done].
Qed.

Lemma C5_approval_risk_witness :
  exists fr,
    let e := sample_event APPROVAL
               {| amount := None; from_address := None;
                  approval_amount := Some (2 ^ 256 - 1)%Z |} in
    let a := (2 ^ 256 - 1)%Z in
    _analyze_approval_risk e new_engine = (Ok fr, new_engine)
    /\ confidence fr = 8#10
    /\ ((a = 2 ^ 256 - 1 \/ 10 ^ 30 < a)%Z ->
        score fr = 9#10 /\ factors fr = ["UNLIMITED_APPROVAL"])
    /\ (~ (a = 2 ^ 256 - 1 \/ 10 ^ 30 < a)%Z -> (10 ^ 24 < a)%Z ->
        score fr = 7#10 /\ factors fr = ["LARGE_APPROVAL"])
    /\ (~ (a = 2 ^ 256 - 1 \/ 10 ^ 30 < a)%Z -> ~ (10 ^ 24 < a)%Z ->
        score fr = 3#10 /\ factors fr = ["NORMAL_APPROVAL"]).
Proof.
  apply (C5_approval_risk
           (sample_event APPROVAL
              {| amount := None; from_address := None;
                 approval_amount := Some (2 ^ 256 - 1)%Z |})
           new_engine (2 ^ 256 - 1)%Z).
  reflexivity.
Defined.

(** ** Cache expiry (C9) *)

Lemma length_append (a b : string) :
  String.length (a +:+ b) = (String.length a + String.length b)%nat.
Proof. induction a as [|c a IH]; [reflexivity|exact (f_equal S IH)]. Qed.

Lemma append_ne_l (p a : string) : p <> EmptyString -> p +:+ a <> a.
Proof.
  intros Hp Heq. apply (f_equal String.length) in Heq.
  rewrite length_append in Heq. destruct p; [done|]. cbn in Heq. lia.
Qed.

Lemma append_ne_r (a s : string) : s <> EmptyString -> a +:+ s <> a.
Proof.
  intros Hs Heq. apply (f_equal String.length) in Heq.
  rewrite length_append in Heq. destruct s; [done|]. cbn in Heq. lia.
Qed.

(** Case analysis on an innermost scrutinee of the goal. *)
Ltac case_innermost :=
  match goal with
  | |- context [match ?x with _ => _ end] =>
      lazymatch x with
      | context [match _ with _ => _ end] => fail
      | _ => destruct x eqn:?
      end
  end;
  cbv beta iota; cbn [fst snd tick _price_cache _reputation_cache].

Section Expiry.
Context (cfg : Config) (w : World).

Lemma stale_not_fresh st cached_at :
  stale cfg w st cached_at -> fresh cfg (clock w (tick st)) cached_at = false.
Proof. unfold stale, fresh. intros H. by apply Qltb_ge. Qed.

(** What [_get_token_price] returns depends on the state only through the
    tick and the cache entry under the token's own key. *)
Lemma _get_token_price_frame a st st' :
  tick st = tick st' ->
  _price_cache st !! a = _price_cache st' !! a ->
  fst (_get_token_price cfg w a st) = fst (_get_token_price cfg w a st')
  /\ tick (snd (_get_token_price cfg w a st)) = tick (snd (_get_token_price cfg w a st')).
Proof.
  destruct st as [pc rc t], st' as [pc' rc' t']. cbn [tick _price_cache].
  intros <- Hl.
  unfold _get_token_price, try_except, bind, get_state, now, http_get, lift, ret,
    raise, modify, next_tick. cbn [tick _price_cache fst snd].
  rewrite <- Hl. cbv beta iota. cbn [fst snd tick _price_cache _reputation_cache].
  repeat case_innermost; done.
Qed.

Lemma _check_address_reputation_frame a st st' :
  tick st = tick st' ->
  _reputation_cache st !! ("reputation_" +:+ a)
  = _reputation_cache st' !! ("reputation_" +:+ a) ->
  fst (_check_address_reputation cfg w a st) = fst (_check_address_reputation cfg w a st').
Proof.
  destruct st as [pc rc t], st' as [pc' rc' t']. cbn [tick _reputation_cache].
  intros <- Hl.
  unfold _check_address_reputation, try_except, bind, get_state, now, http_get, lift,
    ret, raise, modify, next_tick. cbn [tick _reputation_cache fst snd].
  rewrite <- Hl. cbv beta iota. cbn [fst snd tick _price_cache _reputation_cache].
  repeat case_innermost; done.
Qed.

Ltac expose :=
  unfold try_except, bind, get_state, now, http_get, lift, ret, raise, modify,
    miss_price, miss_reputation, next_tick, set_price_cache, set_reputation_cache;
  cbv beta iota; cbn [fst snd tick _price_cache _reputation_cache].

Lemma _get_token_price_stale a st entry :
  _price_cache st !! a = Some entry ->
  stale cfg w st (price_timestamp entry) ->
  fst (_get_token_price cfg w a st) = fst (_get_token_price cfg w a (miss_price a st)).
Proof.
  intros Hl Hs. apply stale_not_fresh in Hs. destruct st as [pc rc t].
  cbn [tick _price_cache] in *.
  unfold _get_token_price. expose.
  rewrite Hl, lookup_delete_eq. expose. rewrite Hs. expose.
  repeat case_innermost; done.
Qed.

Lemma _calculate_usd_value_stale amt a st entry :
  _price_cache st !! (a +:+ "_" +:+ pretty amt) = Some entry ->
  stale cfg w st (price_timestamp entry) ->
  fst (_calculate_usd_value cfg w amt a st)
  = fst (_calculate_usd_value cfg w amt a (miss_price (a +:+ "_" +:+ pretty amt) st)).
Proof.
  intros Hl Hs. apply stale_not_fresh in Hs. destruct st as [pc rc t].
  cbn [tick _price_cache] in *.
  unfold _calculate_usd_value. expose.
  rewrite Hl, lookup_delete_eq. expose. rewrite Hs. expose.
  match goal with
  | |- context [_get_token_price cfg w a ?s1] =>
      match goal with
      | |- context [_get_token_price cfg w a ?s2] =>
          assert_fails (constr_eq s1 s2);
          destruct (_get_token_price_frame a s1 s2) as [Hr Ht];
          [ reflexivity
          | cbn [_price_cache]; rewrite lookup_delete_ne;
            [reflexivity | by apply append_ne_r]
          | destruct (_get_token_price cfg w a s1) as [r1 [pc1 rc1 t1]],
                     (_get_token_price cfg w a s2) as [r2 [pc2 rc2 t2]] ]
      end
  end.
  cbn [fst snd tick] in Hr, Ht. subst r2 t2.
  repeat case_innermost; done.
Qed.

Lemma _check_address_reputation_stale a st entry :
  _reputation_cache st !! ("reputation_" +:+ a) = Some entry ->
  stale cfg w st (rep_timestamp entry) ->
  fst (_check_address_reputation cfg w a st)
  = fst (_check_address_reputation cfg w a (miss_reputation ("reputation_" +:+ a) st)).
Proof.
  intros Hl Hs. apply stale_not_fresh in Hs. destruct st as [pc rc t].
  cbn [tick _reputation_cache] in *.
  unfold _check_address_reputation. expose.
  rewrite Hl, lookup_delete_eq. expose. rewrite Hs. expose.
  repeat case_innermost; done.
Qed.

Lemma _get_historical_behavior_stale a st entry :
  _reputation_cache st !! ("historical_" +:+ a) = Some entry ->
  stale cfg w st (rep_timestamp entry) ->
  fst (_get_historical_behavior cfg w a st)
  = fst (_get_historical_behavior cfg w a (miss_reputation ("historical_" +:+ a) st)).
Proof.
  intros Hl Hs. apply stale_not_fresh in Hs. destruct st as [pc rc t].
  cbn [tick _reputation_cache] in *.
  unfold _get_historical_behavior. expose.
  rewrite Hl, lookup_delete_eq. expose. rewrite Hs. expose.
  repeat case_innermost; done.
Qed.

Lemma _assess_reputation_risk_stale e a st entry :
  from_address (parsed_data e) = Some a ->
  _reputation_cache st !! a = Some entry ->
  stale cfg w st (rep_timestamp entry) ->
  fst (_assess_reputation_risk cfg w e st)
  = fst (_assess_reputation_risk cfg w e (miss_reputation a st)).
Proof.
  intros Ha Hl Hs. apply stale_not_fresh in Hs. destruct st as [pc rc t].
  cbn [tick _reputation_cache] in *.
  unfold _assess_reputation_risk, _assess_reputation_risk_body. rewrite Ha.
  change (default EmptyString (Some a)) with a. cbv zeta. expose.
  case_bool_decide as Hempty; [done|].
  expose. rewrite Hl, lookup_delete_eq. expose. rewrite Hs. expose.
  match goal with
  | |- context [_check_address_reputation cfg w a ?s1] =>
      match goal with
      | |- context [_check_address_reputation cfg w a ?s2] =>
          assert_fails (constr_eq s1 s2);
          pose proof (_check_address_reputation_frame a s1 s2) as Hr;
          destruct (_check_address_reputation cfg w a s1) as [r1 [pc1 rc1 t1]],
                   (_check_address_reputation cfg w a s2) as [r2 [pc2 rc2 t2]]
      end
  end.
  cbn [fst snd tick _reputation_cache] in Hr. rewrite <- Hr.
  - repeat case_innermost; done.
  - reflexivity.
  - rewrite lookup_delete_ne; [reflexivity|].
    intros Heq. symmetry in Heq. revert Heq. by apply append_ne_l.
Qed.
End Expiry.

(** C9.  Each cached lookup (token price, USD value, address reputation,
    reputation risk of a sender, historical behaviour) treats an entry whose
    age has reached the TTL as a miss: what it returns is what it returns,
    right after the clock read, from a cache in which the key is absent, so
    the value comes from the external source (or its fallback) and not from
    the entry. *)
Theorem C9_stale_entry_is_a_miss (cfg : Config) (w : World) (st : engine) :
  (forall a entry,
      _price_cache st !! a = Some entry ->
      stale cfg w st (price_timestamp entry) ->
      fst (_get_token_price cfg w a st)
      = fst (_get_token_price cfg w a (miss_price a st)))
  /\ (forall amt a entry,
      _price_cache st !! (a +:+ "_" +:+ pretty amt) = Some entry ->
      stale cfg w st (price_timestamp entry) ->
      fst (_calculate_usd_value cfg w amt a st)
      = fst (_calculate_usd_value cfg w amt a (miss_price (a +:+ "_" +:+ pretty amt) st)))
  /\ (forall a entry,
      _reputation_cache st !! ("reputation_" +:+ a) = Some entry ->
      stale cfg w st (rep_timestamp entry) ->
      fst (_check_address_reputation cfg w a st)
      = fst (_check_address_reputation cfg w a
               (miss_reputation ("reputation_" +:+ a) st)))
  /\ (forall e a entry,
      from_address (parsed_data e) = Some a ->
      _reputation_cache st !! a = Some entry ->
      stale cfg w st (rep_timestamp entry) ->
      fst (_assess_reputation_risk cfg w e st)
      = fst (_assess_reputation_risk cfg w e (miss_reputation a st)))
  /\ (forall a entry,
      _reputation_cache st !! ("historical_" +:+ a) = Some entry ->
      stale cfg w st (rep_timestamp entry) ->
      fst (_get_historical_behavior cfg w a st)
      = fst (_get_historical_behavior cfg w a
               (miss_reputation ("historical_" +:+ a) st))).
Proof.
  split_and!; intros.
  - by eapply _get_token_price_stale.
  - by eapply _calculate_usd_value_stale.
  - by eapply _check_address_reputation_stale.
  - by eapply _assess_reputation_risk_stale.
  - by eapply _get_historical_behavior_stale.
Qed.

Lemma C9_stale_entry_is_a_miss_witness :
  fst (_get_token_price default_config (offline_world 1700000000) "0xa0b8"
         (engine_with_price "0xa0b8" (PFloat 2)))
  = fst (_get_token_price default_config (offline_world 1700000000) "0xa0b8"
           (miss_price "0xa0b8" (engine_with_price "0xa0b8" (PFloat 2)))).
Proof.
  apply (proj1 (C9_stale_entry_is_a_miss default_config (offline_world 1700000000)
                  (engine_with_price "0xa0b8" (PFloat 2)))
           "0xa0b8" {| price_payload_of := Price (PFloat 2); price_timestamp := 0 |}).
  - reflexivity.
  - vm_compute. discriminate.
Defined.

(** ** The zero-address bonus of the red agent's analyzer (C6) *)



(** The enhanced engine's financial analyzer, for its part, looks at the amount
    and the contract address only: no endpoint address changes its result. *)
Lemma financial_impact_ignores_endpoints cfg w e e' st :
  amount (parsed_data e) = amount (parsed_data e') ->
  contract_address e = contract_address e' ->
  _analyze_financial_impact cfg w e st = _analyze_financial_impact cfg w e' st.
Proof.
  intros Ha Hc. unfold _analyze_financial_impact, _analyze_financial_impact_body.
  cbv zeta. by rewrite Ha, Hc.
Qed.


(** ** The coordinator when the risk stage fails (C2) *)

Section Coordinator.
Context (globals : list string) (env : Orchestrator.Env).

Lemma incr_communication_stat_ok key st :
  is_Some (Orchestrator.communication_stats st !! key) ->
  exists st', Orchestrator.incr_communication_stat key st = (Ok tt, st').
Proof.
  intros [n Hn]. unfold Orchestrator.incr_communication_stat, bind, get_state, modify.
  rewrite Hn. eauto.
Qed.

(** Every failure of the delegation makes [delegate_to_risk_assessor] return
    [None]. *)
Lemma delegate_to_risk_assessor_none st ear request_id :
  stats_present st ->
  risk_delegation_fails env st ear request_id ->
  exists st',
    Orchestrator.delegate_to_risk_assessor globals env ear request_id st = (Ok None, st').
Proof.
  intros [Ht He] Hfail.
  destruct (incr_communication_stat_ok "timeouts" st Ht) as [st_t Et].
  destruct (incr_communication_stat_ok "errors_handled" st He) as [st_e Ee].
  unfold risk_delegation_fails in Hfail.
  unfold Orchestrator.delegate_to_risk_assessor, Orchestrator.global, risk_request_of in *.
  unfold try_except, bind, get_state, ret, raise, lift. cbv beta iota.
  case_bool_decide as Hhealth; cbn [negb]; [|eauto].
  case_bool_decide as Hname; [|rewrite Ee; eauto].
  destruct Hfail as [Hu|[Hnone|[Hempty|(addr & Haddr & Hsend)]]].
  - done.
  - rewrite Hnone. eauto.
  - rewrite Hempty. eauto.
  - rewrite Haddr. destruct addr as [|c a]; [eauto|].
    case_bool_decide as Hname2; [|rewrite Ee; eauto].
    destruct Hsend as [[x Hx]|[(m & s & Hm & Hs)|(m & s & Hm & Hother)]].
    + rewrite Hx, Ee. eauto.
    + rewrite Hm. destruct m; [|rewrite bool_decide_eq_false_2 by done|];
        rewrite Et; eauto.
    + rewrite Hm. destruct m as [| r |]; [|by destruct (Hother r)|];
        rewrite Et; eauto.
Qed.
End Coordinator.

(** C2 (as the code has it).  Once the event-analysis stage has delivered,
    every failure of the risk-assessment delegation (worker not healthy,
    unknown address, exception, timeout or any non-success status, remote
    error) makes the endpoint answer with the error response
    "Risk assessment failed": zero events received, processing not started,
    no synthesis; nothing is assessed locally. *)
Theorem C2_risk_stage_failure_is_an_error (globals : list string) (env : Orchestrator.Env)
    (request : Orchestrator.EventAnalysisRequest)
    (st st0 st1 : Orchestrator.AgentState) (ear : Orchestrator.EventAnalysisResult) :
  Orchestrator.incr_communication_stat "requests_received" st = (Ok tt, st0) ->
  Orchestrator.delegate_to_event_analyzer globals env request (request_id_of env request) st0
  = (Ok (Some ear), st1) ->
  stats_present st1 ->
  risk_delegation_fails env st1 ear (request_id_of env request) ->
  exists st2,
    Orchestrator.analyze_events_endpoint globals env request st
    = (Ok (Orchestrator.create_error_response (request_id_of env request)
             "Risk assessment failed"), st2)
    /\ ~ synthesized (Orchestrator.create_error_response (request_id_of env request)
                        "Risk assessment failed").
Proof.
  intros H0 H1 Hstats Hfail.
  destruct (delegate_to_risk_assessor_none globals env st1 ear
              (request_id_of env request) Hstats Hfail) as [st2 H2].
  exists st2. split; [|discriminate].
  unfold Orchestrator.analyze_events_endpoint, bind at 1. rewrite H0.
  fold (request_id_of env request). cbv zeta.
  unfold try_except, bind at 1. rewrite H1.
  unfold bind at 1. rewrite H2. reflexivity.
Qed.

Lemma C2_risk_stage_failure_is_an_error_witness :
  exists st2,
    Orchestrator.analyze_events_endpoint Orchestrator.module_globals sample_env
      sample_request risk_assessor_unhealthy
    = (Ok (Orchestrator.create_error_response (request_id_of sample_env sample_request)
             "Risk assessment failed"), st2)
    /\ ~ synthesized (Orchestrator.create_error_response
                        (request_id_of sample_env sample_request)
                        "Risk assessment failed").
Proof.
  eapply (C2_risk_stage_failure_is_an_error Orchestrator.module_globals sample_env
            sample_request risk_assessor_unhealthy).
  - reflexivity.
  - vm_compute. reflexivity.
  - split; vm_compute; eauto.
  - left. vm_compute. discriminate.
Defined.

(** C2 as claimed fails: with the risk assessor recorded as unhealthy the
    batch does not reach synthesis; the endpoint returns the error response and
    no assessment at all. *)
Lemma C2_counterexample :
  let response :=
    fst (Orchestrator.analyze_events_endpoint Orchestrator.module_globals sample_env
           sample_request risk_assessor_unhealthy) in
  response = Ok (Orchestrator.create_error_response "req_20240101_000000_1"
                   "Risk assessment failed")
  /\ forall r, response = Ok r ->
       ~ synthesized r
       /\ Orchestrator.summary r = Orchestrator.ErrorSummary "Risk assessment failed".
Proof.
  cbv zeta. split; [vm_compute; reflexivity|].
  intros r Hr. vm_compute in Hr. injection Hr as <-. split; [discriminate|reflexivity].
Qed.
(** * Further properties of the code *)

(** ** [assess_comprehensive_risk] on a [ProcessedEvent] *)

(** X1.  On a [ProcessedEvent], whatever calls the engine instance served
    before and whatever the world answers, the [except] branch of
    [assess_comprehensive_risk] is never taken: the assessment carries the
    component details, and its recommendation is the one
    [_generate_recommendation] gives for its score and confidence. *)
Theorem X1_event_never_reaches_outer_handler (cfg : Config) (w : World)
    (args : list event_arg) (e : ProcessedEvent) :
  let ra := fst (assess_comprehensive_risk cfg w (EventObject e)
                   (engine_after cfg w args new_engine)) in
  (exists comps confs t, details ra = Details comps confs t)
  /\ (forall msg, details ra <> ErrorDetails msg)
  /\ recommendation ra
     = _generate_recommendation cfg (overall_score ra) (assessment_confidence ra).
Proof.
  cbv zeta.
  destruct (assess_object cfg w e (engine_after cfg w args new_engine)) as [_ Ha].
  { apply cache_ok_engine_after, cache_ok_new. }
  destruct Ha as (first & rest & confs & t & Hd & _ & _ & _ & _ & _ & _ & _ & Hrec & _).
  cbv zeta in *. split_and!.
  - by exists (first :: rest), confs, t.
  - intros msg. rewrite Hd. discriminate.
  - exact Hrec.
Qed.

(** X2.  The overall confidence is the plain arithmetic mean of the
    confidences of the analyzers that ran, four of them, or five for an
    Approval event: the configured weights play no part in it. *)
Theorem X2_confidence_is_unweighted_mean (cfg : Config) (w : World)
    (args : list event_arg) (e : ProcessedEvent) :
  let ra := fst (assess_comprehensive_risk cfg w (EventObject e)
                   (engine_after cfg w args new_engine)) in
  exists comps confs t,
    details ra = Details comps confs t
    /\ map fst comps = invoked_categories e
    /\ assessment_confidence ra
       = Qsum (map (fun item => confidence (snd item)) comps)
         / inject_Z (Z.of_nat (length (invoked_categories e))).
Proof.
  cbv zeta.
  destruct (assess_object cfg w e (engine_after cfg w args new_engine)) as [_ Ha].
  { apply cache_ok_engine_after, cache_ok_new. }
  destruct Ha as (first & rest & confs & t & Hd & Hcats & _ & _ & Hconfs & _ & Hc & _).
  cbv zeta in *. exists (first :: rest), confs, t. split_and!; [done..|].
  rewrite Hc, Hconfs, <- Hcats, !length_map. reflexivity.
Qed.
(** ** The price cache: what a call stores, the next call serves *)

Section PriceCache.
Context (cfg : Config) (w : World).

Ltac expose :=
  unfold try_except, bind, get_state, now, http_get, lift, ret, raise, modify,
    next_tick, set_price_cache, set_reputation_cache;
  cbv beta iota; cbn [fst snd tick _price_cache _reputation_cache].

(** [_get_token_price] writes under the token's own key only, and leaves
    the reputation cache alone. *)
Lemma _get_token_price_writes a st k :
  k <> a ->
  _price_cache (snd (_get_token_price cfg w a st)) !! k = _price_cache st !! k.
Proof.
  intros Hk. destruct st as [pc rc t].
  unfold _get_token_price. expose.
  repeat case_innermost; rewrite ?lookup_insert_ne; done.
Qed.

Lemma _get_token_price_returns a st :
  exists p, fst (_get_token_price cfg w a st) = Ok p.
Proof.
  destruct st as [pc rc t].
  unfold _get_token_price. expose.
  repeat case_innermost; eauto.
Qed.

Lemma usd_value_stored amt a st v st1 :
  _calculate_usd_value cfg w amt a st = (Ok v, st1) ->
  ~ v == 0 ->
  exists entry,
    _price_cache st1 !! (a +:+ "_" +:+ pretty amt) = Some entry
    /\ price_payload_of entry = UsdValue v.
Proof.
  destruct st as [pc rc t].
  unfold _calculate_usd_value. expose.
  destruct (_get_token_price_returns a {| _price_cache := pc; _reputation_cache := rc;
                                          tick := t |}) as [p0 Hp0].
  destruct (_get_token_price_returns a {| _price_cache := pc; _reputation_cache := rc;
                                          tick := S t |}) as [p1 Hp1].
  destruct (_get_token_price cfg w a {| _price_cache := pc; _reputation_cache := rc;
                                        tick := t |}) as [r0 [pc0 rc0 t0]].
  destruct (_get_token_price cfg w a {| _price_cache := pc; _reputation_cache := rc;
                                        tick := S t |}) as [r1 [pc1 rc1 t1]].
  cbn [fst] in Hp0, Hp1. subst r0 r1.
  repeat case_innermost; intros [= <- <-] Hv; cbn [_price_cache];
    try (exfalso; apply Hv; reflexivity);
    try (eexists; split; [apply lookup_insert_eq|reflexivity]).
  all: match goal with
       | H : _ !! _ = Some ?c |- _ =>
           exists c; split; [exact H|];
           unfold entry_usd_value in *; destruct (price_payload_of c); congruence
       end.
Qed.

Lemma usd_value_hit amt a st entry v :
  _price_cache st !! (a +:+ "_" +:+ pretty amt) = Some entry ->
  price_payload_of entry = UsdValue v ->
  fresh cfg (clock w (tick st)) (price_timestamp entry) = true ->
  _calculate_usd_value cfg w amt a st = (Ok v, next_tick st).
Proof.
  intros Hl Hp Hf. destruct st as [pc rc t]. cbn [tick _price_cache] in *.
  unfold _calculate_usd_value. expose. rewrite Hl. expose. rewrite Hf. expose.
  unfold entry_usd_value. rewrite Hp. reflexivity.
Qed.
End PriceCache.

(** X3.  A call of [_calculate_usd_value] that returns a non-zero value
    leaves that value in the price cache under the key of the token and the
    amount; as long as the entry is younger than the TTL, the next call for
    the same token and amount returns the same value after a single clock
    read, without any request to CoinGecko and without touching the caches. *)
Theorem X3_usd_value_round_trip (cfg : Config) (w : World) (amt : Z) (a : string)
    (st st1 : engine) (v : Q) :
  _calculate_usd_value cfg w amt a st = (Ok v, st1) ->
  ~ v == 0 ->
  exists entry,
    _price_cache st1 !! (a +:+ "_" +:+ pretty amt) = Some entry
    /\ price_payload_of entry = UsdValue v
    /\ (clock w (tick st1) - price_timestamp entry < inject_Z (CACHE_TTL cfg) ->
        _calculate_usd_value cfg w amt a st1 = (Ok v, next_tick st1)).
Proof.
  intros Hcall Hv.
  destruct (usd_value_stored cfg w amt a st v st1 Hcall Hv) as (entry & Hl & Hp).
  exists entry. split_and!; [done..|].
  intros Hfresh. eapply usd_value_hit; [done..|].
  unfold fresh. by apply Qltb_lt.
Qed.

Lemma X3_usd_value_round_trip_witness :
  let w := online_world 1700000000 in
  let amt := (4 * 10 ^ 18)%Z in
  let v := inject_Z amt / inject_Z (10 ^ 18) * (25#10) in
  let st1 := snd (_calculate_usd_value default_config w amt "0xa0b8" new_engine) in
  exists entry,
    _price_cache st1 !! ("0xa0b8" +:+ "_" +:+ pretty amt) = Some entry
    /\ price_payload_of entry = UsdValue v
    /\ (clock w (tick st1) - price_timestamp entry < inject_Z (CACHE_TTL default_config) ->
        _calculate_usd_value default_config w amt "0xa0b8" st1 = (Ok v, next_tick st1)).
Proof.
  intros w amt v st1.
  apply (X3_usd_value_round_trip default_config w amt "0xa0b8" new_engine st1 v).
  - vm_compute. reflexivity.
  - vm_compute. discriminate.
Defined.

(** X4.  When the price of a token is not in the cache and CoinGecko
    answers the request with a price (the ether quote for WETH, the token
    quote for any other address), [_get_token_price] returns that price and
    stores it; the next call for the same address, made before the entry is
    as old as the TTL, returns the same price after a single clock read and
    sends nothing to CoinGecko. *)
Theorem X4_fetched_price_is_served_from_cache (cfg : Config) (w : World) (a : string)
    (st : engine) (p : pyval) :
  _price_cache st !! a = None ->
  (if string_dec (lower a) WETH
   then coingecko_simple_price w (tick st) = PriceFound p
   else coingecko_token_price w (tick st) a = PriceFound p) ->
  let st1 := snd (_get_token_price cfg w a st) in
  fst (_get_token_price cfg w a st) = Ok p
  /\ tick st1 = S (S (tick st))
  /\ (clock w (tick st1) - clock w (S (tick st)) < inject_Z (CACHE_TTL cfg) ->
      _get_token_price cfg w a st1 = (Ok p, next_tick st1)).
Proof.
  intros Hmiss Hreply. destruct st as [pc rc t]. cbn [tick _price_cache] in *.
  cbv zeta. unfold _get_token_price.
  unfold try_except, bind, get_state, now, http_get, lift, ret, raise, modify,
    next_tick, set_price_cache; cbv beta iota; cbn [fst snd tick _price_cache].
  rewrite Hmiss. cbv beta iota. cbn [fst snd tick _price_cache _reputation_cache].
  destruct (string_dec (lower a) WETH) as [Hw|Hw];
    cbv beta iota; cbn [fst snd tick _price_cache _reputation_cache];
    rewrite Hreply; cbv beta iota; cbn [fst snd tick _price_cache _reputation_cache];
    (split_and!; [reflexivity..|]);
    intros Hfresh; apply Qltb_lt in Hfresh;
    rewrite lookup_insert_eq; cbv beta iota;
    cbn [fst snd tick _price_cache _reputation_cache price_timestamp];
    unfold fresh; rewrite Hfresh; reflexivity.
Qed.

Lemma X4_fetched_price_is_served_from_cache_witness :
  let w := online_world 1700000000 in
  let st1 := snd (_get_token_price default_config w "0xa0b8" new_engine) in
  fst (_get_token_price default_config w "0xa0b8" new_engine) = Ok (PFloat (25#10))
  /\ tick st1 = 2%nat
  /\ (clock w (tick st1) - clock w 1 < inject_Z (CACHE_TTL default_config) ->
      _get_token_price default_config w "0xa0b8" st1
      = (Ok (PFloat (25#10)), next_tick st1)).
Proof.
  intros w.
  apply (X4_fetched_price_is_served_from_cache default_config w "0xa0b8" new_engine
           (PFloat (25#10))).
  - reflexivity.
  - vm_compute. reflexivity.
Defined.
(** ** Historical behaviour as fetched from Etherscan *)

Section History.
Context (cfg : Config) (w : World).




Lemma days_spanned_ge_1 (z : Z) : 1 <= days_spanned z.
Proof.
  unfold days_spanned.
  destruct (py_max_cases (inject_Z z / 86400) 1) as [[? ->]|[? ->]]; lra.
Qed.

Lemma frequency_bounds (n : nat) (d : Q) :
  1 <= d -> 0 <= inject_Z (Z.of_nat n) / d /\ inject_Z (Z.of_nat n) / d <= inject_Z (Z.of_nat n).
Proof.
  intros Hd.
  assert (0 <= inject_Z (Z.of_nat n)) as Hn.
  { change 0 with (inject_Z 0). rewrite <- Zle_Qle. lia. }
  split.
  - apply Qle_shift_div_l; lra.
  - apply Qle_shift_div_r; [lra|]. nra.
Qed.


End History.



(** ** The unbound local of [_calculate_anomaly_score] *)

Section UnboundLocal.
Context (cfg : Config) (w : World).

Lemma last_100_short (l : list etx) : (length l <= 100)%nat -> last_100 l = l.
Proof. intros H. unfold last_100. by replace (length l - 100)%nat with 0%nat by lia. Qed.

Lemma truthy_parses txs (o : option etx) :
  timestamps_parse w txs ->
  (forall tx, o = Some tx -> tx ∈ txs) ->
  truthy (o ≫= tx_timeStamp) = true ->
  exists z, int_str w (default EmptyString (o ≫= tx_timeStamp)) = Ok z.
Proof.
  intros Hp Hin Ht. destruct o as [tx|]; [|done]. cbn in *.
  destruct (tx_timeStamp tx) as [s|] eqn:E; [|done]. cbn in *.
  destruct s as [|c s]; [done|].
  destruct (Hp tx (String c s) (Hin _ eq_refl) E) as [z Hz]; [done|].
  exists z. unfold int_str. by rewrite Hz.
Qed.

Lemma history_of_zero_value_sender a st txs total :
  _reputation_cache st !! ("historical_" +:+ a) = None ->
  etherscan_txlist w (tick st) a
  = EsHttp 200 (Ok {| es_status := Some "1"; es_result := txs |}) ->
  (1 <= length txs <= 100)%nat ->
  sum_values w 0 txs = Ok total ->
  (total <= 0)%Z ->
  timestamps_parse w txs ->
  wp (_get_historical_behavior cfg w a)
     (fun r _ => exists h,
          r = Ok h
          /\ transaction_count h = Z.of_nat (length txs)
          /\ average_value h <= 0
          /\ frequency_per_day h <= inject_Z (Z.of_nat (length txs))
          /\ first_seen h = head txs ≫= tx_timeStamp) st.
Proof.
  intros Hmiss Hreply Hlen Hsum Htotal Hparse.
  unfold _get_historical_behavior.
  apply wp_try_except, wp_bind, wp_get_state, wp_bind. rewrite Hmiss.
  apply wp_ret, wp_bind, wp_http_get. rewrite Hreply.
  change (200 =? 200)%Z with true. cbv beta iota.
  apply wp_bind, wp_lift. cbv beta iota. cbn [es_status es_result].
  rewrite last_100_short by lia.
  rewrite bool_decide_eq_true_2 by done.
  rewrite bool_decide_eq_false_2 by (intros ->; cbn in Hlen; lia).
  cbn [andb negb].
  destruct (length txs =? 0)%nat eqn:E; [apply Nat.eqb_eq in E; lia|].
  apply wp_bind, wp_lift. rewrite Hsum.
  assert (inject_Z total / inject_Z (Z.of_nat (length txs)) <= 0) as Havg.
  { apply Qle_shift_div_r.
    - change 0 with (inject_Z 0). rewrite <- Zlt_Qlt. lia.
    - rewrite Qmult_0_l. change 0 with (inject_Z 0). by rewrite <- Zle_Qle. }
  apply wp_bind.
  destruct (truthy (head txs ≫= tx_timeStamp) && truthy (last txs ≫= tx_timeStamp))
    eqn:Hboth.
  - apply andb_true_iff in Hboth as [Hf Hl].
    destruct (truthy_parses txs (last txs) Hparse) as [zl Hzl]; [|done|].
    { intros tx Htx. by apply last_Some_elem_of. }
    destruct (truthy_parses txs (head txs) Hparse) as [zf Hzf]; [|done|].
    { intros tx Htx. by apply head_Some_elem_of. }
    apply wp_bind, wp_lift. rewrite Hzl.
    apply wp_bind, wp_lift. rewrite Hzf.
    cbv zeta. wp_steps. eexists. split; [reflexivity|].
    cbn [transaction_count average_value frequency_per_day first_seen].
    split_and!; try done.
    apply frequency_bounds, days_spanned_ge_1.
  - wp_steps. eexists. split; [reflexivity|].
    cbn [transaction_count average_value frequency_per_day first_seen].
    split_and!; try done.
    change 0 with (inject_Z 0). rewrite <- Zle_Qle. lia.
Qed.

Lemma anomaly_score_unbound h cur st :
  average_value h <= 0 ->
  (1 <= transaction_count h < 5)%Z ->
  frequency_per_day h <= 10 ->
  (truthy (first_seen h) = true ->
   exists z, int_str w (default EmptyString (first_seen h)) = Ok z) ->
  fst (_calculate_anomaly_score w h cur st) = Raise (UnboundLocalError "value_ratio").
Proof.
  intros Havg Hcount Hfreq Hseen.
  change (wp (_calculate_anomaly_score w h cur)
            (fun r _ => r = Raise (UnboundLocalError "value_ratio")) st).
  unfold _calculate_anomaly_score.
  assert (Qgtb (average_value h) 0 = false) as ->.
  { unfold Qgtb. by apply Qltb_ge. }
  cbv beta iota zeta.
  assert (Qgtb (frequency_per_day h) 10 = false) as Hf10.
  { unfold Qgtb. by apply Qltb_ge. }
  assert ((transaction_count h =? 0)%Z = false) as Hc0 by lia.
  assert ((transaction_count h <? 5)%Z = true) as Hc5 by lia.
  rewrite Hf10, Hc0, Hc5. unfold read_local. cbv beta iota.
  apply wp_bind.
  destruct (Qgtb (frequency_per_day h) 0); apply wp_ret.
  all: apply wp_bind.
  all: destruct (truthy (first_seen h)) eqn:Ht;
    [ destruct (Hseen eq_refl) as [z Hz];
      apply wp_bind, wp_now, wp_bind, wp_lift; rewrite Hz; cbv zeta;
      repeat (wp_step; cbv beta iota zeta)
    | repeat (wp_step; cbv beta iota zeta) ].
  all: reflexivity.
Qed.
End UnboundLocal.

(** X5.  For a sender whose history, as Etherscan lists it (one to four
    transactions, every value readable and adding up to nothing, timestamps
    readable), has an average value of zero, [_calculate_anomaly_score]
    reads the local [value_ratio] that only a positive average binds: the
    behavioural analyzer ends in its exception handler and reports score 0.3,
    confidence 0.3 and the tag of the [UnboundLocalError]. *)
Theorem X5_zero_average_history_fails_behavioral_analysis (cfg : Config) (w : World)
    (e : ProcessedEvent) (a : string) (st : engine) (txs : list etx) (total : Z) :
  from_address (parsed_data e) = Some a ->
  a <> EmptyString ->
  _reputation_cache st !! ("historical_" +:+ a) = None ->
  etherscan_txlist w (tick st) a
  = EsHttp 200 (Ok {| es_status := Some "1"; es_result := txs |}) ->
  (1 <= length txs <= 4)%nat ->
  sum_values w 0 txs = Ok total ->
  (total <= 0)%Z ->
  timestamps_parse w txs ->
  fst (_detect_behavioral_anomalies cfg w e st)
  = Ok (analysis_error (UnboundLocalError "value_ratio")).
Proof.
  intros Ha Hne Hmiss Hreply Hlen Hsum Htotal Hparse.
  change (wp (_detect_behavioral_anomalies cfg w e)
            (fun r _ => r = Ok (analysis_error (UnboundLocalError "value_ratio"))) st).
  unfold _detect_behavioral_anomalies, _detect_behavioral_anomalies_body.
  rewrite Ha. change (default EmptyString (Some a)) with a. cbv zeta.
  rewrite bool_decide_eq_false_2 by done.
  apply wp_try_except, wp_bind.
  eapply wp_mono.
  { apply (history_of_zero_value_sender cfg w a st txs total); try done. lia. }
  intros r st1 (h & -> & Hcount & Havg & Hfreq & Hfirst).
  unfold _extract_behavioral_features. cbv zeta.
  apply wp_bind, wp_bind, wp_now, wp_ret, wp_bind.
  match goal with
  | |- wp (_calculate_anomaly_score w h ?cur) _ ?s =>
      pose proof (anomaly_score_unbound w h cur s) as Hraise
  end.
  unfold wp at 1.
  match type of Hraise with
  | _ -> _ -> _ -> _ -> fst ?m = _ => destruct m as [r2 st2]
  end.
  cbn [fst snd] in *. rewrite Hraise; [reflexivity|done|lia| |].
  - eapply Qle_trans; [exact Hfreq|]. change 10 with (inject_Z 10). rewrite <- Zle_Qle. lia.
  - rewrite Hfirst. intros Ht.
    apply (truthy_parses w txs (head txs) Hparse); [|done].
    intros tx Htx. by apply head_Some_elem_of.
Qed.

Lemma X5_zero_average_history_fails_behavioral_analysis_witness :
  fst (_detect_behavioral_anomalies default_config (online_world 1700000000)
         (sample_event TRANSFER
            {| amount := Some 5%Z; from_address := Some "0xbad"; approval_amount := None |})
         new_engine)
  = Ok (analysis_error (UnboundLocalError "value_ratio")).
Proof.
  apply (X5_zero_average_history_fails_behavioral_analysis default_config
           (online_world 1700000000) _ "0xbad" new_engine
           [ {| tx_value := Some "0"; tx_to := Some "0xc0ffee";
                tx_timeStamp := Some "1600000000" |};
             {| tx_value := Some "0"; tx_to := Some EmptyString;
                tx_timeStamp := Some "1600000600" |};
             {| tx_value := Some "0"; tx_to := Some "0xc0ffee";
                tx_timeStamp := Some "1600086400" |} ] 0).
  - reflexivity.
  - discriminate.
  - reflexivity.
  - reflexivity.
  - cbn. lia.
  - reflexivity.
  - lia.
  - intros tx s Hin Hs _.
    rewrite !elem_of_cons, elem_of_nil in Hin.
    destruct Hin as [->|[->|[->|[]]]]; injection Hs as <-; vm_compute; eauto.
Defined.

(** ** Address reputation: a malformed critical indicator *)

Section Reputation.
Context (cfg : Config) (w : World).

Lemma check_indicator_returns res acc entry :
  exists acc', check_indicator w res acc entry = Ok acc'.
Proof.
  destruct acc as [m t], entry as [i x]. unfold check_indicator.
  destruct (indicator_positive w (default (PStr "0") (res !! i))) as [[|]|e] eqn:E;
    eauto.
  rewrite bool_decide_eq_true_2; eauto.
  unfold indicator_positive, int_str in E.
  repeat case_match; simplify_eq; cbn; set_solver.
Qed.

Lemma indicators_loop_returns res l acc :
  exists acc', for_each (check_indicator w res) acc l = Ok acc'.
Proof.
  revert acc. induction l as [|x l IH]; intros acc; cbn; eauto.
  destruct (check_indicator_returns res acc x) as [acc1 ->]. apply IH.
Qed.

Lemma for_each_raises {A B} (f : B -> A -> result B) (l : list A) (x : A) :
  x ∈ l ->
  (forall acc, exists e, f acc x = Raise e) ->
  forall acc, exists e, for_each f acc l = Raise e.
Proof.
  intros Hin Hx. induction l as [|y l IH]; intros acc; [by apply elem_of_nil in Hin|].
  cbn. apply elem_of_cons in Hin as [<-|Hin].
  - destruct (Hx acc) as [e ->]. eauto.
  - destruct (f acc y); eauto.
Qed.

Lemma check_critical_raises res c v :
  res !! c = Some v ->
  (forall z, py_int w v <> Ok z) ->
  forall acc, exists e, check_critical w res acc c = Raise e.
Proof.
  intros Hv Hbad [m t]. unfold check_critical. rewrite Hv.
  change (default (PStr "0") (Some v)) with v.
  destruct (py_int w v) as [z|e] eqn:E; [exfalso; by eapply Hbad|]. eauto.
Qed.
End Reputation.

(** X7.  The loop over the four critical indicators converts their values
    with an unguarded [int(...)]: when GoPlus answers 200 and the value of
    one of them is not convertible (a string that is no integer literal, or
    [null]), the whole check ends in its exception handler, whatever the
    other indicators say.  The address gets score 0.2 and confidence 0.3,
    its only factor is the failure message, and nothing is cached. *)
Theorem X7_malformed_critical_indicator_masks_flags (cfg : Config) (w : World)
    (a : string) (st : engine) (res : gmap string pyval) (c : string) (v : pyval) :
  _reputation_cache st !! ("reputation_" +:+ a) = None ->
  goplus_address_security w (tick st) a = GpHttp 200 (Ok res) ->
  c ∈ critical_indicators ->
  res !! c = Some v ->
  (forall z, py_int w v <> Ok z) ->
  exists msg,
    _check_address_reputation cfg w a st
    = (Ok (FactorD {| score := 2#10; confidence := 3#10;
                      factors := ["Reputation check failed: " +:+ msg] |}),
       next_tick st).
Proof.
  intros Hmiss Hreply Hc Hv Hbad.
  destruct st as [pc rc t]. cbn [tick _reputation_cache] in *.
  unfold _check_address_reputation.
  unfold try_except, bind, get_state, now, http_get, lift, ret, raise, modify, next_tick;
    cbv beta iota; cbn [fst snd tick _price_cache _reputation_cache].
  rewrite Hmiss. cbv beta iota. cbn [fst snd tick _price_cache _reputation_cache].
  rewrite Hreply. change (200 =? 200)%Z with true. cbv beta iota.
  destruct (indicators_loop_returns w res risk_indicators (0, [])) as [acc ->].
  cbv beta iota.
  destruct (for_each_raises (check_critical w res) critical_indicators c Hc
              (check_critical_raises w res c v Hv Hbad) acc) as [e ->].
  cbv beta iota. by exists (exn_str e).
Qed.

Lemma X7_malformed_critical_indicator_masks_flags_witness :
  let w := {| clock := fun _ => 1700000000;
              coingecko_simple_price := fun _ => PriceRaise ConnectionError;
              coingecko_token_price := fun _ _ => PriceRaise ConnectionError;
              etherscan_txlist := fun _ _ => EsRaise ConnectionError;
              goplus_address_security := fun _ _ =>
                GpHttp 200 (Ok {[ "sanctioned" := PStr "1";
                                  "financial_crime" := PStr "unknown" ]});
              int_of_str := parse_decimal |} in
  exists msg,
    _check_address_reputation default_config w "0xbad" new_engine
    = (Ok (FactorD {| score := 2#10; confidence := 3#10;
                      factors := ["Reputation check failed: " +:+ msg] |}),
       next_tick new_engine).
Proof.
  intros w.
  apply (X7_malformed_critical_indicator_masks_flags default_config w "0xbad" new_engine
           {[ "sanctioned" := PStr "1"; "financial_crime" := PStr "unknown" ]}
           "financial_crime" (PStr "unknown")).
  - reflexivity.
  - reflexivity.
  - unfold critical_indicators. set_solver.
  - vm_compute. reflexivity.
  - intros z. vm_compute. discriminate.
Defined.
(** ** Address reputation: a flagged critical indicator *)

Section Critical.
Context (cfg : Config) (w : World).

Lemma indicators_loop_bound res acc acc' :
  (0 <= fst acc /\ fst acc <= 9#10) ->
  for_each (check_indicator w res) acc risk_indicators = Ok acc' ->
  0 <= fst acc' /\ fst acc' <= 9#10.
Proof.
  apply (for_each_inv (fun acc => 0 <= fst acc /\ fst acc <= 9#10)).
  intros [m t] [i x] acc1 Hin Hacc. cbn [fst] in *.
  assert (0 <= x /\ x <= 9#10) as Hx.
  { unfold risk_indicators in Hin. rewrite !elem_of_cons, elem_of_nil in Hin.
    repeat destruct Hin as [[= -> ->]|Hin]; try done; split; lra. }
  unfold check_indicator.
  destruct (indicator_positive w (default (PStr "0") (res !! i))) as [[|]|e].
  - intros [= <-]. cbn [fst].
    destruct (py_max_cases m x) as [[? ->]|[? ->]]; lra.
  - by intros [= <-].
  - destruct (bool_decide _); [by intros [= <-]|done].
Qed.

Lemma critical_loop res l acc :
  l ⊆ critical_indicators ->
  (forall c, c ∈ l -> convertible w res c) ->
  fst acc <= 95#100 ->
  exists acc',
    for_each (check_critical w res) acc l = Ok acc'
    /\ fst acc' <= 95#100
    /\ (flagged_critical acc \/ (exists c, c ∈ l /\ flagged w res c) ->
        flagged_critical acc').
Proof.
  revert acc. induction l as [|c l IH]; intros [m t] Hsub Hconv Hm; cbn [fst] in Hm.
  - exists (m, t). cbn. split_and!; [done..|].
    intros [H|(c & Hc & _)]; [done|by apply elem_of_nil in Hc].
  - cbn [for_each]. unfold check_critical at 1.
    destruct (Hconv c) as [z Hz]; [apply list_elem_of_here|]. rewrite Hz.
    assert (l ⊆ critical_indicators) as Hsub' by set_solver.
    assert (forall c, c ∈ l -> convertible w res c) as Hconv'.
    { intros c' Hc'. apply Hconv. by apply list_elem_of_further. }
    destruct (0 <? z)%Z eqn:Hpos.
    + destruct (IH (py_max m (95#100),
                    ("CRITICAL: " +:+ title (replace "_" " " c)) :: t) Hsub' Hconv')
        as (acc' & Hrun & Hle & Hflag).
      { cbn [fst]. destruct (py_max_cases m (95#100)) as [[? ->]|[? ->]]; lra. }
      exists acc'. split_and!; [done..|]. intros _. apply Hflag. left.
      split; cbn [fst snd].
      * destruct (py_max_cases m (95#100)) as [[? ->]|[? ->]]; [reflexivity|].
        lra.
      * exists c, t. split; [|done]. apply Hsub, list_elem_of_here.
    + destruct (IH (m, t) Hsub' Hconv' Hm) as (acc' & Hrun & Hle & Hflag).
      exists acc'. split_and!; [done..|]. intros [H|(c' & Hc' & z' & Hz' & Hpos')].
      * apply Hflag. by left.
      * apply elem_of_cons in Hc' as [->|Hc'].
        -- rewrite Hz in Hz'. injection Hz' as <-. lia.
        -- apply Hflag. right. exists c'. split; [done|]. by exists z'.
Qed.
End Critical.

(** X8.  When GoPlus answers 200, the values of the four critical
    indicators are convertible and one of them is positive, the reputation
    check scores the address 0.95 with confidence 0.9, whatever the other
    indicators say, and its first factor is the ["CRITICAL: ..."] tag of a
    critical indicator. *)
Theorem X8_critical_indicator_dominates (cfg : Config) (w : World) (a : string)
    (st : engine) (res : gmap string pyval) :
  _reputation_cache st !! ("reputation_" +:+ a) = None ->
  goplus_address_security w (tick st) a = GpHttp 200 (Ok res) ->
  (forall c, c ∈ critical_indicators -> convertible w res c) ->
  (exists c, c ∈ critical_indicators /\ flagged w res c) ->
  exists fr,
    fst (_check_address_reputation cfg w a st) = Ok (FactorD fr)
    /\ score fr == 95#100
    /\ confidence fr = 9#10
    /\ exists c rest,
         c ∈ critical_indicators
         /\ factors fr = ("CRITICAL: " +:+ title (replace "_" " " c)) :: rest.
Proof.
  intros Hmiss Hreply Hconv Hflag.
  destruct st as [pc rc t]. cbn [tick _reputation_cache] in *.
  unfold _check_address_reputation.
  unfold try_except, bind, get_state, now, http_get, lift, ret, raise, modify, next_tick;
    cbv beta iota; cbn [fst snd tick _price_cache _reputation_cache].
  rewrite Hmiss. cbv beta iota. cbn [fst snd tick _price_cache _reputation_cache].
  rewrite Hreply. change (200 =? 200)%Z with true. cbv beta iota.
  destruct (indicators_loop_returns w res risk_indicators (0, [])) as [acc Hacc].
  rewrite Hacc. cbv beta iota.
  destruct (indicators_loop_bound w res (0, []) acc) as [_ Hle]; [cbn; lra|done|].
  destruct (critical_loop w res critical_indicators acc) as (acc' & -> & _ & Hcrit);
    [done|done|lra|].
  destruct (Hcrit (or_intror Hflag)) as (Hs & c & rest & Hc & Hf).
  destruct acc' as [m tf]. cbn [fst snd] in *. subst tf. cbv beta iota. cbn [fst].
  eexists. split; [reflexivity|]. cbn [score confidence factors]. eauto 6.
Qed.

Lemma X8_critical_indicator_dominates_witness :
  exists fr,
    fst (_check_address_reputation default_config (online_world 1700000000) "0xbad"
           new_engine) = Ok (FactorD fr)
    /\ score fr == 95#100
    /\ confidence fr = 9#10
    /\ exists c rest,
         c ∈ critical_indicators
         /\ factors fr = ("CRITICAL: " +:+ title (replace "_" " " c)) :: rest.
Proof.
  apply (X8_critical_indicator_dominates default_config (online_world 1700000000) "0xbad"
           new_engine {[ "sanctioned" := PStr "1"; "mixer" := PStr "0" ]}).
  - reflexivity.
  - reflexivity.
  - intros c Hc. unfold critical_indicators in Hc.
    rewrite !elem_of_cons, elem_of_nil in Hc.
    destruct Hc as [->|[->|[->|[->|[]]]]]; eexists; vm_compute; reflexivity.
  - exists "sanctioned". split; [unfold critical_indicators; set_solver|].
    exists 1%Z. split; [vm_compute; reflexivity|lia].
Defined.
(** ** [enhanced_event_processor.py]: merging factor lists *)

Lemma ascii_compare_refl (c : ascii) : Ascii.compare c c = Eq.
Proof. unfold Ascii.compare. apply N.compare_refl. Qed.

Lemma ascii_compare_trans (c1 c2 c3 : ascii) :
    Ascii.compare c1 c2 = Lt -> Ascii.compare c2 c3 = Lt -> Ascii.compare c1 c3 = Lt.
Proof. unfold Ascii.compare. rewrite !N.compare_lt_iff. lia. Qed.

Lemma string_compare_refl (s : string) : String.compare s s = Eq.
Proof. induction s as [|c s IH]; cbn; [done|]. by rewrite ascii_compare_refl. Qed.

Lemma string_compare_trans (s1 s2 s3 : string) :
    String.compare s1 s2 = Lt -> String.compare s2 s3 = Lt -> String.compare s1 s3 = Lt.
Proof.
    revert s2 s3. induction s1 as [|c1 s1 IH]; intros [|c2 s2] [|c3 s3]; cbn; try done.
    destruct (Ascii.compare c1 c2) eqn:E12; try done;
      destruct (Ascii.compare c2 c3) eqn:E23; try done.
    - apply Ascii.compare_eq_iff in E12, E23. subst.
      rewrite ascii_compare_refl. apply IH.
    - apply Ascii.compare_eq_iff in E12. subst. by rewrite E23.
    - apply Ascii.compare_eq_iff in E23. subst. by rewrite E12.
    - by rewrite (ascii_compare_trans _ _ _ E12 E23).
Qed.

#[local] Instance str_le_trans : Transitive EventProcessor.str_le.
Proof.
    intros a b c. unfold EventProcessor.str_le, String.leb.
    destruct (String.compare a b) eqn:Eab; try done;
      destruct (String.compare b c) eqn:Ebc; try done; intros _ _.
    - apply String.compare_eq_iff in Eab, Ebc. subst. by rewrite string_compare_refl.
    - apply String.compare_eq_iff in Eab. subst. by rewrite Ebc.
    - apply String.compare_eq_iff in Ebc. subst. by rewrite Eab.
    - by rewrite (string_compare_trans _ _ _ Eab Ebc).
Qed.

#[local] Instance str_le_total : Total EventProcessor.str_le.
Proof. intros a b. apply String.leb_total. Qed.

#[local] Instance str_le_antisymm : AntiSymm (=) EventProcessor.str_le.
Proof. intros a b. apply String.leb_antisym. Qed.

Lemma sorted_perm (l1 l2 : list string) :
    l1 ≡ₚ l2 -> EventProcessor.sorted l1 = EventProcessor.sorted l2.
Proof.
    intros Hp. unfold EventProcessor.sorted.
    apply (Sorted_unique EventProcessor.str_le).
    - apply Sorted_merge_sort, _.
    - apply Sorted_merge_sort, _.
    - by rewrite !merge_sort_Permutation.
Qed.

Section Merge.
Import EventProcessor.

Lemma filter_ext_in {A} (P1 P2 : A -> Prop) `{!forall x, Decision (P1 x)}
    `{!forall x, Decision (P2 x)} (l : list A) :
  (forall x, x ∈ l -> (P1 x <-> P2 x)) -> filter P1 l = filter P2 l.
Proof.
  induction l as [|x l IH]; intros Hext; [done|].
  rewrite !filter_cons.
  destruct (decide (P1 x)) as [H1|H1], (decide (P2 x)) as [H2|H2].
  - f_equal. apply IH. intros y Hy. apply Hext. by apply list_elem_of_further.
  - exfalso. apply H2, Hext; [apply list_elem_of_here|done].
  - exfalso. apply H1, Hext; [apply list_elem_of_here|done].
  - apply IH. intros y Hy. apply Hext. by apply list_elem_of_further.
Qed.

Lemma filter_all {A} (P : A -> Prop) `{!forall x, Decision (P x)} (l : list A) :
  (forall x, x ∈ l -> P x) -> filter P l = l.
Proof.
  induction l as [|x l IH]; intros Hall; [done|].
  rewrite filter_cons_True by (apply Hall, list_elem_of_here).
  f_equal. apply IH. intros y Hy. apply Hall. by apply list_elem_of_further.
Qed.

(** On a list without duplicates that holds [x], [remove] drops [x]. *)
Lemma list_remove_NoDup (x : string) (l : list string) :
  NoDup l -> x ∈ l -> list_remove x l = Ok (filter (fun y => y <> x) l).
Proof.
  induction l as [|y l IH]; intros Hnd Hin; [by apply elem_of_nil in Hin|].
  apply NoDup_cons in Hnd as [Hy Hnd]. cbn [list_remove].
  case_bool_decide as E.
  - subst y. rewrite filter_cons_False by (intros H; by apply H).
    rewrite filter_all; [done|]. intros z Hz ->. done.
  - apply elem_of_cons in Hin as [->|Hin]; [done|].
    rewrite (IH Hnd Hin), filter_cons_True by done. reflexivity.
Qed.

Lemma priority_loop (ps sf af : list string) :
  NoDup ps -> NoDup af ->
  for_each take_priority (sf, af) ps
  = Ok (sf ++ filter (fun p => p ∈ af) ps, filter (fun x => x ∉ ps) af).
Proof.
  revert sf af. induction ps as [|p ps IH]; intros sf af Hps Haf.
  - cbn. rewrite app_nil_r, filter_all; [done|]. intros x _. apply not_elem_of_nil.
  - apply NoDup_cons in Hps as [Hp Hps]. cbn [for_each]. unfold take_priority at 1.
    case_bool_decide as Hin.
    + rewrite (list_remove_NoDup p af Haf Hin).
      rewrite IH by (done || by apply NoDup_filter).
      rewrite filter_cons_True by done. rewrite <- app_assoc. cbn [app].
      f_equal. f_equal.
      * f_equal. f_equal. apply filter_ext_in. intros q Hq.
        rewrite list_elem_of_filter. split; [intros [_ H]; done|].
        intros H. split; [|done]. intros ->. done.
      * rewrite list_filter_filter. apply filter_ext_in. intros x Hx.
        rewrite not_elem_of_cons. tauto.
    + rewrite IH by done. rewrite filter_cons_False by done.
      f_equal. f_equal. apply filter_ext_in. intros x Hx.
      rewrite not_elem_of_cons. split; [|tauto]. intros H. split; [|done].
      intros ->. done.
Qed.

Lemma priority_order_NoDup : NoDup priority_order.
Proof. by apply (bool_decide_unpack _). Qed.
End Merge.

Lemma merge_canonical (list_set : list string -> list string)
    (basic enhanced : list string) :
  EventProcessor.lists_set list_set ->
  EventProcessor._merge_risk_factors list_set basic enhanced
  = Ok (filter (fun p => p ∈ basic ++ enhanced) EventProcessor.priority_order
        ++ EventProcessor.sorted
             (filter (fun x => x ∉ EventProcessor.priority_order)
                     (remove_dups (basic ++ enhanced)))).
Proof.
  intros Hset. destruct (Hset (basic ++ enhanced)) as [Hnd Hin].
  unfold EventProcessor._merge_risk_factors.
  rewrite priority_loop by (apply priority_order_NoDup || done).
  cbn [app]. f_equal. f_equal.
  - apply filter_ext_in. intros p _. apply Hin.
  - apply sorted_perm. apply NoDup_Permutation.
    + by apply NoDup_filter.
    + apply NoDup_filter, NoDup_remove_dups.
    + intros x. rewrite !list_elem_of_filter, elem_of_remove_dups, Hin. done.
Qed.

Lemma sorted_elem_of (l : list string) (x : string) : x ∈ EventProcessor.sorted l <-> x ∈ l.
Proof. unfold EventProcessor.sorted. by rewrite merge_sort_Permutation. Qed.

Lemma sorted_NoDup (l : list string) : NoDup l -> NoDup (EventProcessor.sorted l).
Proof. unfold EventProcessor.sorted. by rewrite merge_sort_Permutation. Qed.

(** X9.  [_merge_risk_factors] never raises, and its result does not depend
    on the order in which the interpreter iterates over [set(basic +
    enhanced)]: it is the priority tags that occur among the two lists, in
    the order of [priority_order], followed by the other tags, each once, in
    sorted order. *)
Theorem X9_merge_is_independent_of_set_order (list_set : list string -> list string)
    (basic enhanced : list string) :
  EventProcessor.lists_set list_set ->
  EventProcessor._merge_risk_factors list_set basic enhanced
  = Ok (filter (fun p => p ∈ basic ++ enhanced) EventProcessor.priority_order
        ++ EventProcessor.sorted
             (filter (fun x => x ∉ EventProcessor.priority_order)
                     (remove_dups (basic ++ enhanced)))).
Proof. apply merge_canonical. Qed.

Lemma remove_dups_lists_set : EventProcessor.lists_set remove_dups.
Proof. intros l. split; [apply NoDup_remove_dups|intros x; apply elem_of_remove_dups]. Qed.

Lemma X9_merge_is_independent_of_set_order_witness :
  EventProcessor._merge_risk_factors remove_dups
    ["NO_FROM_ADDRESS"; "LARGE_APPROVAL"] ["HIGH_FINANCIAL_IMPACT"; "NO_FROM_ADDRESS"]
  = Ok (filter (fun p => p ∈ ["NO_FROM_ADDRESS"; "LARGE_APPROVAL"]
                           ++ ["HIGH_FINANCIAL_IMPACT"; "NO_FROM_ADDRESS"])
               EventProcessor.priority_order
        ++ EventProcessor.sorted
             (filter (fun x => x ∉ EventProcessor.priority_order)
                     (remove_dups (["NO_FROM_ADDRESS"; "LARGE_APPROVAL"]
                                   ++ ["HIGH_FINANCIAL_IMPACT"; "NO_FROM_ADDRESS"])))).
Proof.
  apply (X9_merge_is_independent_of_set_order remove_dups).
  exact remove_dups_lists_set.
Defined.

(** X10.  The merged list holds every factor of either input list and
    nothing else, each exactly once; merging is symmetric in its two
    arguments, and merging a result with the empty list gives it back. *)
Theorem X10_merge_is_a_set_union (list_set : list string -> list string)
    (basic enhanced : list string) :
  EventProcessor.lists_set list_set ->
  exists merged,
    EventProcessor._merge_risk_factors list_set basic enhanced = Ok merged
    /\ NoDup merged
    /\ (forall x, x ∈ merged <-> x ∈ basic \/ x ∈ enhanced)
    /\ EventProcessor._merge_risk_factors list_set enhanced basic = Ok merged
    /\ EventProcessor._merge_risk_factors list_set merged [] = Ok merged.
Proof.
  intros Hset. eexists. split; [by apply merge_canonical|].
  set (ps := EventProcessor.priority_order).
  set (P := filter (fun p => p ∈ basic ++ enhanced) ps).
  set (R := EventProcessor.sorted
              (filter (fun x => x ∉ ps) (remove_dups (basic ++ enhanced)))).
  assert (forall x, x ∈ P ++ R <-> x ∈ basic ++ enhanced) as Hmem.
  { intros x. unfold P, R.
    rewrite elem_of_app, sorted_elem_of, !list_elem_of_filter, elem_of_remove_dups.
    destruct (decide (x ∈ ps)); tauto. }
  assert (NoDup (P ++ R)) as Hnd.
  { apply NoDup_app. split_and!.
    - apply NoDup_filter, priority_order_NoDup.
    - intros x. unfold P, R.
      rewrite sorted_elem_of, !list_elem_of_filter. tauto.
    - apply sorted_NoDup, NoDup_filter, NoDup_remove_dups. }
  split_and!.
  - exact Hnd.
  - intros x. by rewrite Hmem, elem_of_app.
  - rewrite merge_canonical by done. f_equal. f_equal.
    + apply filter_ext_in. intros p _. rewrite !elem_of_app. tauto.
    + apply sorted_perm, NoDup_Permutation.
      * apply NoDup_filter, NoDup_remove_dups.
      * apply NoDup_filter, NoDup_remove_dups.
      * intros x. rewrite !list_elem_of_filter, !elem_of_remove_dups, !elem_of_app. tauto.
  - rewrite merge_canonical by done. rewrite app_nil_r. f_equal. f_equal.
    + apply filter_ext_in. intros p _. apply Hmem.
    + apply sorted_perm, NoDup_Permutation.
      * apply NoDup_filter, NoDup_remove_dups.
      * apply NoDup_filter, NoDup_remove_dups.
      * intros x. rewrite !list_elem_of_filter, !elem_of_remove_dups, Hmem. done.
Qed.

Lemma X10_merge_is_a_set_union_witness :
  exists merged,
    EventProcessor._merge_risk_factors remove_dups
      ["NO_FROM_ADDRESS"; "LARGE_APPROVAL"] ["HIGH_FINANCIAL_IMPACT"; "NO_FROM_ADDRESS"]
    = Ok merged
    /\ NoDup merged
    /\ (forall x, x ∈ merged <->
          x ∈ ["NO_FROM_ADDRESS"; "LARGE_APPROVAL"]
          \/ x ∈ ["HIGH_FINANCIAL_IMPACT"; "NO_FROM_ADDRESS"])
    /\ EventProcessor._merge_risk_factors remove_dups
         ["HIGH_FINANCIAL_IMPACT"; "NO_FROM_ADDRESS"] ["NO_FROM_ADDRESS"; "LARGE_APPROVAL"]
       = Ok merged
    /\ EventProcessor._merge_risk_factors remove_dups merged [] = Ok merged.
Proof.
  apply (X10_merge_is_a_set_union remove_dups).
  exact remove_dups_lists_set.
Defined.
(** ** [enhanced_event_processor.py]: suspicion levels and impact levels *)

Lemma level_matches_rule (ra : RiskAssessment) :
  _generate_recommendation default_config (overall_score ra) (assessment_confidence ra)
  = recommendation_of_level (EventProcessor._map_risk_to_suspicion_level ra).
Proof.
  unfold _generate_recommendation, EventProcessor._map_risk_to_suspicion_level.
  cbn [MIN_CONFIDENCE CRITICAL_RISK_THRESHOLD HIGH_RISK_THRESHOLD default_config].
  cbv zeta.
  destruct (Qltb (assessment_confidence ra) (6#10)); [done|].
  destruct (Qgeb (overall_score ra) (9#10)); [done|].
  destruct (Qgeb (overall_score ra) (7#10)); [done|].
  destruct (Qgeb (overall_score ra) (5#10)); done.
Qed.

(** X11.  With the default thresholds, the suspicion level the event
    processor derives from an assessment of a [ProcessedEvent] always matches
    the assessment's recommendation: LOW with MONITOR, MEDIUM with
    INVESTIGATE, HIGH with IMMEDIATE_INVESTIGATION, CRITICAL with
    CRITICAL_INVESTIGATION.  The engine's fallback assessment is the one
    exception: it recommends INVESTIGATE and maps to LOW. *)
Theorem X11_suspicion_level_matches_recommendation (w : World) (args : list event_arg)
    (e : ProcessedEvent) (x : exn) :
  (let ra := fst (assess_comprehensive_risk default_config w (EventObject e)
                    (engine_after default_config w args new_engine)) in
   recommendation ra
   = recommendation_of_level (EventProcessor._map_risk_to_suspicion_level ra))
  /\ recommendation (assessment_error x) = "INVESTIGATE"
  /\ EventProcessor._map_risk_to_suspicion_level (assessment_error x) = LOW.
Proof.
  split; [|done]. cbv zeta.
  destruct (assess_object default_config w e (engine_after default_config w args new_engine))
    as [_ Ha].
  { apply cache_ok_engine_after, cache_ok_new. }
  destruct Ha as (first & rest & confs & t & _ & _ & _ & _ & _ & _ & _ & _ & Hrec & _).
  cbv zeta in Hrec. rewrite Hrec. apply level_matches_rule.
Qed.

(** X12.  The impact level the event processor reports for a USD value
    names the tier of the engine's financial factor tag, except at the four
    thresholds themselves, which the engine counts into the higher tier
    ([>=]) and the processor into the lower one ([>]). *)
Theorem X12_impact_level_matches_financial_tier (w : World) (e : ProcessedEvent)
    (a : Z) (st : engine) :
  amount (parsed_data e) = Some a ->
  exists v fr,
    fst (_calculate_usd_value default_config w a (contract_address e) st) = Ok v
    /\ fst (_analyze_financial_impact default_config w e st) = Ok fr
    /\ ((forall t, t ∈ [1000; 10000; 100000; 1000000] -> ~ v == t) ->
        factors fr = [EventProcessor._get_impact_level v +:+ "_FINANCIAL_IMPACT"])
    /\ (forall t, t ∈ [1000; 10000; 100000; 1000000] -> v == t ->
        factors fr <> [EventProcessor._get_impact_level v +:+ "_FINANCIAL_IMPACT"]).
Proof.
  intros Ha.
  unfold _analyze_financial_impact, _analyze_financial_impact_body, try_except, bind, ret.
  rewrite Ha. cbv zeta.
  assert (exists v, fst (_calculate_usd_value default_config w a (contract_address e) st)
                    = Ok v) as [v Hv].
  { change (wp (_calculate_usd_value default_config w a (contract_address e))
              (fun r _ => exists v, r = Ok v) st).
    eapply wp_mono; [apply _calculate_usd_value_spec|]. cbv beta. intros r st' [H _]. exact H. }
  destruct (_calculate_usd_value default_config w a (contract_address e) st) as [r st1].
  cbn [fst] in Hv. subst r.
  cbn [CRITICAL_FINANCIAL_THRESHOLD HIGH_FINANCIAL_THRESHOLD MEDIUM_FINANCIAL_THRESHOLD
       LOW_FINANCIAL_THRESHOLD default_config].
  unfold EventProcessor._get_impact_level, Qgeb, Qgtb.
  exists v.
  destruct (Qleb 1000000 v) eqn:G1, (Qltb 1000000 v) eqn:L1,
           (Qleb 100000 v) eqn:G2, (Qltb 100000 v) eqn:L2,
           (Qleb 10000 v) eqn:G3, (Qltb 10000 v) eqn:L3,
           (Qleb 1000 v) eqn:G4, (Qltb 1000 v) eqn:L4;
    order_facts; try (exfalso; lra);
    (eexists; split_and!; [reflexivity|reflexivity| |]);
    cbn [fst factors].
  all: try (intros _; reflexivity).
  all: try (intros Hne; exfalso;
            first [ apply (Hne 1000000); [set_solver|lra]
                  | apply (Hne 100000); [set_solver|lra]
                  | apply (Hne 10000); [set_solver|lra]
                  | apply (Hne 1000); [set_solver|lra] ]).
  all: intros t Ht Hvt; rewrite !elem_of_cons, elem_of_nil in Ht;
    destruct Ht as [->|[->|[->|[->|[]]]]]; first [ exfalso; lra | discriminate ].
Qed.

Lemma X12_impact_level_matches_financial_tier_witness :
  exists v fr,
    fst (_calculate_usd_value default_config (online_world 1700000000) (4 * 10 ^ 20)
           "0xa0b8" new_engine) = Ok v
    /\ fst (_analyze_financial_impact default_config (online_world 1700000000)
              (sample_event TRANSFER
                 {| amount := Some (4 * 10 ^ 20)%Z; from_address := None;
                    approval_amount := None |})
              new_engine) = Ok fr
    /\ ((forall t, t ∈ [1000; 10000; 100000; 1000000] -> ~ v == t) ->
        factors fr = [EventProcessor._get_impact_level v +:+ "_FINANCIAL_IMPACT"])
    /\ (forall t, t ∈ [1000; 10000; 100000; 1000000] -> v == t ->
        factors fr <> [EventProcessor._get_impact_level v +:+ "_FINANCIAL_IMPACT"]).
Proof.
  apply (X12_impact_level_matches_financial_tier (online_world 1700000000)
           (sample_event TRANSFER
              {| amount := Some (4 * 10 ^ 20)%Z; from_address := None;
                 approval_amount := None |})
           (4 * 10 ^ 20) new_engine).
  reflexivity.
Defined.
(** ** The coordinator's endpoint never reports success *)

Section NoSuccess.
Context (globals : list string) (env : Orchestrator.Env).







End NoSuccess.


(** ** The red agent's [assess_risk] *)

Section RedAssess.
Context (w : World).

Lemma py_min_1_bounds (lo a : Q) :
  lo <= 1 -> lo <= a -> lo <= py_min 1 a /\ py_min 1 a <= 1.
Proof. intros H1 Ha. destruct (py_min_cases 1 a) as [[? ->]|[? ->]]; lra. Qed.




End RedAssess.

Section RedAssessment.
Context (w : World) (onchain : nat -> string -> result Q).



End RedAssessment.





(** ** The event analyzer's patterns and confidence *)

Lemma data_quality_boost_nonneg (events : list EventProcessor.AnalyzedEvent) (b : Q) :
  0 <= b ->
  0 <= fold_left (fun boost event =>
                    if EventAnalyzer.has_parsed_data event then boost + (5#100) else boost)
                 events b.
Proof.
  revert b. induction events as [|e events IH]; intros b Hb; cbn [fold_left]; [done|].
  apply IH. destruct (EventAnalyzer.has_parsed_data e); lra.
Qed.

(** X18.  [calculate_confidence_score] is 0 for an empty batch, and for any
    other batch lies between the base confidence 0.7 and the cap 1.0,
    however many patterns and events there are. *)
Theorem X18_analysis_confidence_range (events : list EventProcessor.AnalyzedEvent)
    (patterns : list Comm.Pattern) :
  (events = [] -> EventAnalyzer.calculate_confidence_score events patterns = 0)
  /\ (events <> [] ->
      7#10 <= EventAnalyzer.calculate_confidence_score events patterns
      /\ EventAnalyzer.calculate_confidence_score events patterns <= 1).
Proof.
  split; [by intros ->|]. intros Hne.
  unfold EventAnalyzer.calculate_confidence_score.
  destruct events as [|e events]; [done|]. cbv zeta.
  pose proof (data_quality_boost_nonneg (e :: events) 0) as Hq.
  set (q := fold_left _ (e :: events) 0) in *.
  assert (0 <= inject_Z (Z.of_nat (length patterns))) as Hn.
  { change 0 with (inject_Z 0). rewrite <- Zle_Qle. lia. }
  set (n := inject_Z (Z.of_nat (length patterns))) in *.
  destruct (py_min_cases (n * (1#10)) (3#10)) as [[? ->]|[? ->]];
    match goal with
    | |- context [py_min ?a 1] => destruct (py_min_cases a 1) as [[? ->]|[? ->]]
    end; lra.
Qed.

Lemma X18_analysis_confidence_range_witness :
  let e := {| EventProcessor.event :=
                sample_event TRANSFER
                  {| amount := Some 5%Z; from_address := None; approval_amount := None |};
              EventProcessor.to_address := None;
              EventProcessor.enhanced_risk_assessment := None;
              EventProcessor.other_keys := 0 |} in
  ([e] = [] -> EventAnalyzer.calculate_confidence_score [e] [] = 0)
  /\ ([e] <> [] ->
      7#10 <= EventAnalyzer.calculate_confidence_score [e] []
      /\ EventAnalyzer.calculate_confidence_score [e] [] <= 1).
Proof. intros e. exact (X18_analysis_confidence_range [e] []). Defined.

(** X19.  [detect_patterns] never raises and reports at most four patterns
    for an event (the transfer and the approval pattern exclude each other);
    it bumps the counter [patterns_detected] once per pattern and touches
    nothing else; and every pattern it reports has a type the risk assessor
    knows, so [generate_pattern_recommendations] turns the patterns of an
    event into exactly as many recommendations. *)
Theorem X19_detected_patterns (analyzed : EventProcessor.AnalyzedEvent)
    (st : EventAnalyzer.AgentState) :
  exists patterns,
    EventAnalyzer.detect_patterns analyzed st
    = (Ok patterns, EventAnalyzer.add_counts 0 (Z.of_nat (length patterns)) st)
    /\ (length patterns <= 4)%nat
    /\ length (RiskAssessor.generate_pattern_recommendations patterns) = length patterns.
Proof.
  destruct st as [ev pd ps cs].
  unfold EventAnalyzer.detect_patterns. cbv zeta.
  unfold bind, ret, modify, EventAnalyzer.add_counts.
  cbn [EventAnalyzer.events_processed EventAnalyzer.patterns_detected
       EventAnalyzer.processing_stats EventAnalyzer.communication_stats].
  destruct (event_type (EventProcessor.event analyzed));
    repeat match goal with
      | |- context [if ?c then _ else _] =>
          lazymatch c with
          | context [if _ then _ else _] => fail
          | _ => destruct c
          end
      end;
    cbv beta iota; cbn [app];
    (eexists; split;
     [ apply (f_equal2 pair); [reflexivity|];
       cbn [length EventAnalyzer.events_processed EventAnalyzer.patterns_detected
            EventAnalyzer.processing_stats EventAnalyzer.communication_stats];
       f_equal; lia
     | split; [cbn [length]; lia | reflexivity] ]).
Qed.
(** ** The risk assessor's handler *)

Section AgentWP.
Context {AS Msg : Type}.

Lemma wp_ctx_send (send_fault : nat -> option exn) dest (m : Msg)
    (post : result unit -> agent AS Msg -> Prop) st :
  (forall e, send_fault (sends st) = Some e ->
     post (Raise e) {| engine_of := engine_of st; state_of := state_of st;
                       outbox := outbox st; sends := S (sends st) |}) ->
  (send_fault (sends st) = None ->
     post (Ok tt) {| engine_of := engine_of st; state_of := state_of st;
                     outbox := outbox st ++ [(dest, m)]; sends := S (sends st) |}) ->
  wp (ctx_send send_fault dest m) post st.
Proof.
  intros Hfail Hok. unfold wp, ctx_send.
  destruct (send_fault (sends st)) as [e|]; cbn [fst snd]; auto.
Qed.

Lemma wp_on_engine {A} (m : M A) (post : result A -> agent AS Msg -> Prop) st :
  wp m (fun r e => post r {| engine_of := e; state_of := state_of st;
                             outbox := outbox st; sends := sends st |})
     (engine_of st) ->
  wp (on_engine m) post st.
Proof. unfold wp, on_engine. by destruct (m (engine_of st)). Qed.

Lemma wp_on_state {A} (m : ST AS A) (post : result A -> agent AS Msg -> Prop) st :
  wp m (fun r s => post r {| engine_of := engine_of st; state_of := s;
                             outbox := outbox st; sends := sends st |})
     (state_of st) ->
  wp (on_state m) post st.
Proof. unfold wp, on_state. by destruct (m (state_of st)). Qed.

(** Code on [agent_state] alone leaves the engine and the outbox as they are. *)
Lemma wp_on_state_frame {A} (m : ST AS A) (post : result A -> agent AS Msg -> Prop) st :
  (forall r s, post r {| engine_of := engine_of st; state_of := s;
                         outbox := outbox st; sends := sends st |}) ->
  wp (on_state m) post st.
Proof. intros H. apply wp_on_state. unfold wp. apply H. Qed.

(** A loop invariant indexed by the number of elements processed. *)
Lemma wp_for_each_m {S A B} (f : B -> A -> ST S B) (I : nat -> B -> S -> Prop)
    (E : S -> Prop) (l : list A) :
  (forall n acc x st, I n acc st ->
     wp (f acc x) (fun r st' => match r with
                                | Ok acc' => I (Datatypes.S n) acc' st'
                                | Raise _ => E st'
                                end) st) ->
  forall n acc st, I n acc st ->
    wp (for_each_m f acc l) (fun r st' => match r with
                                          | Ok acc' => I (n + length l)%nat acc' st'
                                          | Raise _ => E st'
                                          end) st.
Proof.
  intros Hf. induction l as [|x l IH]; intros n acc st HI; cbn [for_each_m length].
  - apply wp_ret. by rewrite Nat.add_0_r.
  - apply wp_bind. eapply wp_mono; [by apply Hf|].
    intros [acc'|e] st' H; [|done].
    replace (n + Datatypes.S (length l))%nat with (Datatypes.S n + length l)%nat by lia.
    by apply IH.
Qed.
End AgentWP.

Section Assessor.
Context (cfg : Config) (w : World).
Context (send_fault : nat -> option exn) (isoformat : Q -> string).
Hypothesis weights_nonneg : forall c, 0 <= RISK_WEIGHTS cfg c.

Lemma assess_event_spec box n acc analyzed st :
  batch_inv cfg box n acc st ->
  wp (RiskAssessor.assess_event cfg w acc analyzed)
     (fun r st' => match r with
                   | Ok acc' => batch_inv cfg box (S n) acc' st'
                   | Raise _ => outbox st' = box
                   end) st.
Proof.
  destruct acc as [[ras ces] recs]. intros (Hbox & Hok & Hlen & Hall & Hces).
  cbn [fst snd] in *.
  unfold RiskAssessor.assess_event.
  set (pe := EventProcessor.event analyzed). cbv zeta.
  apply wp_bind, wp_on_engine.
  destruct (assess_in_range cfg w (EventObject pe) (engine_of st) weights_nonneg Hok)
    as [Hok' Hr].
  unfold wp at 1.
  destruct (assess_comprehensive_risk cfg w (EventObject pe) (engine_of st)) as [ra e1].
  cbn [fst snd] in *.
  set (entry := {| RiskAssessor.ad_transaction_hash := transaction_hash pe;
                   RiskAssessor.ad_event_type := EventType_value (event_type pe);
                   RiskAssessor.ad_risk_score := overall_score ra;
                   RiskAssessor.ad_confidence := assessment_confidence ra;
                   RiskAssessor.ad_risk_category := RiskCategory_value (risk_category ra);
                   RiskAssessor.ad_factors := assessment_factors ra;
                   RiskAssessor.ad_recommendation := recommendation ra;
                   RiskAssessor.ad_details := details ra |}).
  assert (Forall assessment_in_range (ras ++ [entry])) as Hall'.
  { apply Forall_app. split; [done|]. apply Forall_cons_2; [exact Hr|constructor]. }
  apply wp_bind, wp_on_state. unfold wp at 1.
  destruct (RiskAssessor.incr_risk_category _ _) as [[[]|x] s1]; cbn [fst snd]; [|done].
  destruct (Qgeb (overall_score ra) (CRITICAL_RISK_THRESHOLD cfg)) eqn:Hcrit.
  - apply wp_bind, wp_on_state. unfold wp at 1, modify; cbn [fst snd].
    apply wp_ret. unfold batch_inv; cbn [fst snd outbox engine_of].
    split_and!; try done.
    + rewrite length_app. cbn. lia.
    + rewrite filter_app, map_app, <- Hces. f_equal.
      rewrite filter_cons_True by (unfold entry; cbn; by rewrite Hcrit). reflexivity.
  - assert (filter (fun ra0 => Is_true (Qgeb (RiskAssessor.ad_risk_score ra0)
                                             (CRITICAL_RISK_THRESHOLD cfg)))
                   (ras ++ [entry])
            = filter (fun ra0 => Is_true (Qgeb (RiskAssessor.ad_risk_score ra0)
                                               (CRITICAL_RISK_THRESHOLD cfg))) ras) as Hf.
    { rewrite filter_app, filter_cons_False, filter_nil, app_nil_r; [done|].
      unfold entry. cbn. rewrite Hcrit. intros []. }
    destruct (Qgeb (overall_score ra) (HIGH_RISK_THRESHOLD cfg)).
    + apply wp_bind, wp_on_state. unfold wp at 1, modify; cbn [fst snd].
      apply wp_ret. unfold batch_inv; cbn [fst snd outbox engine_of].
      split_and!; try done; [rewrite length_app; cbn; lia|by rewrite Hf].
    + apply wp_ret. unfold batch_inv; cbn [fst snd outbox engine_of].
      split_and!; try done; [rewrite length_app; cbn; lia|by rewrite Hf].
Qed.

Context (sender : string) (msg : Comm.EventAnalysisResult).

Lemma sent_between_snoc {AS Msg} (P : string * Msg -> Prop) box sent m
    (st' : agent AS Msg) :
  Forall P sent -> P m -> outbox st' = (box ++ sent) ++ [m] -> sent_between P box st'.
Proof.
  intros Hs Hm Heq. exists (sent ++ [m]). rewrite Heq, app_assoc. split; [done|].
  apply Forall_app. split; [done|]. by apply Forall_cons_2.
Qed.

Lemma error_reply_ok e :
  assessor_reply cfg sender msg
    (sender, RiskAssessor.Result (RiskAssessor.error_result (Comm.ear_request_id msg) e)).
Proof.
  split; [done|]. cbn. split_and!; [done|lra|lra|]. left. by exists e.
Qed.

Lemma mean_score_unit ras :
  Forall assessment_in_range ras -> 0 <= mean_score ras /\ mean_score ras <= 1.
Proof.
  intros Hall. destruct ras as [|ra ras]; [cbn; lra|].
  unfold mean_score. rewrite <- (length_map RiskAssessor.ad_risk_score).
  apply mean_unit; [done|].
  apply Forall_map. eapply Forall_impl; [exact Hall|]. by intros x [Hx _].
Qed.

(** The [except] branch, entered after the messages [sent]. *)
Lemma except_branch_spec e box sent st :
  outbox st = box ++ sent ->
  Forall (assessor_reply cfg sender msg) sent ->
  wp (do _ <- on_state (RiskAssessor.incr_communication_stat "errors_handled");
      do _ <- ctx_send send_fault sender
                (RiskAssessor.Result
                   (RiskAssessor.error_result (Comm.ear_request_id msg) e));
      do t <- on_engine (now w);
      do _ <- ctx_send send_fault sender
                (RiskAssessor.Error
                   {| Comm.error_type := "assessment_error";
                      Comm.error_message := exn_str e;
                      Comm.err_request_id := Comm.ear_request_id msg;
                      Comm.err_agent_name := RiskAssessor.AGENT_NAME;
                      Comm.err_timestamp := isoformat t |});
      ret tt)
     (fun _ st' => sent_between (assessor_reply cfg sender msg) box st') st.
Proof.
  intros Hbox Hsent.
  apply wp_bind, wp_on_state_frame. intros [[]|x] s; [|by exists sent].
  apply wp_bind, wp_ctx_send; cbn [outbox]; [intros; by exists sent|intros _].
  apply wp_bind, wp_on_engine, wp_now. cbn [outbox engine_of state_of sends].
  apply wp_bind, wp_ctx_send; cbn [outbox]; intros.
  - eapply sent_between_snoc; [exact Hsent|apply error_reply_ok|by rewrite Hbox].
  - apply wp_ret. rewrite Hbox.
    match goal with
    | |- sent_between _ _ {| outbox := (_ ++ [?r]) ++ [?m] |} =>
        apply (sent_between_snoc _ box (sent ++ [r]) m)
    end; [|done|cbn [outbox]; by rewrite (app_assoc box)].
    apply Forall_app. split; [done|]. apply Forall_cons_2; [apply error_reply_ok|done].
Qed.

Lemma handle_event_analysis_result_spec st :
  cache_ok (engine_of st) ->
  wp (RiskAssessor.handle_event_analysis_result cfg w send_fault isoformat sender msg)
     (fun _ st' => sent_between (assessor_reply cfg sender msg) (outbox st) st') st.
Proof.
  intros Hok. set (box := outbox st). unfold RiskAssessor.handle_event_analysis_result.
  apply wp_bind, wp_on_state_frame. intros [[]|x] s; [|by exists []; rewrite app_nil_r].
  apply wp_bind, wp_on_engine, wp_now. cbn [outbox engine_of state_of sends].
  match goal with |- wp (try_except _ ?h) _ _ => set (handler := h) end.
  assert (forall e sent st1, outbox st1 = box ++ sent ->
            Forall (assessor_reply cfg sender msg) sent ->
            wp (handler e) (fun _ st' => sent_between (assessor_reply cfg sender msg) box st')
               st1) as Hexc.
  { intros e sent st1. apply except_branch_spec. }
  clearbody handler.
  apply wp_try_except.
  apply wp_bind, wp_on_engine, wp_now. cbn [outbox engine_of state_of sends].
  apply wp_bind, wp_ctx_send; cbn [outbox engine_of state_of sends].
  { intros e _. apply (Hexc e []); [by rewrite app_nil_r|done]. }
  intros _.
  match goal with |- wp _ _ ?s => set (st1 := s) end.
  set (ack := (sender, RiskAssessor.Acknowledgment _)) in *.
  assert (assessor_reply cfg sender msg ack) as Hack by done.
  apply wp_bind.
  eapply wp_mono.
  { apply (wp_for_each_m (RiskAssessor.assess_event cfg w)
             (batch_inv cfg (box ++ [ack])) (fun st' => outbox st' = box ++ [ack])
             (Comm.processed_events msg)
             (fun n acc x st0 => assess_event_spec (box ++ [ack]) n acc x st0)
             0%nat ([], [], []) st1).
    unfold batch_inv, st1. cbn. split_and!; done. }
  cbv beta. intros [[[ras ces] recs]|e] st2; cbn [fst snd].
  2:{ intros Hb. apply (Hexc e [ack]); [done|by apply Forall_cons_2]. }
  rewrite Nat.add_0_l. intros (Hbox & Hok2 & Hlen & Hall & Hces). cbn [fst snd] in *.
  apply wp_bind, wp_on_engine, wp_now. cbn [outbox engine_of state_of sends].
  apply wp_bind, wp_on_state_frame. intros [[]|x] s'.
  2:{ apply (Hexc x [ack]); [done|by apply Forall_cons_2]. }
  apply wp_bind, wp_ctx_send; cbn [outbox engine_of state_of sends].
  { intros e _. apply (Hexc e [ack]); [done|by apply Forall_cons_2]. }
  intros _.
  match goal with |- context [RiskAssessor.Result ?r] => set (result := r) end.
  assert (assessor_reply cfg sender msg (sender, RiskAssessor.Result result)) as Hres.
  { split; [done|]. cbn [snd]. split; [done|]. split.
    - apply (mean_score_unit ras Hall).
    - right. unfold regular_result. cbn. split_and!; done. }
  assert (Forall (assessor_reply cfg sender msg) [ack; (sender, RiskAssessor.Result result)])
    as Hboth by (by repeat apply Forall_cons_2).
  apply wp_bind, wp_on_state_frame. intros [[]|x] s''.
  - apply wp_ret. exists [ack; (sender, RiskAssessor.Result result)].
    cbn [outbox]. rewrite Hbox, <- app_assoc. done.
  - apply (Hexc x [ack; (sender, RiskAssessor.Result result)]); [|done].
    cbn [outbox]. rewrite Hbox, <- app_assoc. done.
Qed.
End Assessor.

(** X20.  Whatever the world answers, whichever calls of [ctx.send] fail and
    whatever the agent's counters hold, everything the risk assessor sends
    while it handles an analysis result goes to the sender of that result;
    every [RiskAssessmentResult] among it carries the request id of the
    message and an overall score between 0 and 1, and is either the error
    result or has one assessment per processed event, each with score and
    confidence between 0 and 1, the mean of the scores as overall score and,
    as critical events, exactly the assessments at or above the critical
    threshold, in order. *)
Theorem X20_risk_assessor_replies (cfg : Config) (w : World)
    (send_fault : nat -> option exn) (isoformat : Q -> string)
    (sender : string) (msg : Comm.EventAnalysisResult) (st : RiskAssessor.run_state) :
  (forall c, 0 <= RISK_WEIGHTS cfg c) ->
  cache_ok (engine_of st) ->
  sent_between (assessor_reply cfg sender msg) (outbox st)
    (snd (RiskAssessor.handle_event_analysis_result cfg w send_fault isoformat
            sender msg st)).
Proof.
  intros Hw Hok.
  exact (handle_event_analysis_result_spec cfg w send_fault isoformat Hw sender msg st Hok).
Qed.

Lemma X20_risk_assessor_replies_witness :
  sent_between (assessor_reply default_config "agent1qorchestrator" one_transfer_analysis) []
    (snd (RiskAssessor.handle_event_analysis_result default_config
            (online_world 1700000000)
            (fun n => match n with 1%nat => Some (Exn "RuntimeError" "send failed") | _ => None end)
            (fun _ => "2024-01-01T00:00:00")
            "agent1qorchestrator" one_transfer_analysis started_assessor)).
Proof.
  apply (X20_risk_assessor_replies default_config (online_world 1700000000) _ _
           "agent1qorchestrator" one_transfer_analysis started_assessor).
  - intros c; destruct c; vm_compute; discriminate.
  - apply cache_ok_new.
Defined.
(** ** The risk assessor's handler when nothing fails *)

Lemma wp_and {S A} (m : ST S A) (P Q : result A -> S -> Prop) st :
  wp m P st -> wp m Q st -> wp m (fun r st' => P r st' /\ Q r st') st.
Proof. unfold wp. auto. Qed.

Lemma incr_key_present key d :
  is_Some (d !! key) ->
  exists d', incr_key key d = Ok d' /\ forall k, is_Some (d !! k) -> is_Some (d' !! k).
Proof.
  intros [n Hn]. unfold incr_key. rewrite Hn. eexists. split; [done|].
  intros k Hk. apply lookup_insert_is_Some'. by right.
Qed.

Section AssessorAnswers.
Context (cfg : Config) (w : World).
Context (send_fault : nat -> option exn) (isoformat : Q -> string).
Hypothesis weights_nonneg : forall c, 0 <= RISK_WEIGHTS cfg c.
Hypothesis no_send_fault : forall n, send_fault n = None.

Lemma wp_incr_communication_stat key (post : result unit -> _ -> Prop) s :
  is_Some (RiskAssessor.communication_stats s !! key) ->
  (forall d', (forall k, is_Some (RiskAssessor.communication_stats s !! k)
                         -> is_Some (d' !! k)) ->
              post (Ok tt) (RiskAssessor.set_communication_stats d' s)) ->
  wp (RiskAssessor.incr_communication_stat key) post s.
Proof.
  intros Hk Hpost. destruct (incr_key_present _ _ Hk) as (d' & E & Hd').
  unfold wp, RiskAssessor.incr_communication_stat, bind, get_state, lift, modify.
  cbn [fst snd]. rewrite E. cbn [fst snd]. by apply Hpost.
Qed.

Lemma wp_incr_risk_category key (post : result unit -> _ -> Prop) s :
  is_Some (RiskAssessor.risk_categories s !! key) ->
  (forall d', (forall k, is_Some (RiskAssessor.risk_categories s !! k)
                         -> is_Some (d' !! k)) ->
              post (Ok tt) (RiskAssessor.set_risk_categories d' s)) ->
  wp (RiskAssessor.incr_risk_category key) post s.
Proof.
  intros Hk Hpost. destruct (incr_key_present _ _ Hk) as (d' & E & Hd').
  unfold wp, RiskAssessor.incr_risk_category, bind, get_state, lift, modify.
  cbn [fst snd]. rewrite E. cbn [fst snd]. by apply Hpost.
Qed.

(** With its counters in place, one turn of the loop raises nothing and
    touches neither [assessments_completed] nor the outbox. *)
Lemma assess_event_returns (c0 : Z) acc analyzed (st : RiskAssessor.run_state) :
  counters_ok (state_of st) /\ RiskAssessor.assessments_completed (state_of st) = c0 ->
  wp (RiskAssessor.assess_event cfg w acc analyzed)
     (fun r st' => (exists acc', r = Ok acc')
                   /\ counters_ok (state_of st')
                   /\ RiskAssessor.assessments_completed (state_of st') = c0) st.
Proof.
  destruct acc as [[ras ces] recs]. intros [(Hcat & Hrecv & Hsent) Hc0].
  unfold RiskAssessor.assess_event. cbv zeta.
  apply wp_bind, wp_on_engine. unfold wp at 1.
  destruct (assess_comprehensive_risk cfg w _ (engine_of st)) as [ra e1].
  cbn [fst snd].
  apply wp_bind, wp_on_state, wp_incr_risk_category;
    cbn [state_of engine_of outbox sends]; [apply Hcat|].
  intros d' Hd'.
  assert (counters_ok (RiskAssessor.set_risk_categories d' (state_of st))) as Hc'.
  { split_and!; [|done|done]. intros c. apply Hd', Hcat. }
  destruct (Qgeb (overall_score ra) (CRITICAL_RISK_THRESHOLD cfg));
    [|destruct (Qgeb (overall_score ra) (HIGH_RISK_THRESHOLD cfg))].
  - apply wp_bind, wp_on_state, wp_modify. cbn [state_of]. apply wp_ret.
    cbn [state_of]. split; [eauto|]. split; [done|]. cbn. lia.
  - apply wp_bind, wp_on_state, wp_modify. cbn [state_of]. apply wp_ret.
    cbn [state_of]. split; [eauto|]. split; [done|]. cbn. lia.
  - apply wp_ret. cbn [state_of]. split; [eauto|]. done.
Qed.

Lemma handle_event_analysis_result_returns sender msg st :
  cache_ok (engine_of st) ->
  counters_ok (state_of st) ->
  wp (RiskAssessor.handle_event_analysis_result cfg w send_fault isoformat sender msg)
     (fun r st' =>
        r = Ok tt
        /\ (exists ack res,
              outbox st' = outbox st ++ [ (sender, RiskAssessor.Acknowledgment ack);
                                          (sender, RiskAssessor.Result res) ]
              /\ RiskAssessor.rar_request_id res = Comm.ear_request_id msg
              /\ regular_result cfg msg res)
        /\ counters_ok (state_of st')
        /\ cache_ok (engine_of st')
        /\ RiskAssessor.assessments_completed (state_of st')
           = (RiskAssessor.assessments_completed (state_of st) + 1)%Z) st.
Proof.
  intros Hok (Hcat & Hrecv & Hsent). set (box := outbox st).
  unfold RiskAssessor.handle_event_analysis_result.
  apply wp_bind, wp_on_state, wp_incr_communication_stat; [done|].
  intros d0 Hd0. cbn [state_of engine_of outbox sends].
  apply wp_bind, wp_on_engine, wp_now. cbn [outbox engine_of state_of sends].
  apply wp_try_except.
  apply wp_bind, wp_on_engine, wp_now. cbn [outbox engine_of state_of sends].
  apply wp_bind, wp_ctx_send; cbn [outbox engine_of state_of sends].
  { intros e He. by rewrite no_send_fault in He. }
  intros _.
  match goal with |- wp _ _ ?s => set (st1 := s) end.
  match goal with
  | st1 := {| outbox := _ ++ [(_, RiskAssessor.Acknowledgment ?a)] |} |- _ =>
      set (ack := a) in *
  end.
  apply wp_bind.
  eapply wp_mono.
  { apply wp_and.
    - apply (wp_for_each_m (RiskAssessor.assess_event cfg w)
               (batch_inv cfg (box ++ [(sender, RiskAssessor.Acknowledgment ack)]))
               (fun _ => True)
               (Comm.processed_events msg)).
      + intros n acc x st0 Hb.
        eapply wp_mono;
          [exact (assess_event_spec cfg w weights_nonneg _ n acc x st0 Hb)|].
        by intros [?|?].
      + instantiate (1 := 0%nat). unfold batch_inv, st1. cbn. split_and!; done.
    - apply (wp_for_each_m (RiskAssessor.assess_event cfg w)
               (fun _ _ st' =>
                  counters_ok (state_of st')
                  /\ RiskAssessor.assessments_completed (state_of st')
                     = RiskAssessor.assessments_completed (state_of st))
               (fun _ => False)
               (Comm.processed_events msg)).
      + intros n acc x st0 Hb.
        eapply wp_mono; [exact (assess_event_returns _ acc x st0 Hb)|].
        intros r st' ([acc' ->] & H1 & H2). done.
      + exact 0%nat.
      + unfold st1. cbn [state_of]. split; [|done].
        split_and!; [done|by apply Hd0|by apply Hd0]. }
  cbv beta. intros [[[ras ces] recs]|e] st2; cbn [fst snd]; [|by intros [_ []]].
  rewrite Nat.add_0_l.
  intros [(Hbox & Hok2 & Hlen & Hall & Hces) [(Hcat2 & Hrecv2 & Hsent2) Hc2]].
  cbn [fst snd] in *.
  apply wp_bind, wp_on_engine, wp_now. cbn [outbox engine_of state_of sends].
  apply wp_bind, wp_on_state, wp_modify. cbn [outbox engine_of state_of sends].
  apply wp_bind, wp_ctx_send; cbn [outbox engine_of state_of sends].
  { intros e He. by rewrite no_send_fault in He. }
  intros _.
  apply wp_bind, wp_on_state, wp_incr_communication_stat; [done|].
  intros d1 Hd1. cbn [state_of engine_of outbox sends].
  apply wp_ret. cbn [state_of engine_of outbox sends].
  split; [done|]. split.
  - eexists _, _. split; [by rewrite Hbox, <- app_assoc|].
    split; [done|]. unfold regular_result. cbn. split_and!; done.
  - split; [|split; [by eapply cache_ok_same|cbn; lia]].
    split; [exact Hcat2|]. split; by apply Hd1.
Qed.
End AssessorAnswers.

(** X21.  When no call of [ctx.send] fails and the counters the handler
    increments are present in [agent_state] (as they are at start-up), the
    risk assessor's handler returns normally having sent the sender exactly
    two messages, an acknowledgment and then one result; that result carries
    the request id of the message and is a regular one: one assessment per
    processed event, each in range, the mean score, the critical events and
    the confidence computed from them.  The counters are still present
    afterwards and [assessments_completed] has grown by one. *)
Theorem X21_risk_assessor_answers (cfg : Config) (w : World)
    (send_fault : nat -> option exn) (isoformat : Q -> string)
    (sender : string) (msg : Comm.EventAnalysisResult) (st : RiskAssessor.run_state) :
  (forall c, 0 <= RISK_WEIGHTS cfg c) ->
  (forall n, send_fault n = None) ->
  cache_ok (engine_of st) ->
  counters_ok (state_of st) ->
  let out := RiskAssessor.handle_event_analysis_result cfg w send_fault isoformat
               sender msg st in
  fst out = Ok tt
  /\ (exists ack res,
        outbox (snd out) = outbox st ++ [ (sender, RiskAssessor.Acknowledgment ack);
                                          (sender, RiskAssessor.Result res) ]
        /\ RiskAssessor.rar_request_id res = Comm.ear_request_id msg
        /\ regular_result cfg msg res)
  /\ counters_ok (state_of (snd out))
  /\ cache_ok (engine_of (snd out))
  /\ RiskAssessor.assessments_completed (state_of (snd out))
     = (RiskAssessor.assessments_completed (state_of st) + 1)%Z.
Proof.
  intros Hw Hs Hok Hc.
  exact (handle_event_analysis_result_returns cfg w send_fault isoformat Hw Hs
           sender msg st Hok Hc).
Qed.

Lemma X21_risk_assessor_answers_witness :
  let out := RiskAssessor.handle_event_analysis_result default_config
               (online_world 1700000000) (fun _ => None) (fun _ => "2024-01-01T00:00:00")
               "agent1qorchestrator" one_transfer_analysis started_assessor in
  fst out = Ok tt
  /\ (exists ack res,
        outbox (snd out)
        = outbox started_assessor
          ++ [ ("agent1qorchestrator", RiskAssessor.Acknowledgment ack);
               ("agent1qorchestrator", RiskAssessor.Result res) ]
        /\ RiskAssessor.rar_request_id res = Comm.ear_request_id one_transfer_analysis
        /\ regular_result default_config one_transfer_analysis res)
  /\ counters_ok (state_of (snd out))
  /\ cache_ok (engine_of (snd out))
  /\ RiskAssessor.assessments_completed (state_of (snd out))
     = (RiskAssessor.assessments_completed (state_of started_assessor) + 1)%Z.
Proof.
  apply (X21_risk_assessor_answers default_config (online_world 1700000000) (fun _ => None)
           (fun _ => "2024-01-01T00:00:00") "agent1qorchestrator" one_transfer_analysis
           started_assessor).
  - intros c; destruct c; vm_compute; discriminate.
  - reflexivity.
  - apply cache_ok_new.
  - split; [intros c; destruct c; vm_compute; eauto|split; vm_compute; eauto].
Defined.
(** ** The event analyzer's handler *)

Section Analyzer.
Context (cfg : Config) (w : World) (list_set : list string -> list string).
Context (send_fault : nat -> option exn) (isoformat : Q -> string).
Context (sender : string) (msg : Orchestrator.AgentEventAnalysisRequest).

(** Both calls of [super().preprocess_event] fail, the second one outside
    any handler; the engine is not touched. *)
Lemma preprocess_event_raises candidate_event st :
  EventProcessor.preprocess_event cfg w list_set candidate_event st
  = (Raise (AttributeError "'super' object has no attribute 'preprocess_event'"), st).
Proof. reflexivity. Qed.

Lemma analyze_event_raises acc candidate_event (st : EventAnalyzer.run_state) :
  EventAnalyzer.analyze_event cfg w list_set acc candidate_event st
  = (Raise (AttributeError "'super' object has no attribute 'preprocess_event'"), st).
Proof.
  destruct acc as [pes pds]. unfold EventAnalyzer.analyze_event, bind, on_engine.
  rewrite preprocess_event_raises. by destruct st.
Qed.

Lemma for_each_analyze_event acc evs (st : EventAnalyzer.run_state) :
  for_each_m (EventAnalyzer.analyze_event cfg w list_set) acc evs st
  = match evs with
    | [] => (Ok acc, st)
    | _ => (Raise (AttributeError "'super' object has no attribute 'preprocess_event'"),
            st)
    end.
Proof.
  destruct evs as [|ev evs]; [done|].
  cbn [for_each_m]. unfold bind. by rewrite analyze_event_raises.
Qed.

Lemma analyzer_error_reply_ok e :
  analyzer_reply sender
    (sender, EventAnalyzer.Result
               (EventAnalyzer.error_result (Orchestrator.aer_request_id msg) e)).
Proof. done. Qed.

(** The [except] branch, entered after the messages [sent]. *)
Lemma analyzer_except_branch_spec e box sent (st : EventAnalyzer.run_state) :
  outbox st = box ++ sent ->
  Forall (analyzer_reply sender) sent ->
  wp (do _ <- on_state (EventAnalyzer.incr_communication_stat "errors_handled");
      do _ <- ctx_send send_fault sender
                (EventAnalyzer.Result
                   (EventAnalyzer.error_result (Orchestrator.aer_request_id msg) e));
      do t <- on_engine (now w);
      do _ <- ctx_send send_fault sender
                (EventAnalyzer.Error
                   {| Comm.error_type := "processing_error";
                      Comm.error_message := exn_str e;
                      Comm.err_request_id := Orchestrator.aer_request_id msg;
                      Comm.err_agent_name := EventAnalyzer.AGENT_NAME;
                      Comm.err_timestamp := isoformat t |});
      ret tt)
     (fun _ st' => sent_between (analyzer_reply sender) box st') st.
Proof.
  intros Hbox Hsent.
  apply wp_bind, wp_on_state_frame. intros [[]|x] s; [|by exists sent].
  apply wp_bind, wp_ctx_send; cbn [outbox]; [intros; by exists sent|intros _].
  apply wp_bind, wp_on_engine, wp_now. cbn [outbox engine_of state_of sends].
  apply wp_bind, wp_ctx_send; cbn [outbox]; intros.
  - eapply sent_between_snoc; [exact Hsent|apply analyzer_error_reply_ok|by rewrite Hbox].
  - apply wp_ret. rewrite Hbox.
    match goal with
    | |- sent_between _ _ {| outbox := (_ ++ [?r]) ++ [?m] |} =>
        apply (sent_between_snoc _ box (sent ++ [r]) m)
    end; [|done|cbn [outbox]; by rewrite (app_assoc box)].
    apply Forall_app. split; [done|].
    apply Forall_cons_2; [apply analyzer_error_reply_ok|done].
Qed.

Lemma handle_event_analysis_request_spec (st : EventAnalyzer.run_state) :
  wp (EventAnalyzer.handle_event_analysis_request cfg w list_set send_fault isoformat
        sender msg)
     (fun _ st' => sent_between (analyzer_reply sender) (outbox st) st') st.
Proof.
  set (box := outbox st). unfold EventAnalyzer.handle_event_analysis_request.
  apply wp_bind, wp_on_state_frame. intros [[]|x] s; [|by exists []; rewrite app_nil_r].
  apply wp_bind, wp_on_engine, wp_now. cbn [outbox engine_of state_of sends].
  match goal with |- wp (try_except _ ?h) _ _ => set (handler := h) end.
  assert (forall e sent st1, outbox st1 = box ++ sent ->
            Forall (analyzer_reply sender) sent ->
            wp (handler e) (fun _ st' => sent_between (analyzer_reply sender) box st') st1)
    as Hexc.
  { intros e sent st1. apply analyzer_except_branch_spec. }
  clearbody handler.
  apply wp_try_except.
  apply wp_bind, wp_on_engine, wp_now. cbn [outbox engine_of state_of sends].
  apply wp_bind, wp_ctx_send; cbn [outbox engine_of state_of sends].
  { intros e _. apply (Hexc e []); [by rewrite app_nil_r|done]. }
  intros _.
  match goal with |- wp _ _ ?s => set (st1 := s) end.
  set (ack := (sender, EventAnalyzer.Acknowledgment _)) in *.
  assert (analyzer_reply sender ack) as Hack by done.
  apply wp_bind. unfold wp at 1. rewrite for_each_analyze_event.
  destruct (Orchestrator.aer_candidate_events msg) as [|ev evs]; cbn [fst snd].
  2:{ apply (Hexc _ [ack]); [done|by apply Forall_cons_2]. }
  apply wp_bind, wp_on_engine, wp_now. cbn [outbox engine_of state_of sends].
  apply wp_bind, wp_on_state_frame. intros [transfer_events|x] s1.
  2:{ apply (Hexc x [ack]); [done|by apply Forall_cons_2]. }
  apply wp_bind, wp_on_state_frame. intros [approval_events|x] s2.
  2:{ apply (Hexc x [ack]); [done|by apply Forall_cons_2]. }
  apply wp_bind, wp_ctx_send; cbn [outbox engine_of state_of sends].
  { intros e _. apply (Hexc e [ack]); [done|by apply Forall_cons_2]. }
  intros _.
  match goal with |- context [EventAnalyzer.Result ?r] => set (result := r) end.
  assert (Forall (analyzer_reply sender) [ack; (sender, EventAnalyzer.Result result)])
    as Hboth by (by repeat apply Forall_cons_2).
  apply wp_bind, wp_on_state_frame. intros [[]|x] s3.
  - apply wp_ret. exists [ack; (sender, EventAnalyzer.Result result)].
    unfold st1, ack; cbn [outbox]. by rewrite <- app_assoc.
  - apply (Hexc x [ack; (sender, EventAnalyzer.Result result)]); [|done].
    unfold st1, ack; cbn [outbox]. by rewrite <- app_assoc.
Qed.

Lemma analyzer_incr_communication_stat key (post : result unit -> _ -> Prop) s :
  is_Some (EventAnalyzer.communication_stats s !! key) ->
  (forall d', (forall k, is_Some (EventAnalyzer.communication_stats s !! k)
                         -> is_Some (d' !! k)) ->
              post (Ok tt) (EventAnalyzer.set_communication_stats d' s)) ->
  wp (EventAnalyzer.incr_communication_stat key) post s.
Proof.
  intros Hk Hpost. destruct (incr_key_present _ _ Hk) as (d' & E & Hd').
  unfold wp, EventAnalyzer.incr_communication_stat, bind, get_state, lift, modify.
  cbn [fst snd]. rewrite E. cbn [fst snd]. by apply Hpost.
Qed.

Lemma handle_event_analysis_request_fails (st : EventAnalyzer.run_state) :
  (forall n, send_fault n = None) ->
  Orchestrator.aer_candidate_events msg <> [] ->
  is_Some (EventAnalyzer.communication_stats (state_of st) !! "requests_received") ->
  is_Some (EventAnalyzer.communication_stats (state_of st) !! "errors_handled") ->
  wp (EventAnalyzer.handle_event_analysis_request cfg w list_set send_fault isoformat
        sender msg)
     (fun r st' =>
        r = Ok tt
        /\ (exists ack err,
              outbox st'
              = outbox st
                ++ [ (sender, EventAnalyzer.Acknowledgment ack);
                     (sender,
                      EventAnalyzer.Result
                        (EventAnalyzer.error_result (Orchestrator.aer_request_id msg)
                           (AttributeError
                              "'super' object has no attribute 'preprocess_event'")));
                     (sender, EventAnalyzer.Error err) ]
              /\ Comm.error_message err
                 = "'super' object has no attribute 'preprocess_event'")
        /\ EventAnalyzer.events_processed (state_of st')
           = EventAnalyzer.events_processed (state_of st)) st.
Proof.
  intros Hs Hne Hrecv Herr. unfold EventAnalyzer.handle_event_analysis_request.
  apply wp_bind, wp_on_state, analyzer_incr_communication_stat; [done|].
  intros d0 Hd0. cbn [state_of engine_of outbox sends].
  apply wp_bind, wp_on_engine, wp_now. cbn [outbox engine_of state_of sends].
  apply wp_try_except.
  apply wp_bind, wp_on_engine, wp_now. cbn [outbox engine_of state_of sends].
  apply wp_bind, wp_ctx_send; cbn [outbox engine_of state_of sends].
  { intros e He. by rewrite Hs in He. }
  intros _.
  apply wp_bind. unfold wp at 1. rewrite for_each_analyze_event.
  destruct (Orchestrator.aer_candidate_events msg) as [|ev evs]; [done|].
  cbn [fst snd].
  apply wp_bind, wp_on_state, analyzer_incr_communication_stat;
    cbn [state_of engine_of outbox sends]; [by apply Hd0|].
  intros d1 Hd1.
  apply wp_bind, wp_ctx_send; cbn [outbox engine_of state_of sends].
  { intros e He. by rewrite Hs in He. }
  intros _.
  apply wp_bind, wp_on_engine, wp_now. cbn [outbox engine_of state_of sends].
  apply wp_bind, wp_ctx_send; cbn [outbox engine_of state_of sends].
  { intros e He. by rewrite Hs in He. }
  intros _. apply wp_ret. cbn [outbox engine_of state_of sends].
  split; [done|]. split; [|done].
  eexists _, _. split; [by rewrite <- !app_assoc|]. reflexivity.
Qed.
End Analyzer.

(** X22.  Whatever the request, the world, the failures of [ctx.send] and the
    agent's counters: everything the event analyzer sends while it handles an
    analysis request goes to the sender of the request, and no
    [EventAnalysisResult] among it carries a processed event or a pattern;
    its confidence score is 0.  ([preprocess_event] fails on every candidate
    event, so a result is the error result unless the request was empty.) *)
Theorem X22_event_analyzer_delivers_no_event (cfg : Config) (w : World)
    (list_set : list string -> list string)
    (send_fault : nat -> option exn) (isoformat : Q -> string)
    (sender : string) (msg : Orchestrator.AgentEventAnalysisRequest)
    (st : EventAnalyzer.run_state) :
  sent_between (analyzer_reply sender) (outbox st)
    (snd (EventAnalyzer.handle_event_analysis_request cfg w list_set send_fault isoformat
            sender msg st)).
Proof. exact (handle_event_analysis_request_spec cfg w list_set send_fault isoformat sender msg st). Qed.

(** X23.  A request with at least one candidate event, handled while no call
    of [ctx.send] fails and with the two counters in place, is answered by
    exactly three messages to the sender: the acknowledgment, the error result
    for the [AttributeError] of [super().preprocess_event], and the error
    notification with the same text.  The handler returns normally and
    [events_processed] is unchanged. *)
Theorem X23_event_analyzer_answers_with_error (cfg : Config) (w : World)
    (list_set : list string -> list string)
    (send_fault : nat -> option exn) (isoformat : Q -> string)
    (sender : string) (msg : Orchestrator.AgentEventAnalysisRequest)
    (st : EventAnalyzer.run_state) :
  (forall n, send_fault n = None) ->
  Orchestrator.aer_candidate_events msg <> [] ->
  is_Some (EventAnalyzer.communication_stats (state_of st) !! "requests_received") ->
  is_Some (EventAnalyzer.communication_stats (state_of st) !! "errors_handled") ->
  let out := EventAnalyzer.handle_event_analysis_request cfg w list_set send_fault
               isoformat sender msg st in
  fst out = Ok tt
  /\ (exists ack err,
        outbox (snd out)
        = outbox st
          ++ [ (sender, EventAnalyzer.Acknowledgment ack);
               (sender,
                EventAnalyzer.Result
                  (EventAnalyzer.error_result (Orchestrator.aer_request_id msg)
                     (AttributeError "'super' object has no attribute 'preprocess_event'")));
               (sender, EventAnalyzer.Error err) ]
        /\ Comm.error_message err = "'super' object has no attribute 'preprocess_event'")
  /\ EventAnalyzer.events_processed (state_of (snd out))
     = EventAnalyzer.events_processed (state_of st).
Proof.
  intros Hs Hne Hrecv Herr.
  exact (handle_event_analysis_request_fails cfg w list_set send_fault isoformat sender msg
           st Hs Hne Hrecv Herr).
Qed.

Lemma X23_event_analyzer_answers_with_error_witness :
  let out := EventAnalyzer.handle_event_analysis_request default_config
               (online_world 1700000000) remove_dups (fun _ => None)
               (fun _ => "2024-01-01T00:00:00") "agent1qorchestrator" one_event_request
               started_analyzer in
  fst out = Ok tt
  /\ (exists ack err,
        outbox (snd out)
        = outbox started_analyzer
          ++ [ ("agent1qorchestrator", EventAnalyzer.Acknowledgment ack);
               ("agent1qorchestrator",
                EventAnalyzer.Result
                  (EventAnalyzer.error_result
                     (Orchestrator.aer_request_id one_event_request)
                     (AttributeError "'super' object has no attribute 'preprocess_event'")));
               ("agent1qorchestrator", EventAnalyzer.Error err) ]
        /\ Comm.error_message err = "'super' object has no attribute 'preprocess_event'")
  /\ EventAnalyzer.events_processed (state_of (snd out))
     = EventAnalyzer.events_processed (state_of started_analyzer).
Proof.
  apply (X23_event_analyzer_answers_with_error default_config (online_world 1700000000)
           remove_dups (fun _ => None) (fun _ => "2024-01-01T00:00:00")
           "agent1qorchestrator" one_event_request started_analyzer).
  - reflexivity.
  - discriminate.
  - vm_compute; eauto.
  - vm_compute; eauto.
Defined.
(** ** The risk assessor's confidence *)

(** X24.  For assessments whose confidences lie between 0 and 1 and an event
    confidence between 0 and 1, [calculate_assessment_confidence] lies
    between 0 and 1 as well; on a non-empty batch it is 0.4 times the event
    confidence plus 0.6 times the mean assessment confidence, the cap at 1.0
    never taking effect. *)
Theorem X24_assessment_confidence_range (ras : list RiskAssessor.AssessmentDict)
    (event_confidence : Q) :
  Forall assessment_in_range ras ->
  0 <= event_confidence /\ event_confidence <= 1 ->
  (0 <= RiskAssessor.calculate_assessment_confidence ras event_confidence
   /\ RiskAssessor.calculate_assessment_confidence ras event_confidence <= 1)
  /\ (ras <> [] ->
      RiskAssessor.calculate_assessment_confidence ras event_confidence
      == event_confidence * (4#10)
         + Qsum (map RiskAssessor.ad_confidence ras) / inject_Z (Z.of_nat (length ras))
           * (6#10)).
Proof.
  intros Hall [H0 H1]. destruct ras as [|ra ras]; [split; [cbn; lra|done]|].
  unfold RiskAssessor.calculate_assessment_confidence. cbv zeta.
  destruct (mean_unit (map RiskAssessor.ad_confidence (ra :: ras))) as [Hm0 Hm1].
  { done. }
  { apply Forall_map. eapply Forall_impl; [exact Hall|]. by intros x [_ Hx]. }
  rewrite length_map in Hm0, Hm1.
  set (m := Qsum _ / _) in *. clearbody m.
  destruct (py_min_cases (event_confidence * (4#10) + m * (6#10)) 1) as [[? ->]|[? ->]].
  - lra.
  - split; [lra|]. intros _. reflexivity.
Qed.

Lemma X24_assessment_confidence_range_witness :
  let ras := [ {| RiskAssessor.ad_transaction_hash := "0x5e1f";
                  RiskAssessor.ad_event_type := "Transfer";
                  RiskAssessor.ad_risk_score := 1#2;
                  RiskAssessor.ad_confidence := 1;
                  RiskAssessor.ad_risk_category := "financial_impact";
                  RiskAssessor.ad_factors := [];
                  RiskAssessor.ad_recommendation := "MONITOR";
                  RiskAssessor.ad_details := ErrorDetails "none" |} ] in
  (0 <= RiskAssessor.calculate_assessment_confidence ras 1
   /\ RiskAssessor.calculate_assessment_confidence ras 1 <= 1)
  /\ (ras <> [] ->
      RiskAssessor.calculate_assessment_confidence ras 1
      == 1 * (4#10)
         + Qsum (map RiskAssessor.ad_confidence ras) / inject_Z (Z.of_nat (length ras))
           * (6#10)).
Proof.
  intros ras. apply (X24_assessment_confidence_range ras 1).
  - apply Forall_cons_2; [|constructor]. vm_compute. repeat split; discriminate.
  - split; vm_compute; discriminate.
Defined.
